(** * Modbus RTU master engine and passive monitor: a shallow embedding

    Sources embedded here:
    - [src/Templates/Modbus_Master_Base_v1.py]: [ModbusResponse],
      [ModbusMaster.calculate_crc], [_is_complete_frame], [_parse_response],
      [_send_frame], [_read_registers], [probe_device], [scan_slaves],
      [get_statistics];
    - [src/Poll_Rate_Finder/Poll_Rate_Finder_v1.py]: [RS485PassiveMonitor]
      with [_analyze_frame_validity], [_process_frame], [_update_wave_stats]
      and [get_current_rates].

    Conventions.  A Python [bytes] value is a [list Z] whose elements satisfy
    [is_byte]; Python's unbounded [int] is [Z]; Python's [float] is the
    kernel's binary64 [float]; [None] is [None]; a [datetime] is the number
    of microseconds since an arbitrary epoch (naive datetimes subtract
    exactly, with microsecond resolution); a raised exception is the [None]
    of an [option] result. *)

From Stdlib Require Import ZArith List Lia String Ascii Bool DecimalString.
From Stdlib Require Import Floats.
From stdpp Require Import gmap list.
Import ListNotations.
Open Scope Z_scope.

(** ** Python numbers *)

(** The numeric fields of the statistics dictionaries start as the [int] 0
    and later hold floats, so both shapes are kept apart. *)
Inductive pynum : Type :=
| PyInt (z : Z)
| PyFloat (f : float).

(** [float(z)].  Exact for [|z| < 2^53], which covers every counter and
    every microsecond difference within 285 years; above that bound Python
    rounds once where this conversion goes through a 63-bit integer. *)
Definition Z2float (z : Z) : float :=
  match z with
  | Z0 => PrimFloat.zero
  | Zpos _ => PrimFloat.of_uint63 (Uint63.of_Z z)
  | Zneg p => PrimFloat.opp (PrimFloat.of_uint63 (Uint63.of_Z (Zpos p)))
  end.

Definition py_to_float (x : pynum) : float :=
  match x with
  | PyInt z => Z2float z
  | PyFloat f => f
  end.

(** [x + y] *)
Definition py_add (x y : pynum) : pynum :=
  match x, y with
  | PyInt a, PyInt b => PyInt (a + b)
  | _, _ => PyFloat (PrimFloat.add (py_to_float x) (py_to_float y))
  end.

(** [x * y] *)
Definition py_mul (x y : pynum) : pynum :=
  match x, y with
  | PyInt a, PyInt b => PyInt (a * b)
  | _, _ => PyFloat (PrimFloat.mul (py_to_float x) (py_to_float y))
  end.

(** [x / y], true division: always a float.  Every call site guards the
    divisor against zero ([if total_requests > 0], [if stats['intervals']]). *)
Definition py_truediv (x y : pynum) : pynum :=
  PyFloat (PrimFloat.div (py_to_float x) (py_to_float y)).

(** [x < y] *)
Definition py_lt (x y : pynum) : bool :=
  match x, y with
  | PyInt a, PyInt b => a <? b
  | _, _ => PrimFloat.ltb (py_to_float x) (py_to_float y)
  end.

(** [min(a, b)] and [max(a, b)]: Python keeps the first argument on a tie. *)
Definition py_min (a b : pynum) : pynum := if py_lt b a then b else a.
Definition py_max (a b : pynum) : pynum := if py_lt a b then b else a.

(** [sum(xs)]: starts from the [int] 0 and adds left to right (from
    CPython 3.12 on a float sum is compensated; no statement below depends
    on how a sum is rounded). *)
Definition py_sum (xs : list pynum) : pynum := fold_left py_add xs (PyInt 0).

(** [len(xs)] *)
Definition py_len {A} (xs : list A) : Z := Z.of_nat (length xs).

(** [str(n)] for an [int]. *)
Definition py_str_int (n : Z) : string := NilZero.string_of_int (Z.to_int n).

(** ** Bytes and [struct] *)

Definition is_byte (b : Z) : Prop := 0 <= b < 256.
Definition is_bytes (d : list Z) : Prop := Forall is_byte d.

Definition is_byteb (b : Z) : bool := (0 <=? b) && (b <? 256).
Definition is_u16b (v : Z) : bool := (0 <=? v) && (v <? 65536).

(** [d[i]], used only where the source has already checked [len(d) > i]. *)
Definition byte_at (d : list Z) (i : nat) : Z := nth i d 0.

(** [d[:-n]] and [d[-n:]] for [n > 0]. *)
Definition drop_last (n : nat) (d : list Z) : list Z := firstn (length d - n) d.
Definition take_last (n : nat) (d : list Z) : list Z := skipn (length d - n) d.

(** [struct.pack('B', v)]: [struct.error] outside 0..255. *)
Definition pack_B (v : Z) : option (list Z) :=
  if is_byteb v then Some [v] else None.

(** [struct.pack('>H', v)]: big endian, [struct.error] outside 0..65535. *)
Definition pack_be_H (v : Z) : option (list Z) :=
  if is_u16b v then Some [Z.shiftr v 8; Z.land v 255] else None.

(** [struct.pack('<H', v)]: little endian. *)
Definition pack_le_H (v : Z) : option (list Z) :=
  if is_u16b v then Some [Z.land v 255; Z.shiftr v 8] else None.

(** [struct.unpack('<H', bs)[0]] on the two-byte slice [bs]. *)
Definition unpack_le_H (bs : list Z) : Z := byte_at bs 0 + 256 * byte_at bs 1.

(** [struct.unpack('>H', bs)[0]] on the two-byte slice [bs]. *)
Definition unpack_be_H (bs : list Z) : Z := 256 * byte_at bs 0 + byte_at bs 1.

(** ** CRC16 ([ModbusMaster.calculate_crc]) *)

(** One pass of the inner loop body:
    [if crc & 0x0001: crc = (crc >> 1) ^ 0xA001 else: crc >>= 1]. *)
Definition crc_shift (crc : Z) : Z :=
  if Z.land crc 1 =? 0 then Z.shiftr crc 1
  else Z.lxor (Z.shiftr crc 1) 0xA001.

(** [for _ in range(n): ...] *)
Fixpoint crc_shifts (n : nat) (crc : Z) : Z :=
  match n with
  | O => crc
  | S n' => crc_shifts n' (crc_shift crc)
  end.

(** The outer loop body: [crc ^= byte] followed by eight shifts. *)
Definition crc_byte (crc byte : Z) : Z := crc_shifts 8 (Z.lxor crc byte).

Definition calculate_crc (data : list Z) : Z :=
  Z.land (fold_left crc_byte data 0xFFFF) 0xFFFF.

(** ** [ModbusResponse] *)

(** The dataclass, field by field.  The [timestamp] field (wall-clock time of
    construction, set in [__post_init__]) is left out: nothing in the engine
    reads it back. *)
Record ModbusResponse : Type := mkResponse {
  slave_id : option Z;
  function_code : option Z;
  data : option (list Z);
  exception_code : option Z;
  timeout : bool;
  crc_error : bool;
  raw_frame : option (list Z)
}.

(** [ModbusResponse(timeout=True)] *)
Definition timeout_response : ModbusResponse :=
  mkResponse None None None None true false None.

Definition is_valid (r : ModbusResponse) : bool :=
  negb (timeout r) && negb (crc_error r).

Definition is_exception (r : ModbusResponse) : bool :=
  match exception_code r with
  | Some _ => true
  | None => false
  end.

(** The [exceptions] dictionary of [exception_name], as [dict.get] sees it. *)
Definition exceptions_get (code : Z) : option string :=
  match code with
  | 1 => Some "Illegal Function"
  | 2 => Some "Illegal Data Address"
  | 3 => Some "Illegal Data Value"
  | 4 => Some "Slave Device Failure"
  | 5 => Some "Acknowledge"
  | 6 => Some "Slave Device Busy"
  | 8 => Some "Memory Parity Error"
  | 10 => Some "Gateway Path Unavailable"
  | 11 => Some "Gateway Target Failed"
  | _ => None
  end%string.

(** The keys of that dictionary. *)
Definition exception_codes : list Z := [1; 2; 3; 4; 5; 6; 8; 10; 11].

(** [f"Unknown Exception ({code})"] *)
Definition unknown_exception (code : Z) : string :=
  ("Unknown Exception (" ++ py_str_int code ++ ")")%string.

Definition exception_name (r : ModbusResponse) : string :=
  match exception_code r with
  | None => "Normal Response"%string
  | Some code =>
      match exceptions_get code with
      | Some name => name
      | None => unknown_exception code
      end
  end.

(** ** [FunctionCode] *)

Inductive FunctionCode : Type :=
| READ_COILS
| READ_DISCRETE_INPUTS
| READ_HOLDING_REGISTERS
| READ_INPUT_REGISTERS
| WRITE_SINGLE_COIL
| WRITE_SINGLE_REGISTER
| WRITE_MULTIPLE_COILS
| WRITE_MULTIPLE_REGISTERS.

Definition value (fc : FunctionCode) : Z :=
  match fc with
  | READ_COILS => 0x01
  | READ_DISCRETE_INPUTS => 0x02
  | READ_HOLDING_REGISTERS => 0x03
  | READ_INPUT_REGISTERS => 0x04
  | WRITE_SINGLE_COIL => 0x05
  | WRITE_SINGLE_REGISTER => 0x06
  | WRITE_MULTIPLE_COILS => 0x0F
  | WRITE_MULTIPLE_REGISTERS => 0x10
  end.

(** ** The master: statistics, the serial line, frame codec *)

(** [self.stats] *)
Record Stats : Type := mkStats {
  requests_sent : Z;
  responses_received : Z;
  timeouts : Z;
  crc_errors : Z;
  exceptions : Z
}.

Definition initial_stats : Stats := mkStats 0 0 0 0 0.

(** What the serial line does during one [_send_frame].  [_read_response]
    is a polling loop on wall-clock time; only its result is modelled. *)
Inductive Exchange : Type :=
| WriteRaises          (* raises before the request is counted *)
| ReadRaises           (* [_read_response] raises *)
| ReadReturns (response_data : option (list Z)).

(** A scripted serial connection: the outcome of each successive exchange as
    a function of the frame written.  Past the end of the script the bus is
    silent ([in_waiting] stays 0 and [_read_response] returns [None]). *)
Definition Serial : Type := list (list Z -> Exchange).

Record ModbusMaster : Type := mkMaster {
  is_connected : bool;
  serial_connection : option Serial;
  stats : Stats
}.

Definition incr_requests_sent (s : Stats) : Stats :=
  mkStats (requests_sent s + 1) (responses_received s) (timeouts s)
          (crc_errors s) (exceptions s).
Definition incr_responses_received (s : Stats) : Stats :=
  mkStats (requests_sent s) (responses_received s + 1) (timeouts s)
          (crc_errors s) (exceptions s).
Definition incr_timeouts (s : Stats) : Stats :=
  mkStats (requests_sent s) (responses_received s) (timeouts s + 1)
          (crc_errors s) (exceptions s).
Definition incr_crc_errors (s : Stats) : Stats :=
  mkStats (requests_sent s) (responses_received s) (timeouts s)
          (crc_errors s + 1) (exceptions s).
Definition incr_exceptions (s : Stats) : Stats :=
  mkStats (requests_sent s) (responses_received s) (timeouts s)
          (crc_errors s) (exceptions s + 1).

Definition _is_complete_frame (buffer : list Z) : bool :=
  if py_len buffer <? 5 then false
  else if negb (Z.land (byte_at buffer 1) 0x80 =? 0) then 5 <=? py_len buffer
  else
    let function_code := byte_at buffer 1 in
    let default := 5 <=? py_len buffer in
    if (function_code =? 0x03) || (function_code =? 0x04) then
      if 3 <=? py_len buffer
      then 5 + byte_at buffer 2 <=? py_len buffer
      else default
    else if (function_code =? 0x01) || (function_code =? 0x02) then
      if 3 <=? py_len buffer
      then 5 + byte_at buffer 2 <=? py_len buffer
      else default
    else if (function_code =? 0x05) || (function_code =? 0x06)
            || (function_code =? 0x0F) || (function_code =? 0x10) then
      8 <=? py_len buffer
    else default.

(** [_parse_response], threading [self.stats]. *)
Definition _parse_response (st : Stats) (frame : list Z)
  : Stats * ModbusResponse :=
  if py_len frame <? 5 then (st, timeout_response)
  else
    let sid := byte_at frame 0 in
    let fc := byte_at frame 1 in
    let payload := drop_last 2 frame in
    let received_crc := unpack_le_H (take_last 2 frame) in
    let calculated_crc := calculate_crc payload in
    if negb (received_crc =? calculated_crc) then
      (incr_crc_errors st,
       mkResponse (Some sid) (Some fc) None None false true (Some frame))
    else
      let st := incr_responses_received st in
      if negb (Z.land fc 0x80 =? 0) then
        let exc := if 2 <? py_len frame then Some (byte_at frame 2) else None in
        (incr_exceptions st,
         mkResponse (Some sid) (Some (Z.land fc 0x7F)) None exc
                    false false (Some frame))
      else
        let response_data :=
          if 4 <? py_len frame then drop_last 2 (skipn 2 frame) else [] in
        (st,
         mkResponse (Some sid) (Some fc) (Some response_data) None
                    false false (Some frame)).

Definition set_stats (m : ModbusMaster) (st : Stats) : ModbusMaster :=
  mkMaster (is_connected m) (serial_connection m) st.

(** [_send_frame]: the connection guard, then one scripted exchange inside
    the [try]; any exception counts as a timeout. *)
Definition _send_frame (m : ModbusMaster) (frame : list Z)
  : ModbusMaster * ModbusResponse :=
  match is_connected m, serial_connection m with
  | true, Some line =>
      let outcome :=
        match line with
        | [] => ReadReturns None
        | ex :: _ => ex frame
        end in
      let m := mkMaster true (Some (tl line)) (stats m) in
      match outcome with
      | WriteRaises =>
          (set_stats m (incr_timeouts (stats m)), timeout_response)
      | ReadRaises =>
          (set_stats m (incr_timeouts (incr_requests_sent (stats m))),
           timeout_response)
      | ReadReturns response_data =>
          let st := incr_requests_sent (stats m) in
          match response_data with
          | None | Some [] =>
              (set_stats m (incr_timeouts st), timeout_response)
          | Some bytes =>
              let (st', r) := _parse_response st bytes in
              (set_stats m st', r)
          end
      end
  | _, _ => (m, timeout_response)
  end.

(** The four lines that [_read_registers] and [probe_device] share:
    [struct.pack('>HH', address, count)], the [struct.pack('BB', ...)] head,
    the CRC and its little-endian trailer.  [None] is [struct.error]. *)
Definition read_request_frame (slave fc address count : Z)
  : option (list Z) :=
  a ← pack_be_H address;
  c ← pack_be_H count;
  s ← pack_B slave;
  f ← pack_B fc;
  let frame := s ++ f ++ a ++ c in
  crc ← pack_le_H (calculate_crc frame);
  Some (frame ++ crc).

(** The register loop of [_read_registers]: two bytes at a time, big endian;
    a trailing odd byte fails [i + 1 < len(register_data)] and is skipped. *)
Fixpoint decode_registers (register_data : list Z) : list Z :=
  match register_data with
  | hi :: lo :: rest => unpack_be_H [hi; lo] :: decode_registers rest
  | _ => []
  end.

(** What [_read_registers] does with the response. *)
Definition registers_of_response (response : ModbusResponse)
  : option (list Z) * option string :=
  if timeout response then (None, Some "Request timeout"%string)
  else if crc_error response then (None, Some "CRC error in response"%string)
  else if is_exception response then
    (None, Some ("Modbus exception: " ++ exception_name response)%string)
  else
    match data response with
    | None | Some [] => (None, Some "Invalid response data"%string)
    | Some (byte_count :: rest) =>
        let register_data := firstn (Z.to_nat byte_count) rest in
        if negb (py_len register_data =? byte_count)
        then (None, Some "Incomplete register data"%string)
        else (Some (decode_registers register_data), None)
    end.

Definition _read_registers (m : ModbusMaster) (slave start_address count : Z)
  (fc : FunctionCode)
  : option (ModbusMaster * (option (list Z) * option string)) :=
  frame ← read_request_frame slave (value fc) start_address count;
  let (m', response) := _send_frame m frame in
  Some (m', registers_of_response response).

Definition read_holding_registers (m : ModbusMaster) (slave start count : Z) :=
  _read_registers m slave start count READ_HOLDING_REGISTERS.

Definition read_input_registers (m : ModbusMaster) (slave start count : Z) :=
  _read_registers m slave start count READ_INPUT_REGISTERS.

Definition probe_device (m : ModbusMaster) (slave test_address : Z)
  : option (ModbusMaster * ModbusResponse) :=
  frame ← read_request_frame slave (value READ_HOLDING_REGISTERS) test_address 1;
  Some (_send_frame m frame).

(** The loop of [scan_slaves] over the IDs of [slave_range], with its two
    accumulators; called without a progress callback.  The 10 ms sleep and
    the log line have no effect on the result. *)
Fixpoint scan_loop (slave_range : list Z) (m : ModbusMaster)
  (found_devices : list (option Z * ModbusResponse))
  (found_ids : gset (option Z))
  : option (ModbusMaster * list (option Z * ModbusResponse)) :=
  match slave_range with
  | [] => Some (m, found_devices)
  | sid :: rest =>
      '(m', response) ← probe_device m sid 65535;
      if is_valid response && negb (bool_decide (slave_id response ∈ found_ids))
      then scan_loop rest m'
             (found_devices ++ [(slave_id response, response)])
             ({[slave_id response]} ∪ found_ids)
      else scan_loop rest m' found_devices found_ids
  end.

Definition scan_slaves (m : ModbusMaster) (slave_range : list Z) :=
  scan_loop slave_range m [] ∅.

(** [range(start, stop)] *)
Definition py_range (start stop : Z) : list Z :=
  map (fun i => start + Z.of_nat i) (seq 0 (Z.to_nat (stop - start))).

(** The dictionary [get_statistics] returns. *)
Record Statistics : Type := mkStatistics {
  counters : Stats;
  success_rate : pynum;
  error_rate : pynum
}.

Definition get_statistics (m : ModbusMaster) : Statistics :=
  let total_requests := requests_sent (stats m) in
  let success_rate :=
    if 0 <? total_requests
    then py_mul (py_truediv (PyInt (responses_received (stats m)))
                            (PyInt total_requests)) (PyInt 100)
    else PyInt 0 in
  mkStatistics (stats m) success_rate
    (if 0 <? total_requests
     then py_mul (py_truediv (PyInt (timeouts (stats m) + crc_errors (stats m)))
                             (PyInt total_requests)) (PyInt 100)
     else PyInt 0).

(** ** The passive monitor ([RS485PassiveMonitor]) *)

(** [(a - b).total_seconds()] for datetimes [a] and [b]: the microseconds of
    the difference divided by [10**6]. *)
Definition total_seconds (delta_us : Z) : float :=
  PrimFloat.div (Z2float delta_us) (Z2float 1000000).

(** [d.append(x)] on a [deque(maxlen=n)]: a full deque drops its oldest
    element. *)
Definition deque_append {A} (maxlen : nat) (d : list A) (x : A) : list A :=
  if (maxlen <=? length d)%nat then tl d ++ [x] else d ++ [x].

(** The values of [self.slave_stats]. *)
Record SlaveStats : Type := mkSlaveStats {
  count : Z;
  last_seen : option Z;
  intervals : list float;
  avg_rate : pynum;
  min_interval : pynum;
  max_interval : pynum
}.

Definition default_slave_stats : SlaveStats :=
  mkSlaveStats 0 None [] (PyInt 0) (PyFloat PrimFloat.infinity) (PyInt 0).

(** One closed wave ([wave_info]). *)
Record WaveInfo : Type := mkWaveInfo {
  start : Z;
  end_ : Z;
  duration : float;
  msg_count : Z
}.

(** The values of [self.wave_stats]. *)
Record WaveStats : Type := mkWaveStats {
  waves : list WaveInfo;
  current_wave_start : option Z;
  current_wave_msgs : Z;
  last_msg_time : option Z;
  wave_intervals : list float;
  avg_wave_interval : pynum;
  avg_msgs_per_wave : pynum;
  min_wave_interval : pynum;
  max_wave_interval : pynum
}.

Definition default_wave_stats : WaveStats :=
  mkWaveStats [] None 0 None [] (PyInt 0) (PyInt 0)
              (PyFloat PrimFloat.infinity) (PyInt 0).

Record DetectedProtocols : Type := mkProtocols {
  modbus_rtu : bool;
  modbus_ascii : bool;
  custom : bool
}.

(** [bytes.hex()] *)
Definition hex_digit (n : Z) : ascii :=
  nth (Z.to_nat n) (list_ascii_of_string "0123456789abcdef") "0"%char.

Fixpoint hex (frame : list Z) : string :=
  match frame with
  | [] => EmptyString
  | b :: rest =>
      String (hex_digit (Z.shiftr b 4)) (String (hex_digit (Z.land b 15)) (hex rest))
  end.

(** The dictionaries put on [self.data_queue]. *)
Record DisplayEvent : Type := mkEvent {
  ev_timestamp : Z;
  ev_slave_id : Z;
  ev_frame : string;
  ev_length : Z;
  ev_interval : pynum
}.

(** The monitor's own attributes; the two [defaultdict]s are finite maps
    read through [slave_stats_at] and [wave_stats_at]. *)
Record RS485PassiveMonitor : Type := mkMonitor {
  slave_ids : gset Z;
  wave_gap_threshold : float;
  data_queue : list DisplayEvent;
  slave_stats : gmap Z SlaveStats;
  wave_stats : gmap Z WaveStats;
  detected_protocols : DetectedProtocols
}.

(** [RS485PassiveMonitor(slave_ids, wave_gap_threshold)] *)
Definition new_monitor (ids : list Z) (threshold : float)
  : RS485PassiveMonitor :=
  mkMonitor (list_to_set ids) threshold [] ∅ ∅ (mkProtocols false false false).

(** [self.slave_stats[sid]] and [self.wave_stats[sid]]: a missing key reads
    as the factory's default (and is stored by the writers below). *)
Definition slave_stats_at (m : RS485PassiveMonitor) (sid : Z) : SlaveStats :=
  default default_slave_stats (slave_stats m !! sid).
Definition wave_stats_at (m : RS485PassiveMonitor) (sid : Z) : WaveStats :=
  default default_wave_stats (wave_stats m !! sid).

Definition valid_functions : list Z :=
  [0x01; 0x02; 0x03; 0x04; 0x05; 0x06; 0x0F; 0x10].
Definition exception_functions : list Z :=
  map (fun f => Z.lor f 0x80) valid_functions.

(** [x in xs] on a list of ints. *)
Definition py_in (x : Z) (xs : list Z) : bool := existsb (Z.eqb x) xs.

Definition plausible_slave_id (b : Z) : bool := (1 <=? b) && (b <=? 247).

(** [_analyze_frame_validity], threading [self.detected_protocols]. *)
Definition _analyze_frame_validity (p : DetectedProtocols) (frame : list Z)
  : bool * DetectedProtocols :=
  if py_len frame <? 4 then (false, p)
  else
    let sid := byte_at frame 0 in
    let fc := byte_at frame 1 in
    if negb (plausible_slave_id sid) then (false, p)
    else if (py_in fc valid_functions || py_in fc exception_functions)
            && (5 <=? py_len frame)
            && (unpack_le_H (take_last 2 frame)
                =? calculate_crc (drop_last 2 frame))
    then (true, mkProtocols true (modbus_ascii p) (custom p))
    else if byte_at frame 0 =? 58 (* ord(':') *)
    then (true, mkProtocols (modbus_rtu p) true (custom p))
    else if existsb plausible_slave_id frame
    then (true, mkProtocols (modbus_rtu p) (modbus_ascii p) true)
    else (false, p).

(** The "close previous wave" block of [_update_wave_stats], entered with
    [current_wave_start = cws] and [last_msg_time = lmt]. *)
Definition close_wave (ws : WaveStats) (cws lmt : Z) : WaveStats :=
  let wave_duration := total_seconds (lmt - cws) in
  let wave_info := mkWaveInfo cws lmt wave_duration (current_wave_msgs ws) in
  let waves' := deque_append 100 (waves ws) wave_info in
  let '(wave_intervals', min', max') :=
    if 1 <? py_len waves' then
      let prev_wave := nth (length waves' - 2) waves' wave_info in
      let wave_interval := total_seconds (cws - start prev_wave) in
      (deque_append 100 (wave_intervals ws) wave_interval,
       py_min (min_wave_interval ws) (PyFloat wave_interval),
       py_max (max_wave_interval ws) (PyFloat wave_interval))
    else (wave_intervals ws, min_wave_interval ws, max_wave_interval ws) in
  let avg_wave_interval' :=
    match wave_intervals' with
    | [] => avg_wave_interval ws
    | _ => py_truediv (py_sum (map PyFloat wave_intervals'))
                      (PyInt (py_len wave_intervals'))
    end in
  let avg_msgs_per_wave' :=
    match waves' with
    | [] => avg_msgs_per_wave ws
    | _ => py_truediv (PyInt (fold_left Z.add (map msg_count waves') 0))
                      (PyInt (py_len waves'))
    end in
  mkWaveStats waves' (current_wave_start ws) (current_wave_msgs ws)
              (last_msg_time ws) wave_intervals' avg_wave_interval'
              avg_msgs_per_wave' min' max'.

(** "Start new wave" and "continue current wave". *)
Definition start_wave (ws : WaveStats) (timestamp : Z) : WaveStats :=
  mkWaveStats (waves ws) (Some timestamp) 1 (last_msg_time ws)
              (wave_intervals ws) (avg_wave_interval ws)
              (avg_msgs_per_wave ws) (min_wave_interval ws)
              (max_wave_interval ws).
Definition continue_wave (ws : WaveStats) : WaveStats :=
  mkWaveStats (waves ws) (current_wave_start ws) (current_wave_msgs ws + 1)
              (last_msg_time ws) (wave_intervals ws) (avg_wave_interval ws)
              (avg_msgs_per_wave ws) (min_wave_interval ws)
              (max_wave_interval ws).
Definition set_last_msg_time (ws : WaveStats) (timestamp : Z) : WaveStats :=
  mkWaveStats (waves ws) (current_wave_start ws) (current_wave_msgs ws)
              (Some timestamp) (wave_intervals ws) (avg_wave_interval ws)
              (avg_msgs_per_wave ws) (min_wave_interval ws)
              (max_wave_interval ws).

(** The body of [_update_wave_stats] on the slave's entry.  A [datetime] is
    always truthy, so [if wave_stats['last_msg_time']] tests for [None]. *)
Definition update_wave (threshold : float) (ws : WaveStats) (timestamp : Z)
  : WaveStats :=
  let ws' :=
    match last_msg_time ws with
    | Some lmt =>
        let gap := total_seconds (timestamp - lmt) in
        if PrimFloat.ltb threshold gap then
          let closed :=
            match current_wave_start ws with
            | Some cws => close_wave ws cws lmt
            | None => ws
            end in
          start_wave closed timestamp
        else continue_wave ws
    | None => start_wave ws timestamp
    end in
  set_last_msg_time ws' timestamp.

Definition _update_wave_stats (m : RS485PassiveMonitor) (sid timestamp : Z)
  : RS485PassiveMonitor :=
  mkMonitor (slave_ids m) (wave_gap_threshold m) (data_queue m) (slave_stats m)
    (<[sid := update_wave (wave_gap_threshold m) (wave_stats_at m sid) timestamp]>
       (wave_stats m))
    (detected_protocols m).

(** [min_poll_interval = 0.010] *)
Definition min_poll_interval : float := 0x1.47ae147ae147bp-7%float.

(** The polling-statistics half of [_process_frame] on the slave's entry:
    the new entry and the event queued, if any. *)
Definition update_poll (st : SlaveStats) (sid timestamp : Z) (frame : list Z)
  : SlaveStats * option DisplayEvent :=
  match last_seen st with
  | Some seen =>
      let interval := total_seconds (timestamp - seen) in
      if PrimFloat.leb min_poll_interval interval then
        let intervals' := deque_append 100 (intervals st) interval in
        let avg_rate' :=
          match intervals' with
          | [] => avg_rate st
          | _ => py_truediv (py_sum (map PyFloat intervals'))
                            (PyInt (py_len intervals'))
          end in
        (mkSlaveStats (count st + 1) (Some timestamp) intervals' avg_rate'
                      (py_min (min_interval st) (PyFloat interval))
                      (py_max (max_interval st) (PyFloat interval)),
         Some (mkEvent timestamp sid (hex frame) (py_len frame)
                       (PyFloat interval)))
      else (st, None)
  | None =>
      (mkSlaveStats (count st + 1) (Some timestamp) (intervals st)
                    (avg_rate st) (min_interval st) (max_interval st),
       Some (mkEvent timestamp sid (hex frame) (py_len frame) (PyInt 0)))
  end.

(** [_process_frame], with the reading of [datetime.now()] passed in. *)
Definition _process_frame (m : RS485PassiveMonitor) (frame : list Z) (now : Z)
  : RS485PassiveMonitor :=
  let (accepted, protocols) :=
    _analyze_frame_validity (detected_protocols m) frame in
  let m := mkMonitor (slave_ids m) (wave_gap_threshold m) (data_queue m)
                     (slave_stats m) (wave_stats m) protocols in
  if negb accepted then m
  else
    let timestamp := now in
    let sid := byte_at frame 0 in
    if bool_decide (slave_ids m = ∅) || bool_decide (sid ∈ slave_ids m) then
      let ids := if bool_decide (sid ∈ slave_ids m) then slave_ids m
                 else {[sid]} ∪ slave_ids m in
      let m := _update_wave_stats
                 (mkMonitor ids (wave_gap_threshold m) (data_queue m)
                            (slave_stats m) (wave_stats m)
                            (detected_protocols m)) sid timestamp in
      let (st, event) := update_poll (slave_stats_at m sid) sid timestamp frame in
      mkMonitor (slave_ids m) (wave_gap_threshold m)
                (match event with
                 | Some e => data_queue m ++ [e]
                 | None => data_queue m
                 end)
                (<[sid := st]> (slave_stats m)) (wave_stats m)
                (detected_protocols m)
    else m.

(** One entry of the dictionary [get_current_rates] returns. *)
Inductive Status : Type := Active | Slowing | Idle.

Definition status_text (s : Status) : string :=
  match s with
  | Active => "🟢 Active"
  | Slowing => "🟡 Slowing"
  | Idle => "🔴 Idle"
  end%string.

Record RateInfo : Type := mkRateInfo {
  rate_hz : pynum;
  period_ms : pynum;
  message_count : Z;
  status : string;
  time_since_last : float;
  rate_current_wave_msgs : Z;
  total_waves : Z;
  rate_avg_msgs_per_wave : pynum
}.

(** The body of the loop of [get_current_rates] for one slave. *)
Definition rate_entry (st : SlaveStats) (ws : WaveStats) (current_time : Z)
  : RateInfo :=
  let time_since_last :=
    match last_seen st with
    | Some seen => total_seconds (current_time - seen)
    | None => PrimFloat.infinity
    end in
  let status :=
    if PrimFloat.ltb time_since_last 1%float then Active
    else if PrimFloat.ltb time_since_last 3%float then Slowing
    else Idle in
  let recent_intervals :=
    List.filter (fun i => PrimFloat.ltb PrimFloat.zero i) (intervals st) in
  let mean := py_truediv (py_sum (map PyFloat recent_intervals))
                         (PyInt (py_len recent_intervals)) in
  let nonempty := match recent_intervals with [] => false | _ => true end in
  mkRateInfo
    (if nonempty then py_truediv (PyFloat 1%float) mean else PyInt 0)
    (if nonempty then py_mul mean (PyInt 1000) else PyInt 0)
    (count st) (status_text status) time_since_last
    (current_wave_msgs ws) (py_len (waves ws)) (avg_msgs_per_wave ws).

(** [get_current_rates] at clock reading [current_time]: one entry per known
    slave.  Reading the two [defaultdict]s stores the default for a slave
    that has no entry yet. *)
Definition get_current_rates (m : RS485PassiveMonitor) (current_time : Z)
  : RS485PassiveMonitor * gmap Z RateInfo :=
  set_fold
    (fun sid '(m, rates) =>
       let st := slave_stats_at m sid in
       let ws := wave_stats_at m sid in
       (mkMonitor (slave_ids m) (wave_gap_threshold m) (data_queue m)
                  (<[sid := st]> (slave_stats m)) (<[sid := ws]> (wave_stats m))
                  (detected_protocols m),
        <[sid := rate_entry st ws current_time]> rates))
    (m, ∅) (slave_ids m).

(** ** Inputs of the tamper property *)

(** Bit [j] of byte [i] of [frame] inverted. *)
Definition flip_bit (frame : list Z) (i : nat) (j : Z) : list Z :=
  alter (fun b => Z.lxor b (Z.shiftl 1 j)) i frame.

(** The CRC register between loop iterations: 16 bits. *)
Definition crc_state (c : Z) : Prop := 0 <= c < 65536.

(** A response that carries exception code [code] and nothing else. *)
Definition exception_response (code : Z) : ModbusResponse :=
  mkResponse None None None (Some code) false false None.

(** ** The scan, seen from outside *)

(** The responses of the successive probes of a scan, in scan order. *)
Fixpoint probe_responses (slave_range : list Z) (m : ModbusMaster)
  : option (ModbusMaster * list ModbusResponse) :=
  match slave_range with
  | [] => Some (m, [])
  | sid :: rest =>
      '(m1, r) ← probe_device m sid 65535;
      '(m2, rs) ← probe_responses rest m1;
      Some (m2, r :: rs)
  end.

(** What a scan is meant to report of those responses: for every reported
    slave ID, the first valid response that reported it. *)
Fixpoint first_reports (rs : list ModbusResponse)
  : list (option Z * ModbusResponse) :=
  match rs with
  | [] => []
  | r :: rest =>
      if is_valid r
      then (slave_id r, r) :: filter (fun e => e.1 ≠ slave_id r) (first_reports rest)
      else first_reports rest
  end.

(** A bus for the scan of IDs 1..5 on which only the second and fourth
    probes are answered, both by frames that report slave 2: exception 02,
    then exception 03. *)
Definition silent_probe : list Z -> Exchange := fun _ => ReadReturns None.
Definition misreporting_line : Serial :=
  [silent_probe;
   (fun _ => ReadReturns (Some [2; 0x83; 2; 48; 241]));
   silent_probe;
   (fun _ => ReadReturns (Some [2; 0x83; 3; 241; 49]));
   silent_probe].
Definition misreporting_master : ModbusMaster :=
  mkMaster true (Some misreporting_line) initial_stats.
Definition second_report : ModbusResponse :=
  mkResponse (Some 2) (Some 0x03) None (Some 2) false false
             (Some [2; 0x83; 2; 48; 241]).
Definition fourth_report : ModbusResponse :=
  mkResponse (Some 2) (Some 0x03) None (Some 3) false false
             (Some [2; 0x83; 3; 241; 49]).

(** Whether [_analyze_frame_validity] accepts [frame]; the protocol flags it
    is called with play no part in the answer. *)
Definition accepts (frame : list Z) : bool :=
  fst (_analyze_frame_validity (mkProtocols false false false) frame).

(** A monitored bus: slave 17 answering a register read, seen once at
    time 0 by a monitor with no slave filter and a 0.5 s wave gap. *)
Definition frame_from_17 : list Z := [17; 0x03; 4; 0; 1; 0; 2; 59; 243].
Definition monitor_after_first_frame : RS485PassiveMonitor :=
  _process_frame (new_monitor [] 0.5) frame_from_17 0.

(** What holds of every monitor built by [new_monitor] and driven by
    [_process_frame]: a slave with a stored last-seen time is a known slave,
    and a slave with a last message time has an open wave. *)
Definition wave_open (ws : WaveStats) : Prop :=
  is_Some (last_msg_time ws) -> is_Some (current_wave_start ws).
Definition monitor_consistent (m : RS485PassiveMonitor) : Prop :=
  (forall sid, is_Some (last_seen (slave_stats_at m sid)) -> sid ∈ slave_ids m) /\
  (forall sid, wave_open (wave_stats_at m sid)).

(** ** More of the master: writes, reset, and the callers of the probe *)

(** [frame += struct.pack('<H', crc)] with [crc = calculate_crc(frame)]. *)
Definition append_crc (body : list Z) : option (list Z) :=
  crc ← pack_le_H (calculate_crc body);
  Some (body ++ crc).

(** The three tests that [write_single_register] and
    [write_multiple_registers] make on the response. *)
Definition success_of_response (response : ModbusResponse)
  : bool * option string :=
  if timeout response then (false, Some "Request timeout"%string)
  else if crc_error response then (false, Some "CRC error in response"%string)
  else if is_exception response then
    (false, Some ("Modbus exception: " ++ exception_name response)%string)
  else (true, None).

(** [write_single_register]: the request is packed like a read request,
    with the value in the place of the count. *)
Definition write_single_register (m : ModbusMaster) (slave address v : Z)
  : option (ModbusMaster * (bool * option string)) :=
  frame ← read_request_frame slave (value WRITE_SINGLE_REGISTER) address v;
  let (m', response) := _send_frame m frame in
  Some (m', success_of_response response).

(** [b''.join(struct.pack('>H', val) for val in values)] *)
Fixpoint pack_registers (values : list Z) : option (list Z) :=
  match values with
  | [] => Some []
  | v :: rest =>
      b ← pack_be_H v;
      bs ← pack_registers rest;
      Some (b ++ bs)
  end.

(** The request of [write_multiple_registers]:
    [struct.pack('>HHB', start_address, count, byte_count)] after the
    register data, then the head and the CRC. *)
Definition write_multiple_request (slave start_address : Z) (values : list Z)
  : option (list Z) :=
  let count := py_len values in
  let byte_count := count * 2 in
  register_data ← pack_registers values;
  a ← pack_be_H start_address;
  c ← pack_be_H count;
  n ← pack_B byte_count;
  s ← pack_B slave;
  f ← pack_B (value WRITE_MULTIPLE_REGISTERS);
  append_crc (s ++ f ++ (a ++ c ++ n) ++ register_data).

Definition write_multiple_registers (m : ModbusMaster) (slave start_address : Z)
  (values : list Z)
  : option (ModbusMaster * (bool * option string)) :=
  frame ← write_multiple_request slave start_address values;
  let (m', response) := _send_frame m frame in
  Some (m', success_of_response response).

(** [reset_statistics] *)
Definition reset_statistics (m : ModbusMaster) : ModbusMaster :=
  set_stats m (mkStats 0 0 0 0 0).

(** [test_communication]: for each test address, a holding-register read
    and then an input-register read, until one returns registers. *)
Definition test_addresses : list Z := [0; 1; 2048; 40001; 30001].

Fixpoint test_communication_from (addrs : list Z) (m : ModbusMaster) (slave : Z)
  : option (ModbusMaster * bool) :=
  match addrs with
  | [] => Some (m, false)
  | addr :: rest =>
      '(m1, (registers, _)) ← read_holding_registers m slave addr 1;
      match registers with
      | Some _ => Some (m1, true)
      | None =>
          '(m2, (registers, _)) ← read_input_registers m1 slave addr 1;
          match registers with
          | Some _ => Some (m2, true)
          | None => test_communication_from rest m2 slave
          end
      end
  end.

Definition test_communication (m : ModbusMaster) (slave : Z) :=
  test_communication_from test_addresses m slave.

(** [ModbusConfigurationTool.validate_configuration]
    ([src/SlaveID_Baudrate_Updater/SlaveID_Baudrate_Updater.py]): two range
    checks, then a probe of the new slave ID when it differs. *)
Definition validate_configuration (m : ModbusMaster)
  (slave new_slave_id new_baudrate : Z)
  : option (ModbusMaster * (bool * string)) :=
  if negb ((1 <=? new_slave_id) && (new_slave_id <=? 247)) then
    Some (m, (false, "Slave ID must be between 1 and 247"%string))
  else if negb ((300 <=? new_baudrate) && (new_baudrate <=? 1000000)) then
    Some (m, (false, "Baud rate must be between 300 and 1,000,000"%string))
  else if negb (new_slave_id =? slave) then
    '(m', test_response) ← probe_device m new_slave_id 65535;
    if is_valid test_response
    then Some (m', (false, ("Slave ID " ++ py_str_int new_slave_id
                            ++ " appears to already be in use")%string))
    else Some (m', (true, "Configuration valid"%string))
  else Some (m, (true, "Configuration valid"%string)).

(** The invariant of the counters: every response and every CRC error
    belongs to a request that was sent, and every exception is a response. *)
Definition stats_consistent (s : Stats) : Prop :=
  0 <= exceptions s <= responses_received s /\
  0 <= crc_errors s /\ 0 <= timeouts s /\
  responses_received s + crc_errors s <= requests_sent s.

(** ** More of the monitor *)

(** [get_protocol_name] *)
Definition get_protocol_name (p : DetectedProtocols) : string :=
  if modbus_rtu p then "Modbus RTU"
  else if modbus_ascii p then "Modbus ASCII"
  else if custom p then "Custom/Unknown"
  else "Detecting..."%string.

(** The inner loop of [_monitor_thread] while [self.monitoring] stays set:
    each captured frame is processed, at the clock reading paired with it. *)
Definition process_frames (m : RS485PassiveMonitor)
  (frames : list (list Z * Z)) : RS485PassiveMonitor :=
  fold_left (fun m ft => _process_frame m ft.1 ft.2) frames m.

(** The three bounded histories of the monitor, for one slave. *)
Definition histories_bounded (m : RS485PassiveMonitor) (sid : Z) : Prop :=
  (length (intervals (slave_stats_at m sid)) <= 100)%nat /\
  (length (waves (wave_stats_at m sid)) <= 100)%nat /\
  (length (wave_intervals (wave_stats_at m sid)) <= 100)%nat.

(** The length at which [_is_complete_frame] judges a buffer of at least
    five bytes complete, read off its branches. *)
Definition expected_length (buffer : list Z) : Z :=
  let fc := byte_at buffer 1 in
  if negb (Z.land fc 0x80 =? 0) then 5
  else if (fc =? 0x03) || (fc =? 0x04) || (fc =? 0x01) || (fc =? 0x02)
  then 5 + byte_at buffer 2
  else if (fc =? 0x05) || (fc =? 0x06) || (fc =? 0x0F) || (fc =? 0x10)
  then 8
  else 5.

(** The range of [struct]'s ['H'] format. *)
Definition is_u16 (v : Z) : Prop := 0 <= v < 65536.

(** The events queued so far for one slave. *)
Definition events_of (sid : Z) (queue : list DisplayEvent) : list DisplayEvent :=
  filter (fun e => ev_slave_id e = sid) queue.

(** * Properties of the CRC16 engine *)

Section CRC.

Lemma lxor_below (n a b : Z) :
  0 <= n -> 0 <= a < 2 ^ n -> 0 <= b < 2 ^ n -> 0 <= Z.lxor a b < 2 ^ n.
Proof.
  intros Hn Ha Hb.
  assert (H0 : 0 <= Z.lxor a b) by (apply Z.lxor_nonneg; lia).
  split; [exact H0|].
  destruct (Z.eq_dec (Z.lxor a b) 0) as [E|E]; [rewrite E; lia|].
  assert (Hpos : 0 < n).
  { destruct (Z.eq_dec n 0) as [->|]; [|lia]. exfalso. apply E.
    change (2 ^ 0) with 1 in *.
    replace a with 0 by lia. replace b with 0 by lia. reflexivity. }
  apply Z.log2_lt_pow2; [lia|].
  eapply Z.le_lt_trans; [apply Z.log2_lxor; lia|].
  apply Z.max_lub_lt.
  - destruct (Z.eq_dec a 0) as [->|]; [simpl; lia|].
    apply Z.log2_lt_pow2; lia.
  - destruct (Z.eq_dec b 0) as [->|]; [simpl; lia|].
    apply Z.log2_lt_pow2; lia.
Qed.

Lemma lxor_cancel_r (a b k : Z) : Z.lxor a k = Z.lxor b k -> a = b.
Proof.
  intros H.
  rewrite <- (Z.lxor_0_r a), <- (Z.lxor_0_r b), <- (Z.lxor_nilpotent k).
  rewrite <- !Z.lxor_assoc. now f_equal.
Qed.

Lemma half_state (c : Z) : crc_state c -> 0 <= Z.shiftr c 1 < 2 ^ 15.
Proof.
  unfold crc_state. intros H. rewrite Z.shiftr_div_pow2 by lia.
  change (2 ^ 1) with 2. change (2 ^ 15) with 32768.
  split; [apply Z.div_pos; lia | apply Z.div_lt_upper_bound; lia].
Qed.

Lemma low_bit (c : Z) : Z.land c 1 = c mod 2.
Proof. change 1 with (Z.ones 1). rewrite Z.land_ones by lia. reflexivity. Qed.

Lemma halves (c : Z) : c = 2 * Z.shiftr c 1 + Z.land c 1.
Proof.
  rewrite low_bit, Z.shiftr_div_pow2 by lia. change (2 ^ 1) with 2.
  apply Z.div_mod. lia.
Qed.

Lemma crc_shift_state (c : Z) : crc_state c -> crc_state (crc_shift c).
Proof.
  intros H. pose proof (half_state c H) as Hh. unfold crc_shift, crc_state.
  destruct (Z.land c 1 =? 0).
  - change (2 ^ 15) with 32768 in Hh. lia.
  - change 65536 with (2 ^ 16). apply lxor_below; [lia| |].
    + change (2 ^ 15) with 32768 in Hh. change (2 ^ 16) with 65536. lia.
    + change (2 ^ 16) with 65536. lia.
Qed.

(** Bit 15 of the shifted state tells whether the polynomial was applied. *)
Lemma bit15_half (h : Z) : 0 <= h < 2 ^ 15 -> Z.testbit h 15 = false.
Proof.
  intros H. destruct (Z.eq_dec h 0) as [->|]; [reflexivity|].
  apply Z.bits_above_log2; [lia|]. apply Z.log2_lt_pow2; lia.
Qed.

Lemma crc_shift_inj (a b : Z) :
  crc_state a -> crc_state b -> crc_shift a = crc_shift b -> a = b.
Proof.
  intros Ha Hb. pose proof (half_state a Ha) as Hha.
  pose proof (half_state b Hb) as Hhb.
  unfold crc_shift.
  destruct (Z.land a 1 =? 0) eqn:Ea; destruct (Z.land b 1 =? 0) eqn:Eb;
    intros E.
  - apply Z.eqb_eq in Ea, Eb.
    rewrite (halves a), (halves b), Ea, Eb, E. reflexivity.
  - exfalso. pose proof (bit15_half _ Hha) as Hbit.
    rewrite E, Z.lxor_spec, (bit15_half _ Hhb) in Hbit. discriminate Hbit.
  - exfalso. pose proof (bit15_half _ Hhb) as Hbit.
    rewrite <- E, Z.lxor_spec, (bit15_half _ Hha) in Hbit. discriminate Hbit.
  - apply lxor_cancel_r in E.
    assert (La : Z.land a 1 = 1).
    { apply Z.eqb_neq in Ea. rewrite low_bit in *.
      pose proof (Z.mod_pos_bound a 2). lia. }
    assert (Lb : Z.land b 1 = 1).
    { apply Z.eqb_neq in Eb. rewrite low_bit in *.
      pose proof (Z.mod_pos_bound b 2). lia. }
    rewrite (halves a), (halves b), La, Lb, E. reflexivity.
Qed.

Lemma crc_shifts_state (n : nat) (c : Z) :
  crc_state c -> crc_state (crc_shifts n c).
Proof.
  revert c. induction n as [|n IH]; intros c H; simpl; [exact H|].
  apply IH, crc_shift_state, H.
Qed.

Lemma crc_shifts_inj (n : nat) (a b : Z) :
  crc_state a -> crc_state b -> crc_shifts n a = crc_shifts n b -> a = b.
Proof.
  revert a b. induction n as [|n IH]; intros a b Ha Hb E; simpl in E;
    [exact E|].
  apply crc_shift_inj; [exact Ha | exact Hb |].
  apply IH; [apply crc_shift_state, Ha | apply crc_shift_state, Hb | exact E].
Qed.

Lemma xor_byte_state (c b : Z) :
  crc_state c -> is_byte b -> crc_state (Z.lxor c b).
Proof.
  unfold crc_state, is_byte. intros Hc Hb.
  change 65536 with (2 ^ 16). apply lxor_below; [lia| |];
    change (2 ^ 16) with 65536; lia.
Qed.

Lemma crc_byte_state (c b : Z) :
  crc_state c -> is_byte b -> crc_state (crc_byte c b).
Proof. intros Hc Hb. apply crc_shifts_state, xor_byte_state; assumption. Qed.

(** For a fixed byte the state update is injective ... *)
Lemma crc_byte_inj_state (a b byte : Z) :
  crc_state a -> crc_state b -> is_byte byte ->
  crc_byte a byte = crc_byte b byte -> a = b.
Proof.
  intros Ha Hb Hy E. apply crc_shifts_inj in E;
    [| apply xor_byte_state; assumption | apply xor_byte_state; assumption].
  eapply lxor_cancel_r, E.
Qed.

(** ... and for a fixed state it is injective in the byte. *)
Lemma crc_byte_inj_byte (c x y : Z) :
  crc_state c -> is_byte x -> is_byte y ->
  crc_byte c x = crc_byte c y -> x = y.
Proof.
  intros Hc Hx Hy E. apply crc_shifts_inj in E;
    [| apply xor_byte_state; assumption | apply xor_byte_state; assumption].
  rewrite (Z.lxor_comm c x), (Z.lxor_comm c y) in E.
  eapply lxor_cancel_r, E.
Qed.

Lemma crc_fold_state (d : list Z) (c : Z) :
  is_bytes d -> crc_state c -> crc_state (fold_left crc_byte d c).
Proof.
  revert c. induction d as [|b d IH]; intros c Hd Hc; simpl; [exact Hc|].
  inversion Hd; subst. apply IH; [assumption|].
  apply crc_byte_state; assumption.
Qed.

Lemma crc_fold_inj (d : list Z) (a b : Z) :
  is_bytes d -> crc_state a -> crc_state b ->
  fold_left crc_byte d a = fold_left crc_byte d b -> a = b.
Proof.
  revert a b. induction d as [|y d IH]; intros a b Hd Ha Hb E; simpl in E;
    [exact E|].
  inversion Hd; subst.
  apply IH in E; [| assumption | apply crc_byte_state; assumption
                  | apply crc_byte_state; assumption].
  eapply crc_byte_inj_state; eassumption.
Qed.

Lemma crc_init_state : crc_state 0xFFFF.
Proof. unfold crc_state. lia. Qed.

(** The final mask is the identity on byte input. *)
Lemma calculate_crc_fold (d : list Z) :
  is_bytes d -> calculate_crc d = fold_left crc_byte d 0xFFFF.
Proof.
  intros Hd. unfold calculate_crc.
  pose proof (crc_fold_state d _ Hd crc_init_state) as H.
  unfold crc_state in H.
  change 0xFFFF with (Z.ones 16) at 2. rewrite Z.land_ones by lia.
  apply Z.mod_small. change (2 ^ 16) with 65536. lia.
Qed.

(** Changing one byte of the input changes the checksum. *)
Lemma crc_one_byte_changed (pre post : list Z) (x y : Z) :
  is_bytes pre -> is_bytes post -> is_byte x -> is_byte y -> x <> y ->
  calculate_crc (pre ++ x :: post) <> calculate_crc (pre ++ y :: post).
Proof.
  intros Hpre Hpost Hx Hy Hne E.
  rewrite !calculate_crc_fold in E
    by (apply Forall_app; split; [assumption | constructor; assumption]).
  rewrite !fold_left_app in E. simpl in E.
  pose proof (crc_fold_state pre _ Hpre crc_init_state) as Hs.
  apply crc_fold_inj in E;
    [| assumption | apply crc_byte_state; assumption
     | apply crc_byte_state; assumption].
  apply Hne. eapply crc_byte_inj_byte; eassumption.
Qed.

Lemma flipped_byte (b j : Z) :
  is_byte b -> 0 <= j < 8 ->
  is_byte (Z.lxor b (Z.shiftl 1 j)) /\ Z.lxor b (Z.shiftl 1 j) <> b.
Proof.
  unfold is_byte. intros Hb Hj.
  assert (Hp : 1 <= Z.shiftl 1 j < 256).
  { rewrite Z.shiftl_1_l. split.
    - pose proof (Z.pow_pos_nonneg 2 j). lia.
    - change 256 with (2 ^ 8). apply Z.pow_lt_mono_r; lia. }
  split.
  - change 256 with (2 ^ 8). apply lxor_below; [lia| |];
      change (2 ^ 8) with 256; lia.
  - intros E. rewrite <- (Z.lxor_0_r b) in E at 2.
    rewrite !(Z.lxor_comm b) in E. apply lxor_cancel_r in E. lia.
Qed.

End CRC.

(* Keep [simpl] from unrolling the checksum loop on symbolic bytes. *)
Arguments calculate_crc : simpl never.
Arguments crc_byte : simpl never.

(** * Properties of the frame codec *)

Lemma py_len_alter (f : Z -> Z) (i : nat) (frame : list Z) :
  py_len (alter f i frame) = py_len frame.
Proof. unfold py_len. now rewrite length_alter. Qed.

Lemma alter_middle (f : Z -> Z) (l : list Z) (i : nat) :
  (i < length l)%nat ->
  exists pre x post, l = pre ++ x :: post /\ alter f i l = pre ++ f x :: post.
Proof.
  revert i. induction l as [|a l IH]; intros i Hi; simpl in Hi; [lia|].
  destruct i as [|i].
  - exists [], a, l. split; reflexivity.
  - destruct (IH i) as (pre & x & post & -> & E); [lia|].
    exists (a :: pre), x, post. split; [reflexivity|].
    simpl. f_equal. exact E.
Qed.

(** [_parse_response] accepts exactly the frames of at least five bytes whose
    trailer is the checksum of what precedes it. *)
Lemma parse_accepts_iff (st : Stats) (frame : list Z) :
  is_valid (snd (_parse_response st frame)) = true <->
  5 <= py_len frame /\
  unpack_le_H (take_last 2 frame) = calculate_crc (drop_last 2 frame).
Proof.
  unfold _parse_response.
  destruct (py_len frame <? 5) eqn:El.
  - simpl. apply Z.ltb_lt in El. split; [discriminate | lia].
  - apply Z.ltb_ge in El.
    destruct (unpack_le_H (take_last 2 frame)
              =? calculate_crc (drop_last 2 frame)) eqn:Ec; simpl.
    + apply Z.eqb_eq in Ec.
      destruct (Z.land (byte_at frame 1) 128 =? 0); simpl; tauto.
    + apply Z.eqb_neq in Ec. split; [discriminate | tauto].
Qed.

Lemma parse_crc_error_iff (st : Stats) (frame : list Z) :
  crc_error (snd (_parse_response st frame)) = true <->
  5 <= py_len frame /\
  unpack_le_H (take_last 2 frame) <> calculate_crc (drop_last 2 frame).
Proof.
  unfold _parse_response.
  destruct (py_len frame <? 5) eqn:El.
  - simpl. apply Z.ltb_lt in El. split; [discriminate | lia].
  - apply Z.ltb_ge in El.
    destruct (unpack_le_H (take_last 2 frame)
              =? calculate_crc (drop_last 2 frame)) eqn:Ec; simpl.
    + apply Z.eqb_eq in Ec.
      destruct (Z.land (byte_at frame 1) 128 =? 0); simpl;
        (split; [discriminate | tauto]).
    + apply Z.eqb_neq in Ec. tauto.
Qed.

(** Inverting a payload bit leaves the trailer alone and changes the
    checksum of the payload. *)
Lemma flip_bit_payload (frame : list Z) (i : nat) (j : Z) :
  is_bytes frame -> (i < length frame - 2)%nat -> 0 <= j < 8 ->
  take_last 2 (flip_bit frame i j) = take_last 2 frame /\
  calculate_crc (drop_last 2 (flip_bit frame i j))
  <> calculate_crc (drop_last 2 frame).
Proof.
  intros Hb Hi Hj. unfold take_last, drop_last, flip_bit.
  rewrite length_alter. split.
  - apply drop_alter_lt. exact Hi.
  - rewrite take_alter_lt by exact Hi.
    assert (Hp : is_bytes (take (length frame - 2) frame))
      by (apply Forall_take, Hb).
    destruct (alter_middle (fun b => Z.lxor b (Z.shiftl 1 j))
                (take (length frame - 2) frame) i)
      as (pre & x & post & E & ->).
    { rewrite length_take. lia. }
    rewrite E in *. apply Forall_app in Hp as [Hpre Hx].
    inversion Hx as [|? ? Hx1 Hpost]; subst.
    destruct (flipped_byte x j Hx1 Hj) as [Hy Hne].
    apply crc_one_byte_changed; assumption.
Qed.

(** C1. A frame that [_parse_response] accepts, with any single bit of any
    byte before the two CRC bytes inverted, is parsed into a response whose
    CRC-error flag is set: no such flip is accepted as valid. *)
Theorem crc_tamper_detected (st st' : Stats) (frame : list Z) (i : nat) (j : Z) :
  is_bytes frame ->
  is_valid (snd (_parse_response st frame)) = true ->
  (i < length frame - 2)%nat ->
  0 <= j < 8 ->
  crc_error (snd (_parse_response st' (flip_bit frame i j))) = true /\
  is_valid (snd (_parse_response st' (flip_bit frame i j))) = false.
Proof.
  intros Hb Hv Hi Hj.
  apply parse_accepts_iff in Hv as [Hlen Hcrc].
  destruct (flip_bit_payload frame i j Hb Hi Hj) as [Ht Hc].
  assert (Herr : crc_error (snd (_parse_response st' (flip_bit frame i j))) = true).
  { apply parse_crc_error_iff. split.
    - unfold flip_bit. rewrite py_len_alter. exact Hlen.
    - rewrite Ht, Hcrc. intros E. apply Hc. symmetry. exact E. }
  split; [exact Herr|].
  unfold is_valid. rewrite Herr. apply andb_false_r.
Qed.

Lemma crc_tamper_detected_witness :
  crc_error (snd (_parse_response initial_stats
                    (flip_bit [1; 3; 0; 0; 0; 1; 132; 10] 3 5))) = true /\
  is_valid (snd (_parse_response initial_stats
                   (flip_bit [1; 3; 0; 0; 0; 1; 132; 10] 3 5))) = false.
Proof.
  apply (crc_tamper_detected initial_stats initial_stats
           [1; 3; 0; 0; 0; 1; 132; 10] 3 5).
  - unfold is_bytes. repeat (constructor; [unfold is_byte; lia|]). constructor.
  - vm_compute. reflexivity.
  - simpl. lia.
  - lia.
Defined.

Lemma calculate_crc_range (d : list Z) : 0 <= calculate_crc d < 65536.
Proof.
  unfold calculate_crc. generalize (fold_left crc_byte d 0xFFFF). intros x.
  change (Z.land x 0xFFFF) with (Z.land x (Z.ones 16)).
  rewrite Z.land_ones by lia. change (2 ^ 16) with 65536.
  apply Z.mod_pos_bound. lia.
Qed.

(** C2. The checksum of 01 03 00 00 00 01 is 0x0A84, appended to the frame
    as the bytes 84 0A; the checksum of any byte sequence lies in the 16-bit
    range, and equal inputs give equal checksums. *)
Theorem crc_test_vector :
  calculate_crc [0x01; 0x03; 0x00; 0x00; 0x00; 0x01] = 0x0A84 /\
  pack_le_H (calculate_crc [0x01; 0x03; 0x00; 0x00; 0x00; 0x01])
  = Some [0x84; 0x0A] /\
  (forall d : list Z, 0 <= calculate_crc d < 65536) /\
  (forall d1 d2 : list Z, d1 = d2 -> calculate_crc d1 = calculate_crc d2).
Proof.
  split; [vm_compute; reflexivity|].
  split; [vm_compute; reflexivity|].
  split; [exact calculate_crc_range|].
  intros d1 d2 ->. reflexivity.
Qed.

Lemma crc_test_vector_witness :
  calculate_crc [17; 3; 4] = calculate_crc [17; 3; 4].
Proof.
  exact (proj2 (proj2 (proj2 crc_test_vector)) [17; 3; 4] [17; 3; 4] eq_refl).
Defined.

(** The frames of the round trip: the request for slave 17, address 100,
    count 2, and a response with byte count 4 and registers 1 and 2. *)
Lemma round_trip_frames :
  read_request_frame 17 (value READ_HOLDING_REGISTERS) 100 2
  = Some [17; 0x03; 0; 100; 0; 2; 135; 68] /\
  pack_le_H (calculate_crc [17; 0x03; 0; 100; 0; 2]) = Some [135; 68] /\
  pack_le_H (calculate_crc [17; 0x03; 4; 0; 1; 0; 2]) = Some [59; 243].
Proof. repeat split; vm_compute; reflexivity. Qed.

(** C3. The request for slave 17, start address 100, count 2 is the 8-byte
    frame 11 03 00 64 00 02 followed by its little-endian CRC16; when the
    line answers that request with the well-formed response
    11 03 04 00 01 00 02 + CRC, [read_holding_registers] returns the
    registers [1, 2] and no error. *)
Theorem read_registers_round_trip
  (st : Stats) (answer : list Z -> Exchange) (rest : Serial) :
  answer [17; 0x03; 0; 100; 0; 2; 135; 68]
  = ReadReturns (Some [17; 0x03; 4; 0; 1; 0; 2; 59; 243]) ->
  read_request_frame 17 (value READ_HOLDING_REGISTERS) 100 2
  = Some ([17; 0x03; 0; 100; 0; 2]
          ++ [Z.land (calculate_crc [17; 0x03; 0; 100; 0; 2]) 255;
              Z.shiftr (calculate_crc [17; 0x03; 0; 100; 0; 2]) 8]) /\
  (forall frame, read_request_frame 17 (value READ_HOLDING_REGISTERS) 100 2
                 = Some frame -> length frame = 8%nat) /\
  is_valid (snd (_parse_response st [17; 0x03; 4; 0; 1; 0; 2; 59; 243])) = true /\
  read_holding_registers (mkMaster true (Some (answer :: rest)) st) 17 100 2
  = Some (mkMaster true (Some rest)
            (incr_responses_received (incr_requests_sent st)),
          (Some [1; 2], None)).
Proof.
  intros Ha.
  split; [vm_compute; reflexivity|].
  split; [intros frame E; vm_compute in E; injection E as <-; reflexivity|].
  split; [vm_compute; reflexivity|].
  unfold read_holding_registers, _read_registers.
  destruct round_trip_frames as [-> _]. simpl mbind.
  unfold _send_frame. simpl. rewrite Ha. reflexivity.
Qed.

Lemma read_registers_round_trip_witness :
  read_holding_registers
    (mkMaster true
       (Some [fun _ => ReadReturns (Some [17; 0x03; 4; 0; 1; 0; 2; 59; 243])])
       initial_stats) 17 100 2
  = Some (mkMaster true (Some [])
            (incr_responses_received (incr_requests_sent initial_stats)),
          (Some [1; 2], None)).
Proof.
  apply (read_registers_round_trip initial_stats
           (fun _ => ReadReturns (Some [17; 0x03; 4; 0; 1; 0; 2; 59; 243])) []).
  reflexivity.
Defined.

(** C4, as stated, fails at code 7 (and at 9): the table has no entry for
    it, so a code between 1 and 11 is rendered as unknown. *)
Lemma exception_name_7_unknown :
  1 <= 7 <= 11 /\
  exception_name (exception_response 7) = unknown_exception 7 /\
  unknown_exception 7 = "Unknown Exception (7)"%string /\
  exception_name (exception_response 9) = "Unknown Exception (9)"%string.
Proof. repeat split; try lia; vm_compute; reflexivity. Qed.

Lemma known_exception_not_unknown (code : Z) (name : string) :
  exceptions_get code = Some name -> name <> unknown_exception code.
Proof.
  intros E Hn.
  assert (Hin : In code exception_codes).
  { unfold exceptions_get in E. unfold exception_codes. simpl.
    repeat match type of E with
           | context [match ?c with _ => _ end] => destruct c; try discriminate
           end; tauto. }
  unfold exception_codes in Hin. simpl in Hin.
  repeat (destruct Hin as [<-|Hin];
          [vm_compute in E; injection E as <-; vm_compute in Hn; discriminate Hn|]).
  contradiction.
Qed.

(** C4, amended. For every code among 1, 2, 3, 4, 5, 6, 8, 10, 11 the
    mapping returns the fixed name of the table, which is not of the
    "Unknown Exception (N)" form; for every other code, 7 and 9 included,
    it returns exactly "Unknown Exception (N)" with N in decimal. *)
Theorem exception_name_table (r : ModbusResponse) (code : Z) :
  exception_code r = Some code ->
  (In code exception_codes ->
   exists name, exceptions_get code = Some name /\
                exception_name r = name /\
                name <> unknown_exception code) /\
  (~ In code exception_codes ->
   exception_name r = ("Unknown Exception (" ++ py_str_int code ++ ")")%string).
Proof.
  intros Hc. unfold exception_name. rewrite Hc. split.
  - intros Hin. unfold exception_codes in Hin. simpl in Hin.
    assert (exists name, exceptions_get code = Some name) as [name E].
    { repeat (destruct Hin as [<-|Hin]; [eexists; reflexivity|]).
      contradiction. }
    exists name. rewrite E. repeat split.
    eapply known_exception_not_unknown, E.
  - intros Hnin. destruct (exceptions_get code) as [name|] eqn:E;
      [|reflexivity].
    exfalso. apply Hnin. unfold exceptions_get in E.
    unfold exception_codes. simpl.
    repeat match type of E with
           | context [match ?c with _ => _ end] => destruct c; try discriminate
           end; tauto.
Qed.

Lemma exception_name_table_witness :
  exception_name (exception_response 2) = "Illegal Data Address"%string /\
  exception_name (exception_response 7) = "Unknown Exception (7)"%string.
Proof.
  split.
  - destruct (exception_name_table (exception_response 2) 2 eq_refl) as [H _].
    destruct H as (name & E & En & _); [simpl; tauto|].
    rewrite En. vm_compute in E. injection E as <-. reflexivity.
  - destruct (exception_name_table (exception_response 7) 7 eq_refl) as [_ H].
    rewrite H; [reflexivity|]. simpl. intros Hin.
    repeat (destruct Hin as [Hin|Hin]; [discriminate Hin|]). exact Hin.
Defined.

Lemma short_buffer_incomplete (buffer : list Z) :
  py_len buffer < 5 -> _is_complete_frame buffer = false.
Proof.
  intros H. unfold _is_complete_frame.
  apply Z.ltb_lt in H. rewrite H. reflexivity.
Qed.

Lemma read_registers_complete_iff (buffer : list Z) :
  is_bytes buffer -> (3 <= length buffer)%nat ->
  byte_at buffer 1 = 0x03 \/ byte_at buffer 1 = 0x04 ->
  (_is_complete_frame buffer = true <->
   5 + byte_at buffer 2 <= py_len buffer).
Proof.
  intros Hb H3 Hfc.
  assert (Hcount : 0 <= byte_at buffer 2).
  { unfold byte_at. unfold is_bytes in Hb. rewrite List.Forall_forall in Hb.
    destruct (Hb (nth 2 buffer 0)) as [H _]; [|exact H].
    apply nth_In. lia. }
  assert (Hlen3 : (3 <=? py_len buffer) = true)
    by (apply Z.leb_le; unfold py_len; lia).
  unfold _is_complete_frame.
  destruct (py_len buffer <? 5) eqn:E5.
  - apply Z.ltb_lt in E5. split; [discriminate | lia].
  - destruct Hfc as [-> | ->]; simpl; rewrite Hlen3; apply Z.leb_le.
Qed.

(** C5. For a buffer whose function-code byte is 0x03 or 0x04 and whose
    third byte is the byte count, the predicate answers "complete" exactly
    when the buffer holds at least [5 + byte_count] bytes; with byte count 4
    a buffer of 8 bytes is incomplete and one of 9 bytes is complete; any
    buffer of fewer than 5 bytes is incomplete. *)
Theorem completeness_read_registers :
  (forall buffer : list Z,
     is_bytes buffer -> (3 <= length buffer)%nat ->
     byte_at buffer 1 = 0x03 \/ byte_at buffer 1 = 0x04 ->
     (_is_complete_frame buffer = true <->
      5 + byte_at buffer 2 <= py_len buffer)) /\
  (forall buffer : list Z,
     is_bytes buffer ->
     byte_at buffer 1 = 0x03 \/ byte_at buffer 1 = 0x04 ->
     byte_at buffer 2 = 4 ->
     (length buffer = 8%nat -> _is_complete_frame buffer = false) /\
     (length buffer = 9%nat -> _is_complete_frame buffer = true)) /\
  (forall buffer : list Z,
     (length buffer < 5)%nat -> _is_complete_frame buffer = false).
Proof.
  split; [exact read_registers_complete_iff|]. split.
  - intros buffer Hb Hfc Hc. split; intros Hl.
    + destruct (_is_complete_frame buffer) eqn:E; [|reflexivity].
      apply read_registers_complete_iff in E; [| assumption | lia | assumption].
      unfold py_len in E. lia.
    + apply read_registers_complete_iff; [assumption | lia | assumption |].
      unfold py_len. lia.
  - intros buffer H. apply short_buffer_incomplete. unfold py_len. lia.
Qed.

Lemma completeness_read_registers_witness :
  _is_complete_frame [17; 0x03; 4; 0; 1; 0; 2; 59] = false /\
  _is_complete_frame [17; 0x03; 4; 0; 1; 0; 2; 59; 243] = true /\
  _is_complete_frame [17; 0x03; 4; 0] = false.
Proof.
  destruct completeness_read_registers as (_ & H489 & Hshort).
  assert (B8 : is_bytes [17; 0x03; 4; 0; 1; 0; 2; 59]).
  { unfold is_bytes. repeat (constructor; [unfold is_byte; lia|]). constructor. }
  assert (B9 : is_bytes [17; 0x03; 4; 0; 1; 0; 2; 59; 243]).
  { unfold is_bytes. repeat (constructor; [unfold is_byte; lia|]). constructor. }
  split; [|split].
  - apply (H489 _ B8); [left|..]; reflexivity.
  - apply (H489 _ B9); [left|..]; reflexivity.
  - apply Hshort. simpl. lia.
Defined.

(** C6. A frame with a valid CRC whose function-code byte is 0x83 and whose
    third byte is 0x02 is parsed into an exception response named
    "Illegal Data Address" whose function code is 0x03. *)
Theorem exception_response_detected (st : Stats) (frame : list Z) :
  5 <= py_len frame ->
  unpack_le_H (take_last 2 frame) = calculate_crc (drop_last 2 frame) ->
  byte_at frame 1 = 0x83 ->
  byte_at frame 2 = 0x02 ->
  is_exception (snd (_parse_response st frame)) = true /\
  exception_name (snd (_parse_response st frame))
  = "Illegal Data Address"%string /\
  function_code (snd (_parse_response st frame)) = Some 0x03 /\
  is_valid (snd (_parse_response st frame)) = true.
Proof.
  intros Hlen Hcrc Hfc Hex. unfold _parse_response.
  assert (E5 : (py_len frame <? 5) = false) by (apply Z.ltb_ge; lia).
  assert (E2 : (2 <? py_len frame) = true) by (apply Z.ltb_lt; lia).
  rewrite E5, Hcrc, Z.eqb_refl, Hfc, E2, Hex. simpl.
  repeat split; reflexivity.
Qed.

Lemma exception_response_detected_witness :
  is_exception (snd (_parse_response initial_stats [17; 0x83; 2; 193; 52])) = true /\
  exception_name (snd (_parse_response initial_stats [17; 0x83; 2; 193; 52]))
  = "Illegal Data Address"%string /\
  function_code (snd (_parse_response initial_stats [17; 0x83; 2; 193; 52]))
  = Some 0x03 /\
  is_valid (snd (_parse_response initial_stats [17; 0x83; 2; 193; 52])) = true.
Proof.
  apply (exception_response_detected initial_stats [17; 0x83; 2; 193; 52]).
  - vm_compute. discriminate.
  - vm_compute. reflexivity.
  - reflexivity.
  - reflexivity.
Defined.

(** * Properties of the master's statistics *)

(** C8. With 10 requests sent, 7 responses received, 2 timeouts and 1 CRC
    error, [get_statistics] reports a success rate of 70.0 and an error
    rate of 30.0; with no request sent both rates are 0. *)
Theorem statistics_rates (m : ModbusMaster) :
  (requests_sent (stats m) = 10 ->
   responses_received (stats m) = 7 ->
   timeouts (stats m) = 2 ->
   crc_errors (stats m) = 1 ->
   success_rate (get_statistics m) = PyFloat 70%float /\
   error_rate (get_statistics m) = PyFloat 30%float) /\
  (requests_sent (stats m) = 0 ->
   success_rate (get_statistics m) = PyInt 0 /\
   error_rate (get_statistics m) = PyInt 0).
Proof.
  unfold get_statistics. split.
  - intros -> -> -> ->. split; vm_compute; reflexivity.
  - intros ->. split; reflexivity.
Qed.

Lemma statistics_rates_witness :
  (success_rate (get_statistics (mkMaster true None (mkStats 10 7 2 1 0)))
   = PyFloat 70%float /\
   error_rate (get_statistics (mkMaster true None (mkStats 10 7 2 1 0)))
   = PyFloat 30%float) /\
  (success_rate (get_statistics (mkMaster false None initial_stats)) = PyInt 0 /\
   error_rate (get_statistics (mkMaster false None initial_stats)) = PyInt 0).
Proof.
  split.
  - apply (proj1 (statistics_rates (mkMaster true None (mkStats 10 7 2 1 0))));
      reflexivity.
  - apply (proj2 (statistics_rates (mkMaster false None initial_stats))).
    reflexivity.
Defined.

(** * Properties of the scan *)

Section Scan.

Implicit Types (m : ModbusMaster) (r : ModbusResponse).
Implicit Types (rs : list ModbusResponse).
Implicit Types (found : list (option Z * ModbusResponse)).

Lemma pack_le_H_crc (d : list Z) :
  pack_le_H (calculate_crc d)
  = Some [Z.land (calculate_crc d) 255; Z.shiftr (calculate_crc d) 8].
Proof.
  unfold pack_le_H, is_u16b. pose proof (calculate_crc_range d).
  replace (0 <=? calculate_crc d) with true
    by (symmetry; apply Z.leb_le; lia).
  replace (calculate_crc d <? 65536) with true
    by (symmetry; apply Z.ltb_lt; lia).
  reflexivity.
Qed.

Lemma pack_B_byte (v : Z) : is_byte v -> pack_B v = Some [v].
Proof.
  unfold pack_B, is_byteb, is_byte. intros Hb.
  replace (0 <=? v) with true by (symmetry; apply Z.leb_le; lia).
  replace (v <? 256) with true by (symmetry; apply Z.ltb_lt; lia).
  reflexivity.
Qed.

Lemma bind_Some {A B} (x : A) (f : A -> option B) : Some x ≫= f = f x.
Proof. reflexivity. Qed.

(** On values in range the request is the six packed bytes followed by
    their checksum, low byte first. *)
Lemma read_request_frame_packed (slave fc address count : Z) :
  is_byte slave -> is_byte fc ->
  is_u16b address = true -> is_u16b count = true ->
  read_request_frame slave fc address count
  = Some (([slave] ++ [fc] ++ [Z.shiftr address 8; Z.land address 255]
                   ++ [Z.shiftr count 8; Z.land count 255])
          ++ [Z.land (calculate_crc
                        ([slave] ++ [fc]
                         ++ [Z.shiftr address 8; Z.land address 255]
                         ++ [Z.shiftr count 8; Z.land count 255])) 255;
              Z.shiftr (calculate_crc
                          ([slave] ++ [fc]
                           ++ [Z.shiftr address 8; Z.land address 255]
                           ++ [Z.shiftr count 8; Z.land count 255])) 8]).
Proof.
  intros Hs Hf Ha Hc. unfold read_request_frame, pack_be_H.
  rewrite Ha, Hc, (pack_B_byte slave Hs), (pack_B_byte fc Hf).
  rewrite !bind_Some, pack_le_H_crc, bind_Some. reflexivity.
Qed.

(** A probe of a slave ID that fits a byte never raises. *)
Lemma probe_device_returns m (sid : Z) :
  is_byte sid -> exists m' r, probe_device m sid 65535 = Some (m', r).
Proof.
  intros Hb. unfold probe_device.
  rewrite (read_request_frame_packed sid _ 65535 1 Hb);
    [| unfold is_byte; simpl; lia | reflexivity | reflexivity].
  rewrite bind_Some.
  destruct (_send_frame m _) as [m' r]. eauto.
Qed.

Lemma probe_responses_return (ids : list Z) m :
  Forall is_byte ids ->
  exists m' rs, probe_responses ids m = Some (m', rs) /\
                length rs = length ids.
Proof.
  intros Hids. revert m. induction Hids as [|sid ids Hb _ IH]; intros m.
  - exists m, []. split; reflexivity.
  - destruct (probe_device_returns m sid Hb) as (m1 & r & E1).
    destruct (IH m1) as (m2 & rs & E2 & Hl).
    exists m2, (r :: rs). cbn [probe_responses]. rewrite E1.
    cbn [mbind option_bind]. rewrite E2. cbn [mbind option_bind length].
    split; [reflexivity | now rewrite Hl].
Qed.

(** The loop, with its accumulators, computes [first_reports]. *)
Lemma scan_loop_first_reports (ids : list Z) :
  forall m found (seen : gset (option Z)) m' rs,
    probe_responses ids m = Some (m', rs) ->
    scan_loop ids m found seen
    = Some (m', found ++ filter (fun e => e.1 ∉ seen) (first_reports rs)).
Proof.
  induction ids as [|sid ids IH]; intros m found seen m' rs E.
  - cbn [probe_responses] in E. injection E as <- <-.
    cbn [scan_loop first_reports]. now rewrite app_nil_r.
  - cbn [probe_responses] in E. cbn [scan_loop].
    destruct (probe_device m sid 65535) as [[m1 r]|]; [|discriminate E].
    cbn [mbind option_bind] in E. cbn [mbind option_bind].
    destruct (probe_responses ids m1) as [[m2 rs']|] eqn:E2;
      [|discriminate E].
    cbn [mbind option_bind] in E. injection E as <- <-.
    cbn [first_reports]. destruct (is_valid r) eqn:Ev; cbn [andb negb].
    + destruct (bool_decide (slave_id r ∈ seen)) eqn:Es; cbn [negb].
      * apply bool_decide_eq_true in Es.
        rewrite (IH _ _ _ _ _ E2). do 3 f_equal.
        rewrite filter_cons_False by (simpl; intros H; apply H, Es).
        rewrite list_filter_filter. apply list_filter_iff.
        intros [k r']. simpl. split; [|tauto].
        intros H. split; [exact H|]. intros ->. apply H, Es.
      * apply bool_decide_eq_false in Es.
        rewrite (IH _ _ _ _ _ E2). do 2 f_equal.
        rewrite <- app_assoc. f_equal.
        rewrite filter_cons_True by exact Es. cbn [app]. f_equal.
        rewrite list_filter_filter. apply list_filter_iff.
        intros [k r']. simpl. set_solver.
    + apply (IH _ _ _ _ _ E2).
Qed.

Lemma scan_slaves_first_reports (ids : list Z) m m' rs :
  probe_responses ids m = Some (m', rs) ->
  scan_slaves m ids = Some (m', first_reports rs).
Proof.
  intros E. unfold scan_slaves.
  rewrite (scan_loop_first_reports ids m [] ∅ m' rs E). simpl.
  f_equal. f_equal.
  induction (first_reports rs) as [|e l IHl]; [reflexivity|].
  rewrite filter_cons_True by set_solver. now rewrite IHl.
Qed.

(** An entry of [first_reports] is a valid response, filed under the ID it
    reports, that no earlier valid response had reported. *)
Lemma first_reports_sound rs (k : option Z) r :
  (k, r) ∈ first_reports rs ->
  k = slave_id r /\ is_valid r = true /\
  exists pre post,
    rs = pre ++ r :: post /\
    forall r', r' ∈ pre -> is_valid r' = true -> slave_id r' <> slave_id r.
Proof.
  revert k r. induction rs as [|h rs IH]; intros k r Hin; simpl in Hin.
  - apply elem_of_nil in Hin. contradiction.
  - destruct (is_valid h) eqn:Ev.
    + apply elem_of_cons in Hin as [E | Hin].
      * injection E as -> ->. repeat split; [exact Ev|].
        exists [], rs. split; [reflexivity|].
        intros r' Hr'. apply elem_of_nil in Hr'. contradiction.
      * apply list_elem_of_filter in Hin as [Hne Hin]. simpl in Hne.
        destruct (IH _ _ Hin) as (-> & Hv & pre & post & -> & Hfirst).
        repeat split; [exact Hv|].
        exists (h :: pre), post. split; [reflexivity|].
        intros r' Hr' Hv'. apply elem_of_cons in Hr' as [-> | Hr'].
        -- intros E. apply Hne. now rewrite E.
        -- now apply Hfirst.
    + destruct (IH _ _ Hin) as (-> & Hv & pre & post & -> & Hfirst).
      repeat split; [exact Hv|].
      exists (h :: pre), post. split; [reflexivity|].
      intros r' Hr' Hv'. apply elem_of_cons in Hr' as [-> | Hr'].
      * rewrite Ev in Hv'. discriminate Hv'.
      * now apply Hfirst.
Qed.

Lemma first_reports_complete (pre post : list ModbusResponse) r :
  is_valid r = true ->
  (forall r', r' ∈ pre -> is_valid r' = true -> slave_id r' <> slave_id r) ->
  (slave_id r, r) ∈ first_reports (pre ++ r :: post).
Proof.
  intros Hv. induction pre as [|h pre IH]; intros Hfirst; simpl.
  - rewrite Hv. apply elem_of_cons. now left.
  - assert (Hrec : (slave_id r, r) ∈ first_reports (pre ++ r :: post)).
    { apply IH. intros r' Hr'. apply Hfirst, elem_of_cons. now right. }
    destruct (is_valid h) eqn:Ev; [|exact Hrec].
    apply elem_of_cons. right. apply list_elem_of_filter. split; [|exact Hrec].
    simpl. intros E. apply (Hfirst h); [apply elem_of_cons; now left | exact Ev
                                       | now rewrite E].
Qed.

Lemma NoDup_fst_filter (P : option Z * ModbusResponse -> Prop)
  `{!forall e, Decision (P e)} found :
  NoDup (found.*1) -> NoDup ((filter P found).*1).
Proof.
  induction found as [|e l IH]; intros Hnd; [constructor|].
  rewrite fmap_cons in Hnd. apply NoDup_cons in Hnd as [Hnin Hnd].
  rewrite filter_cons. destruct (decide (P e)); [|now apply IH].
  rewrite fmap_cons. apply NoDup_cons. split; [|now apply IH].
  intros Hin. apply Hnin.
  apply list_elem_of_fmap in Hin as (e' & -> & Hin').
  apply list_elem_of_filter in Hin' as [_ Hin'].
  now apply list_elem_of_fmap_2.
Qed.

Lemma first_reports_NoDup rs : NoDup ((first_reports rs).*1).
Proof.
  induction rs as [|h rs IH]; simpl; [constructor|].
  destruct (is_valid h); [|exact IH].
  rewrite fmap_cons. apply NoDup_cons. split.
  - simpl. intros Hin.
    apply list_elem_of_fmap in Hin as (e & E & Hin).
    apply list_elem_of_filter in Hin as [Hne _]. now apply Hne.
  - apply NoDup_fst_filter, IH.
Qed.

End Scan.

(** C7, as stated, fails when two probes are answered validly under one
    reported ID: on [misreporting_line] the fourth probe's response is valid
    and is not in the list. *)
Lemma scan_drops_later_report :
  exists m',
    probe_responses (py_range 1 6) misreporting_master
    = Some (m', [timeout_response; second_report; timeout_response;
                 fourth_report; timeout_response]) /\
    scan_slaves misreporting_master (py_range 1 6)
    = Some (m', [(Some 2, second_report)]) /\
    is_valid fourth_report = true /\
    (slave_id fourth_report, fourth_report) ∉ [(Some 2, second_report)].
Proof.
  eexists. split; [vm_compute; reflexivity|].
  split; [vm_compute; reflexivity|].
  split; [reflexivity|].
  intros Hin. apply elem_of_cons in Hin as [E | Hin].
  - discriminate E.
  - apply elem_of_nil in Hin. exact Hin.
Qed.

(** C7, amended. For every range of byte-sized slave IDs and whatever the
    bus answers, [scan_slaves] returns a list in which a pair
    (ID, response) occurs exactly when the response is that of a probe, is
    valid (neither timeout nor CRC error, exception responses included),
    reports that ID, and no earlier probe's valid response reported the
    same ID; so the list has at most one entry per reported slave ID. *)
Theorem scan_slaves_first_valid_report (m : ModbusMaster) (ids : list Z) :
  Forall is_byte ids ->
  exists m' rs found,
    probe_responses ids m = Some (m', rs) /\
    length rs = length ids /\
    scan_slaves m ids = Some (m', found) /\
    found = first_reports rs /\
    (forall k r,
        (k, r) ∈ found <->
        k = slave_id r /\ is_valid r = true /\
        exists pre post,
          rs = pre ++ r :: post /\
          forall r', r' ∈ pre -> is_valid r' = true ->
                     slave_id r' <> slave_id r) /\
    NoDup (found.*1).
Proof.
  intros Hids.
  destruct (probe_responses_return ids m Hids) as (m' & rs & E & Hl).
  exists m', rs, (first_reports rs).
  split; [exact E|]. split; [exact Hl|].
  split; [apply scan_slaves_first_reports, E|]. split; [reflexivity|].
  split; [|apply first_reports_NoDup].
  intros k r. split.
  - apply first_reports_sound.
  - intros (-> & Hv & pre & post & -> & Hfirst).
    now apply first_reports_complete.
Qed.

Lemma scan_slaves_first_valid_report_witness :
  exists m' rs found,
    probe_responses (py_range 1 6) misreporting_master = Some (m', rs) /\
    length rs = length (py_range 1 6) /\
    scan_slaves misreporting_master (py_range 1 6) = Some (m', found) /\
    found = first_reports rs /\
    (forall k r,
        (k, r) ∈ found <->
        k = slave_id r /\ is_valid r = true /\
        exists pre post,
          rs = pre ++ r :: post /\
          forall r', r' ∈ pre -> is_valid r' = true ->
                     slave_id r' <> slave_id r) /\
    NoDup (found.*1).
Proof.
  apply (scan_slaves_first_valid_report misreporting_master (py_range 1 6)).
  unfold py_range. simpl. repeat (constructor; [unfold is_byte; lia|]).
  constructor.
Defined.

(** * Properties of the passive monitor *)

(** ** Order on floats: [a < b] excludes [b < a] and [b <= a] *)

Section FloatOrder.

Lemma SFcompare_Lt_Gt (a b : spec_float) :
  SFcompare a b = Some Lt -> SFcompare b a = Some Gt.
Proof.
  destruct a as [sa|sa| |sa ma ea], b as [sb|sb| |sb mb eb];
    cbn [SFcompare]; try discriminate;
    try (destruct sa; try discriminate; reflexivity);
    try (destruct sb; try discriminate; reflexivity);
    try (destruct sa, sb; try discriminate; reflexivity).
  intros E. injection E as E. f_equal.
  rewrite (Z.compare_antisym ea eb).
  change (Pos.compare_cont Eq mb ma) with (Pos.compare mb ma).
  change (Pos.compare_cont Eq ma mb) with (Pos.compare ma mb) in E.
  rewrite (Pos.compare_antisym ma mb).
  destruct sa, sb; try discriminate; try reflexivity;
    destruct (ea ?= eb); try discriminate; try reflexivity;
    destruct (ma ?= mb)%positive; try discriminate; reflexivity.
Qed.

Lemma float_ltb_asym (x y : float) :
  PrimFloat.ltb x y = true -> PrimFloat.ltb y x = false.
Proof.
  rewrite !FloatAxioms.ltb_spec. unfold SFltb.
  destruct (SFcompare (Prim2SF x) (Prim2SF y)) as [[]|] eqn:E;
    try discriminate.
  intros _. now rewrite (SFcompare_Lt_Gt _ _ E).
Qed.

Lemma float_ltb_not_leb (x y : float) :
  PrimFloat.ltb x y = true -> PrimFloat.leb y x = false.
Proof.
  rewrite FloatAxioms.ltb_spec, FloatAxioms.leb_spec. unfold SFltb, SFleb.
  destruct (SFcompare (Prim2SF x) (Prim2SF y)) as [[]|] eqn:E;
    try discriminate.
  intros _. now rewrite (SFcompare_Lt_Gt _ _ E).
Qed.

End FloatOrder.

(** ** Wave detection *)

Section Waves.

Variable threshold : float.
Implicit Types (ws : WaveStats) (timestamp lmt cws : Z).

Lemma update_wave_first ws timestamp :
  last_msg_time ws = None ->
  update_wave threshold ws timestamp
  = set_last_msg_time (start_wave ws timestamp) timestamp.
Proof. intros E. unfold update_wave. now rewrite E. Qed.

Lemma update_wave_continue ws timestamp lmt :
  last_msg_time ws = Some lmt ->
  PrimFloat.ltb threshold (total_seconds (timestamp - lmt)) = false ->
  update_wave threshold ws timestamp
  = set_last_msg_time (continue_wave ws) timestamp.
Proof. intros E Hgap. unfold update_wave. now rewrite E, Hgap. Qed.

Lemma update_wave_close ws timestamp lmt cws :
  last_msg_time ws = Some lmt ->
  current_wave_start ws = Some cws ->
  PrimFloat.ltb threshold (total_seconds (timestamp - lmt)) = true ->
  update_wave threshold ws timestamp
  = set_last_msg_time (start_wave (close_wave ws cws lmt) timestamp) timestamp.
Proof. intros E Ec Hgap. unfold update_wave. now rewrite E, Hgap, Ec. Qed.

Lemma waves_close_wave ws cws lmt :
  waves (close_wave ws cws lmt)
  = deque_append 100 (waves ws)
      (mkWaveInfo cws lmt (total_seconds (lmt - cws)) (current_wave_msgs ws)).
Proof.
  unfold close_wave.
  destruct (1 <? py_len _); reflexivity.
Qed.

Lemma update_wave_last_msg_time ws timestamp :
  last_msg_time (update_wave threshold ws timestamp) = Some timestamp.
Proof. reflexivity. Qed.

End Waves.

Section WaveScenario.

Variable t0 : Z.

Let w1 := update_wave 0.5 default_wave_stats t0.
Let w2 := update_wave 0.5 w1 (t0 + 100000).
Let w3 := update_wave 0.5 w2 (t0 + 200000).
Let w4 := update_wave 0.5 w3 (t0 + 1000000).

(** Messages at 0.0, 0.1 and 0.2 s share one open wave; the message at
    1.0 s closes it and opens the next. *)
Lemma wave_scenario :
  w3 = mkWaveStats [] (Some t0) 3 (Some (t0 + 200000)) [] (PyInt 0)
                   (PyInt 0) (PyFloat PrimFloat.infinity) (PyInt 0) /\
  w4 = mkWaveStats [mkWaveInfo t0 (t0 + 200000) (total_seconds 200000) 3]
                   (Some (t0 + 1000000)) 1 (Some (t0 + 1000000)) []
                   (PyInt 0) (py_truediv (PyInt 3) (PyInt 1))
                   (PyFloat PrimFloat.infinity) (PyInt 0).
Proof.
  assert (E1 : w1 = mkWaveStats [] (Some t0) 1 (Some t0) [] (PyInt 0)
                      (PyInt 0) (PyFloat PrimFloat.infinity) (PyInt 0))
    by reflexivity.
  assert (E2 : w2 = mkWaveStats [] (Some t0) 2 (Some (t0 + 100000)) []
                      (PyInt 0) (PyInt 0) (PyFloat PrimFloat.infinity)
                      (PyInt 0)).
  { subst w2. rewrite E1.
    rewrite (update_wave_continue _ _ _ t0); [reflexivity | reflexivity |].
    replace (t0 + 100000 - t0) with 100000 by lia.
    vm_compute. reflexivity. }
  assert (E3 : w3 = mkWaveStats [] (Some t0) 3 (Some (t0 + 200000)) []
                      (PyInt 0) (PyInt 0) (PyFloat PrimFloat.infinity)
                      (PyInt 0)).
  { subst w3. rewrite E2.
    rewrite (update_wave_continue _ _ _ (t0 + 100000));
      [reflexivity | reflexivity |].
    replace (t0 + 200000 - (t0 + 100000)) with 100000 by lia.
    vm_compute. reflexivity. }
  split; [exact E3|].
  subst w4. rewrite E3.
  rewrite (update_wave_close _ _ _ (t0 + 200000) t0);
    [| reflexivity | reflexivity |].
  - unfold close_wave. cbn [waves current_wave_msgs].
    replace (t0 + 200000 - t0) with 200000 by lia. reflexivity.
  - replace (t0 + 1000000 - (t0 + 200000)) with 800000 by lia.
    vm_compute. reflexivity.
Qed.

End WaveScenario.

(** ** Frame processing *)

Section ProcessFrame.

Implicit Types (m : RS485PassiveMonitor) (frame : list Z) (now sid : Z).

Lemma analyze_accepts (p : DetectedProtocols) frame :
  fst (_analyze_frame_validity p frame) = accepts frame.
Proof.
  unfold accepts, _analyze_frame_validity.
  repeat match goal with
         | |- context [if ?c then _ else _] => destruct c
         end; reflexivity.
Qed.

(** What [_process_frame] does with an accepted frame that passes the
    slave filter: the wave entry and the polling entry of its slave are
    rewritten, and the event of [update_poll], if any, is queued. *)
Lemma process_accepted_frame m frame now :
  accepts frame = true ->
  slave_ids m = ∅ \/ byte_at frame 0 ∈ slave_ids m ->
  slave_ids (_process_frame m frame now) = {[byte_at frame 0]} ∪ slave_ids m /\
  wave_gap_threshold (_process_frame m frame now) = wave_gap_threshold m /\
  wave_stats (_process_frame m frame now)
  = <[byte_at frame 0 :=
        update_wave (wave_gap_threshold m)
                    (wave_stats_at m (byte_at frame 0)) now]> (wave_stats m) /\
  slave_stats (_process_frame m frame now)
  = <[byte_at frame 0 :=
        fst (update_poll (slave_stats_at m (byte_at frame 0))
                         (byte_at frame 0) now frame)]> (slave_stats m) /\
  data_queue (_process_frame m frame now)
  = data_queue m
    ++ match snd (update_poll (slave_stats_at m (byte_at frame 0))
                              (byte_at frame 0) now frame) with
       | Some e => [e]
       | None => []
       end.
Proof.
  intros Ha Hf. unfold _process_frame.
  pose proof (analyze_accepts (detected_protocols m) frame) as Hacc.
  destruct (_analyze_frame_validity (detected_protocols m) frame)
    as [a p'] eqn:E.
  cbn [fst] in Hacc. rewrite Ha in Hacc. subst a.
  cbn [negb slave_ids wave_gap_threshold data_queue slave_stats wave_stats
       detected_protocols].
  assert (Hfilter : bool_decide (slave_ids m = ∅)
                    || bool_decide (byte_at frame 0 ∈ slave_ids m) = true).
  { destruct Hf as [Hf | Hf].
    - rewrite (bool_decide_eq_true_2 _ Hf). reflexivity.
    - rewrite (bool_decide_eq_true_2 _ Hf). apply orb_true_r. }
  rewrite Hfilter.
  unfold _update_wave_stats, slave_stats_at, wave_stats_at.
  cbn [slave_ids wave_gap_threshold data_queue slave_stats wave_stats
       detected_protocols].
  destruct (update_poll _ _ _ _) as [st ev].
  cbn [slave_ids wave_gap_threshold data_queue slave_stats wave_stats
       detected_protocols fst snd].
  repeat split.
  - destruct (bool_decide (byte_at frame 0 ∈ slave_ids m)) eqn:Eb;
      [|reflexivity].
    apply bool_decide_eq_true in Eb. set_solver.
  - destruct ev; [reflexivity | now rewrite app_nil_r].
Qed.

Lemma process_frame_wave_stats m frame now :
  accepts frame = true ->
  slave_ids m = ∅ \/ byte_at frame 0 ∈ slave_ids m ->
  wave_stats_at (_process_frame m frame now) (byte_at frame 0)
  = update_wave (wave_gap_threshold m) (wave_stats_at m (byte_at frame 0)) now.
Proof.
  intros Ha Hf.
  destruct (process_accepted_frame m frame now Ha Hf) as (_ & _ & E & _).
  unfold wave_stats_at at 1. rewrite E, lookup_insert_eq. reflexivity.
Qed.

(** A frame that arrives sooner than [min_poll_interval] after the last
    counted poll changes no polling entry and queues nothing. *)
Lemma update_poll_too_soon (st : SlaveStats) sid now frame (seen : Z) :
  last_seen st = Some seen ->
  PrimFloat.ltb (total_seconds (now - seen)) min_poll_interval = true ->
  update_poll st sid now frame = (st, None).
Proof.
  intros Hs Hlt. unfold update_poll. rewrite Hs.
  now rewrite (float_ltb_not_leb _ _ Hlt).
Qed.

Lemma slave_stats_at_stored m sid (seen : Z) :
  last_seen (slave_stats_at m sid) = Some seen ->
  slave_stats m !! sid = Some (slave_stats_at m sid).
Proof.
  unfold slave_stats_at. destruct (slave_stats m !! sid) as [st|];
    [reflexivity | discriminate].
Qed.

(** [get_current_rates] reports, for every known slave, the entry computed
    from the statistics stored before the call. *)
Lemma get_current_rates_lookup m (current_time : Z) sid :
  sid ∈ slave_ids m ->
  snd (get_current_rates m current_time) !! sid
  = Some (rate_entry (slave_stats_at m sid) (wave_stats_at m sid)
                     current_time).
Proof.
  unfold get_current_rates.
  set (f := fun (sid : Z) '(m, rates) => _).
  assert (H : (fun (acc : RS485PassiveMonitor * gmap Z RateInfo)
                   (X : gset Z) =>
                 (forall s, slave_stats_at acc.1 s = slave_stats_at m s) /\
                 (forall s, wave_stats_at acc.1 s = wave_stats_at m s) /\
                 (forall s, s ∈ X ->
                    acc.2 !! s
                    = Some (rate_entry (slave_stats_at m s)
                                       (wave_stats_at m s) current_time)))
              (set_fold f (m, ∅) (slave_ids m)) (slave_ids m)).
  { apply (set_fold_ind_L
             (fun (acc : RS485PassiveMonitor * gmap Z RateInfo)
                  (X : gset Z) =>
                (forall s, slave_stats_at acc.1 s = slave_stats_at m s) /\
                (forall s, wave_stats_at acc.1 s = wave_stats_at m s) /\
                (forall s, s ∈ X ->
                   acc.2 !! s
                   = Some (rate_entry (slave_stats_at m s)
                                      (wave_stats_at m s) current_time)))).
    - repeat split; try reflexivity. intros s Hs. set_solver.
    - intros x X [ma rates] _ (Hst & Hws & Hr). subst f. cbn [fst snd] in *.
      repeat split.
      + intros s. unfold slave_stats_at at 1. cbn [slave_stats].
        destruct (decide (x = s)) as [->|Hne].
        * rewrite lookup_insert_eq. apply Hst.
        * rewrite lookup_insert_ne by exact Hne. apply Hst.
      + intros s. unfold wave_stats_at at 1. cbn [wave_stats].
        destruct (decide (x = s)) as [->|Hne].
        * rewrite lookup_insert_eq. apply Hws.
        * rewrite lookup_insert_ne by exact Hne. apply Hws.
      + intros s Hs. destruct (decide (x = s)) as [->|Hne].
        * rewrite lookup_insert_eq, Hst, Hws. reflexivity.
        * rewrite lookup_insert_ne by exact Hne. apply Hr. set_solver. }
  intros Hin. destruct H as (_ & _ & H). apply H, Hin.
Qed.

End ProcessFrame.

(** C9. Four accepted frames of one slave at 0.0, 0.1, 0.2 and 1.0 s, with
    a wave-gap threshold of 0.5 s: after the third the history is empty and
    the open wave counts 3 messages; the fourth records exactly one closed
    wave (start 0.0, end 0.2, 3 messages) and leaves a new open wave started
    at 1.0 s with message count 1.  In general, on a slave with an open
    wave, a gap strictly greater than the threshold appends the open wave
    to the history and opens a new one with message count 1, and any gap
    that is not greater (a smaller one in particular) only increments the
    open wave's message count. *)
Theorem wave_segmentation :
  (forall (ids f1 f2 f3 f4 : list Z) (sid t0 : Z),
      ids = [] \/ In sid ids ->
      accepts f1 = true /\ byte_at f1 0 = sid ->
      accepts f2 = true /\ byte_at f2 0 = sid ->
      accepts f3 = true /\ byte_at f3 0 = sid ->
      accepts f4 = true /\ byte_at f4 0 = sid ->
      forall m3,
        m3 = _process_frame
               (_process_frame
                  (_process_frame (new_monitor ids 0.5) f1 t0)
                  f2 (t0 + 100000))
               f3 (t0 + 200000) ->
        (waves (wave_stats_at m3 sid) = [] /\
         current_wave_start (wave_stats_at m3 sid) = Some t0 /\
         current_wave_msgs (wave_stats_at m3 sid) = 3) /\
        (waves (wave_stats_at (_process_frame m3 f4 (t0 + 1000000)) sid)
         = [mkWaveInfo t0 (t0 + 200000) (total_seconds 200000) 3] /\
         current_wave_start
           (wave_stats_at (_process_frame m3 f4 (t0 + 1000000)) sid)
         = Some (t0 + 1000000) /\
         current_wave_msgs
           (wave_stats_at (_process_frame m3 f4 (t0 + 1000000)) sid) = 1)) /\
  (forall (threshold : float) (ws : WaveStats) (timestamp lmt cws : Z),
      last_msg_time ws = Some lmt ->
      current_wave_start ws = Some cws ->
      (PrimFloat.ltb threshold (total_seconds (timestamp - lmt)) = true ->
       waves (update_wave threshold ws timestamp)
       = deque_append 100 (waves ws)
           (mkWaveInfo cws lmt (total_seconds (lmt - cws))
                       (current_wave_msgs ws)) /\
       current_wave_start (update_wave threshold ws timestamp)
       = Some timestamp /\
       current_wave_msgs (update_wave threshold ws timestamp) = 1) /\
      (PrimFloat.ltb threshold (total_seconds (timestamp - lmt)) = false \/
       PrimFloat.ltb (total_seconds (timestamp - lmt)) threshold = true ->
       waves (update_wave threshold ws timestamp) = waves ws /\
       current_wave_start (update_wave threshold ws timestamp) = Some cws /\
       current_wave_msgs (update_wave threshold ws timestamp)
       = current_wave_msgs ws + 1)).
Proof.
  split.
  - intros ids f1 f2 f3 f4 sid t0 Hids [A1 B1] [A2 B2] [A3 B3] [A4 B4] m3 ->.
    set (m0 := new_monitor ids 0.5).
    set (m1 := _process_frame m0 f1 t0).
    set (m2 := _process_frame m1 f2 (t0 + 100000)).
    set (m3 := _process_frame m2 f3 (t0 + 200000)).
    assert (F0 : slave_ids m0 = ∅ \/ byte_at f1 0 ∈ slave_ids m0).
    { rewrite B1. destruct Hids as [-> | Hin]; [left; reflexivity|].
      right. apply elem_of_list_to_set, list_elem_of_In, Hin. }
    destruct (process_accepted_frame m0 f1 t0 A1 F0) as (I1 & T1 & _).
    assert (F1 : slave_ids m1 = ∅ \/ byte_at f2 0 ∈ slave_ids m1).
    { right. fold m1 in I1. rewrite I1, B1, B2. set_solver. }
    destruct (process_accepted_frame m1 f2 (t0 + 100000) A2 F1) as (I2 & T2 & _).
    assert (F2 : slave_ids m2 = ∅ \/ byte_at f3 0 ∈ slave_ids m2).
    { right. fold m2 in I2. rewrite I2, B2, B3. set_solver. }
    destruct (process_accepted_frame m2 f3 (t0 + 200000) A3 F2) as (I3 & T3 & _).
    assert (F3 : slave_ids m3 = ∅ \/ byte_at f4 0 ∈ slave_ids m3).
    { right. fold m3 in I3. rewrite I3, B3, B4. set_solver. }
    pose proof (process_frame_wave_stats m0 f1 t0 A1 F0) as W1.
    pose proof (process_frame_wave_stats m1 f2 (t0 + 100000) A2 F1) as W2.
    pose proof (process_frame_wave_stats m2 f3 (t0 + 200000) A3 F2) as W3.
    pose proof (process_frame_wave_stats m3 f4 (t0 + 1000000) A4 F3) as W4.
    fold m1 in W1, T1. fold m2 in W2, T2. fold m3 in W3, T3.
    rewrite B1 in W1. rewrite B2 in W2. rewrite B3 in W3. rewrite B4 in W4.
    rewrite T3, T2, T1 in W4. rewrite T2, T1 in W3. rewrite T1 in W2.
    change (wave_gap_threshold m0) with 0.5%float in *.
    change (wave_stats_at m0 sid) with default_wave_stats in W1.
    rewrite W1 in W2. rewrite W2 in W3. rewrite W3 in W4.
    destruct (wave_scenario t0) as [E3 E4].
    rewrite W4, E4, W3, E3. repeat split; reflexivity.
  - intros threshold ws timestamp lmt cws Hl Hc. split.
    + intros Hgap.
      rewrite (update_wave_close threshold ws timestamp lmt cws Hl Hc Hgap).
      cbn [waves current_wave_start current_wave_msgs set_last_msg_time
           start_wave].
      rewrite waves_close_wave. repeat split; reflexivity.
    + intros Hgap.
      assert (Hnot : PrimFloat.ltb threshold (total_seconds (timestamp - lmt))
                     = false).
      { destruct Hgap as [H | H]; [exact H | apply float_ltb_asym, H]. }
      rewrite (update_wave_continue threshold ws timestamp lmt Hl Hnot).
      cbn [waves current_wave_start current_wave_msgs set_last_msg_time
           continue_wave].
      repeat split. exact Hc.
Qed.

Lemma wave_segmentation_witness :
  (current_wave_msgs
     (wave_stats_at
        (_process_frame
           (_process_frame monitor_after_first_frame frame_from_17 100000)
           frame_from_17 200000) 17) = 3 /\
   waves
     (wave_stats_at
        (_process_frame
           (_process_frame
              (_process_frame monitor_after_first_frame frame_from_17 100000)
              frame_from_17 200000)
           frame_from_17 1000000) 17)
   = [mkWaveInfo 0 200000 (total_seconds 200000) 3]) /\
  current_wave_msgs
    (update_wave 0.5 (update_wave 0.5 default_wave_stats 0) 1000000) = 1 /\
  current_wave_msgs
    (update_wave 0.5 (update_wave 0.5 default_wave_stats 0) 100000) = 2.
Proof.
  destruct wave_segmentation as [Hscenario Hgeneral].
  split; [|split].
  - assert (Hacc : accepts frame_from_17 = true /\ byte_at frame_from_17 0 = 17)
      by (split; [vm_compute; reflexivity | reflexivity]).
    destruct (Hscenario [] frame_from_17 frame_from_17 frame_from_17
                frame_from_17 17 0 (or_introl eq_refl) Hacc Hacc Hacc Hacc
                _ eq_refl) as [(_ & _ & H3) (H4 & _)].
    split; [exact H3 | exact H4].
  - destruct (Hgeneral 0.5%float (update_wave 0.5 default_wave_stats 0)
                1000000 0 0 eq_refl eq_refl) as [Hclose _].
    apply Hclose. vm_compute. reflexivity.
  - destruct (Hgeneral 0.5%float (update_wave 0.5 default_wave_stats 0)
                100000 0 0 eq_refl eq_refl) as [_ Hcont].
    apply Hcont. right. vm_compute. reflexivity.
Defined.

(** C10. An accepted frame of a known slave that arrives less than 0.010 s
    after the slave's stored last-seen time leaves the polling statistics
    as they were (the whole [slave_stats] map, hence count, last_seen,
    intervals, min/max interval and average of every slave) and queues no
    display event, while the slave's wave statistics are updated: the wave
    last-message time becomes the frame's time and the open wave's message
    count is incremented, or reset to 1 when the frame starts a new wave.
    So the time since the last message reported by [get_current_rates], and
    the interval of the next counted poll, are still measured from the
    stored last-seen time. *)
Theorem fast_frame_keeps_poll_stats
  (m : RS485PassiveMonitor) (frame : list Z) (sid now seen : Z) :
  accepts frame = true ->
  byte_at frame 0 = sid ->
  sid ∈ slave_ids m ->
  last_seen (slave_stats_at m sid) = Some seen ->
  PrimFloat.ltb (total_seconds (now - seen)) min_poll_interval = true ->
  slave_stats (_process_frame m frame now) = slave_stats m /\
  slave_stats_at (_process_frame m frame now) sid = slave_stats_at m sid /\
  data_queue (_process_frame m frame now) = data_queue m /\
  wave_stats_at (_process_frame m frame now) sid
  = update_wave (wave_gap_threshold m) (wave_stats_at m sid) now /\
  last_msg_time (wave_stats_at (_process_frame m frame now) sid) = Some now /\
  current_wave_msgs (wave_stats_at (_process_frame m frame now) sid)
  = match last_msg_time (wave_stats_at m sid) with
    | Some lmt =>
        if PrimFloat.ltb (wave_gap_threshold m) (total_seconds (now - lmt))
        then 1
        else current_wave_msgs (wave_stats_at m sid) + 1
    | None => 1
    end /\
  (forall current_time : Z,
      exists info,
        snd (get_current_rates (_process_frame m frame now) current_time) !! sid
        = Some info /\
        time_since_last info = total_seconds (current_time - seen) /\
        message_count info = count (slave_stats_at m sid)) /\
  (forall (frame' : list Z) (now' : Z),
      PrimFloat.leb min_poll_interval (total_seconds (now' - seen)) = true ->
      snd (update_poll (slave_stats_at (_process_frame m frame now) sid)
                       sid now' frame')
      = Some (mkEvent now' sid (hex frame') (py_len frame')
                      (PyFloat (total_seconds (now' - seen))))).
Proof.
  intros Ha Hsid Hin Hseen Hfast. subst sid.
  assert (Hf : slave_ids m = ∅ \/ byte_at frame 0 ∈ slave_ids m)
    by (right; exact Hin).
  destruct (process_accepted_frame m frame now Ha Hf)
    as (Hids & _ & _ & Hst & Hq).
  rewrite (update_poll_too_soon _ _ _ _ seen Hseen Hfast) in Hst, Hq.
  cbn [fst snd] in Hst, Hq.
  rewrite insert_id in Hst by (eapply slave_stats_at_stored, Hseen).
  rewrite app_nil_r in Hq.
  pose proof (process_frame_wave_stats m frame now Ha Hf) as Hw.
  assert (Hat : slave_stats_at (_process_frame m frame now) (byte_at frame 0)
                = slave_stats_at m (byte_at frame 0)).
  { unfold slave_stats_at. now rewrite Hst. }
  split; [exact Hst|]. split; [exact Hat|]. split; [exact Hq|].
  split; [exact Hw|]. split; [now rewrite Hw|]. split.
  - rewrite Hw. unfold update_wave.
    destruct (last_msg_time (wave_stats_at m (byte_at frame 0))) as [lmt|];
      [|reflexivity].
    destruct (PrimFloat.ltb (wave_gap_threshold m) _); reflexivity.
  - split.
    + intros current_time. eexists. split.
      * apply get_current_rates_lookup. rewrite Hids. set_solver.
      * rewrite Hat. unfold rate_entry. cbn [time_since_last message_count].
        rewrite Hseen. split; reflexivity.
    + intros frame' now' Hslow. rewrite Hat. unfold update_poll.
      rewrite Hseen, Hslow. reflexivity.
Qed.

Lemma fast_frame_keeps_poll_stats_witness :
  slave_stats (_process_frame monitor_after_first_frame frame_from_17 5000)
  = slave_stats monitor_after_first_frame /\
  data_queue (_process_frame monitor_after_first_frame frame_from_17 5000)
  = data_queue monitor_after_first_frame /\
  current_wave_msgs
    (wave_stats_at
       (_process_frame monitor_after_first_frame frame_from_17 5000) 17) = 2.
Proof.
  destruct (fast_frame_keeps_poll_stats monitor_after_first_frame
              frame_from_17 17 5000 0)
    as (Hst & _ & Hq & _ & _ & Hmsgs & _).
  - vm_compute. reflexivity.
  - reflexivity.
  - refine (bool_decide_unpack _ _). vm_compute. exact I.
  - vm_compute. reflexivity.
  - vm_compute. reflexivity.
  - split; [exact Hst|]. split; [exact Hq|].
    rewrite Hmsgs. vm_compute. reflexivity.
Defined.

(** ** States the monitor can reach *)

Section Consistency.

Implicit Types (m : RS485PassiveMonitor) (frame : list Z) (now sid : Z).

(** A frame that is rejected, or filtered out by [slave_ids], changes no
    statistics. *)
Lemma process_frame_cases m frame now :
  (slave_ids (_process_frame m frame now) = slave_ids m /\
   slave_stats (_process_frame m frame now) = slave_stats m /\
   wave_stats (_process_frame m frame now) = wave_stats m /\
   data_queue (_process_frame m frame now) = data_queue m) \/
  (accepts frame = true /\
   (slave_ids m = ∅ \/ byte_at frame 0 ∈ slave_ids m)).
Proof.
  destruct (accepts frame) eqn:Ha.
  - destruct (decide (slave_ids m = ∅)) as [He|He]; [right; tauto|].
    destruct (decide (byte_at frame 0 ∈ slave_ids m)) as [Hin|Hin];
      [right; tauto|].
    left. unfold _process_frame.
    pose proof (analyze_accepts (detected_protocols m) frame) as Hacc.
    destruct (_analyze_frame_validity (detected_protocols m) frame)
      as [a p'].
    cbn [fst] in Hacc. rewrite Ha in Hacc. subst a.
    cbn [negb slave_ids].
    rewrite (bool_decide_eq_false_2 _ He), (bool_decide_eq_false_2 _ Hin).
    repeat split.
  - left. unfold _process_frame.
    pose proof (analyze_accepts (detected_protocols m) frame) as Hacc.
    destruct (_analyze_frame_validity (detected_protocols m) frame)
      as [a p'].
    cbn [fst] in Hacc. rewrite Ha in Hacc. subst a. repeat split.
Qed.

Lemma update_wave_open (threshold : float) (ws : WaveStats) (timestamp : Z) :
  wave_open ws -> wave_open (update_wave threshold ws timestamp).
Proof.
  unfold wave_open, update_wave. intros Hopen _.
  destruct (last_msg_time ws) as [lmt|]; [|eexists; reflexivity].
  destruct (PrimFloat.ltb threshold _); [eexists; reflexivity|].
  apply Hopen. eexists. reflexivity.
Qed.

Lemma new_monitor_consistent (ids : list Z) (threshold : float) :
  monitor_consistent (new_monitor ids threshold).
Proof.
  split; intros sid.
  - unfold slave_stats_at, new_monitor. cbn [slave_stats].
    rewrite lookup_empty. intros [seen H]. discriminate H.
  - unfold wave_open, wave_stats_at, new_monitor. cbn [wave_stats].
    rewrite lookup_empty. intros [lmt H]. discriminate H.
Qed.

Lemma process_frame_consistent m frame now :
  monitor_consistent m -> monitor_consistent (_process_frame m frame now).
Proof.
  intros [Hknown Hopen].
  destruct (process_frame_cases m frame now)
    as [(Hi & Hs & Hw & _) | [Ha Hf]].
  - split; intros sid.
    + unfold slave_stats_at. rewrite Hi, Hs. apply Hknown.
    + unfold wave_stats_at. rewrite Hw. apply Hopen.
  - destruct (process_accepted_frame m frame now Ha Hf)
      as (Hi & _ & Hw & Hs & _).
    split; intros sid.
    + rewrite Hi. unfold slave_stats_at. rewrite Hs.
      destruct (decide (byte_at frame 0 = sid)) as [<-|Hne]; [set_solver|].
      rewrite lookup_insert_ne by exact Hne. intros H.
      apply elem_of_union. right. apply Hknown, H.
    + unfold wave_stats_at. rewrite Hw.
      destruct (decide (byte_at frame 0 = sid)) as [<-|Hne].
      * rewrite lookup_insert_eq. cbn [default]. apply update_wave_open, Hopen.
      * rewrite lookup_insert_ne by exact Hne. apply Hopen.
Qed.

End Consistency.

(** ** Reference points of the numeric model *)

(** [0.010] is the binary64 value of 10000 microseconds in seconds, and the
    gaps of the wave scenario compare with 0.5 as their decimals do. *)
Example min_poll_interval_is_10ms :
  PrimFloat.eqb min_poll_interval (total_seconds 10000) = true /\
  PrimFloat.leb min_poll_interval (total_seconds 10000) = true /\
  PrimFloat.leb min_poll_interval (total_seconds 9999) = false /\
  PrimFloat.ltb 0.5 (total_seconds 100000) = false /\
  PrimFloat.ltb 0.5 (total_seconds 800000) = true.
Proof. repeat split; vm_compute; reflexivity. Qed.

(** A slave ID beyond a byte makes [struct.pack('BB', ...)] raise, and the
    scan with it. *)
Example scan_raises_beyond_byte (m : ModbusMaster) :
  scan_slaves m [256] = None.
Proof. reflexivity. Qed.

(** * Further properties of the CRC16 engine and the frame codec *)

Section Residue.

Lemma crc_shift_even (x : Z) : 0 <= x -> crc_shift (2 * x) = x.
Proof.
  intros Hx. unfold crc_shift.
  rewrite low_bit, Z.mul_comm, Z.mod_mul by lia. simpl.
  rewrite Z.shiftr_div_pow2 by lia. change (2 ^ 1) with 2.
  apply Z.div_mul. lia.
Qed.

Lemma crc_shifts_shifted (n : nat) (x : Z) :
  0 <= x -> crc_shifts n (x * 2 ^ Z.of_nat n) = x.
Proof.
  intros Hx. induction n as [|n IH].
  - simpl. lia.
  - cbn [crc_shifts].
    replace (x * 2 ^ Z.of_nat (S n)) with (2 * (x * 2 ^ Z.of_nat n)).
    + rewrite crc_shift_even; [exact IH|].
      apply Z.mul_nonneg_nonneg; [lia|]. apply Z.pow_nonneg. lia.
    + rewrite Nat2Z.inj_succ, Z.pow_succ_r by lia. lia.
Qed.

(** Splitting a 16-bit value into the two bytes of [pack('<H')] and back. *)
Lemma le_bytes_of_state (c : Z) :
  crc_state c ->
  is_byte (Z.land c 255) /\ is_byte (Z.shiftr c 8) /\
  Z.land c 255 + 256 * Z.shiftr c 8 = c.
Proof.
  unfold crc_state, is_byte. intros Hc.
  change 255 with (Z.ones 8). rewrite Z.land_ones, Z.shiftr_div_pow2 by lia.
  change (2 ^ 8) with 256.
  pose proof (Z.mod_pos_bound c 256). pose proof (Z.div_mod c 256).
  assert (0 <= c / 256 < 256)
    by (split; [apply Z.div_pos; lia | apply Z.div_lt_upper_bound; lia]).
  lia.
Qed.

Lemma xor_low_byte (c : Z) :
  Z.lxor c (Z.land c 255) = Z.shiftr c 8 * 2 ^ 8.
Proof.
  rewrite <- Z.shiftl_mul_pow2 by lia. change 255 with (Z.ones 8).
  apply Z.bits_inj'. intros i Hi.
  rewrite Z.lxor_spec, Z.land_spec.
  destruct (Z.lt_ge_cases i 8) as [Hlt|Hge].
  - rewrite Z.ones_spec_low, Z.shiftl_spec_low by lia.
    rewrite andb_true_r. apply xorb_nilpotent.
  - rewrite Z.ones_spec_high, Z.shiftl_spec, Z.shiftr_spec by lia.
    rewrite andb_false_r, xorb_false_r. f_equal. lia.
Qed.

(** Feeding a state its own two bytes, low byte first, clears it. *)
Lemma crc_own_bytes (c : Z) :
  crc_state c ->
  crc_byte (crc_byte c (Z.land c 255)) (Z.shiftr c 8) = 0.
Proof.
  intros Hc. destruct (le_bytes_of_state c Hc) as (_ & Hhi & _).
  unfold crc_byte at 2. rewrite (xor_low_byte c).
  rewrite (crc_shifts_shifted 8) by (unfold is_byte in Hhi; lia).
  unfold crc_byte. rewrite Z.lxor_nilpotent. reflexivity.
Qed.

End Residue.

(** X1. Appending to a byte sequence its own CRC16, low byte first, gives a
    sequence whose CRC16 is zero. *)
Theorem crc_of_framed_body_is_zero (body : list Z) :
  is_bytes body ->
  calculate_crc
    (body ++ [Z.land (calculate_crc body) 255; Z.shiftr (calculate_crc body) 8])
  = 0.
Proof.
  intros Hb. rewrite (calculate_crc_fold body Hb).
  pose proof (crc_fold_state body _ Hb crc_init_state) as Hs.
  unfold calculate_crc. rewrite fold_left_app. cbn [fold_left].
  rewrite (crc_own_bytes _ Hs). reflexivity.
Qed.

Lemma crc_of_framed_body_is_zero_witness :
  calculate_crc [17; 3; 0; 100; 0; 2; 135; 68] = 0.
Proof.
  apply (crc_of_framed_body_is_zero [17; 3; 0; 100; 0; 2]).
  unfold is_bytes. repeat (constructor; [unfold is_byte; lia|]). constructor.
Defined.

Section Framing.

Implicit Types (body frame payload : list Z) (st : Stats).

Lemma drop_last_trailer body (lo hi : Z) : drop_last 2 (body ++ [lo; hi]) = body.
Proof.
  unfold drop_last. rewrite length_app. cbn [length].
  replace (length body + 2 - 2)%nat with (length body) by lia.
  now rewrite take_app_length.
Qed.

Lemma take_last_trailer body (lo hi : Z) :
  take_last 2 (body ++ [lo; hi]) = [lo; hi].
Proof.
  unfold take_last. rewrite length_app. cbn [length].
  replace (length body + 2 - 2)%nat with (length body) by lia.
  now rewrite drop_app_length.
Qed.

Lemma split_trailer frame :
  (2 <= length frame)%nat ->
  exists body lo hi, frame = body ++ [lo; hi].
Proof.
  intros H. exists (take (length frame - 2) frame).
  pose proof (take_drop (length frame - 2) frame) as E.
  assert (Hl : length (drop (length frame - 2) frame) = 2%nat)
    by (rewrite length_drop; lia).
  destruct (drop (length frame - 2) frame) as [|lo [|hi [|? ?]]];
    try discriminate Hl.
  exists lo, hi. now symmetry.
Qed.

Lemma append_crc_trailer body :
  append_crc body
  = Some (body ++ [Z.land (calculate_crc body) 255;
                   Z.shiftr (calculate_crc body) 8]).
Proof. unfold append_crc. now rewrite pack_le_H_crc, bind_Some. Qed.

Lemma unpack_crc_trailer body :
  unpack_le_H [Z.land (calculate_crc body) 255; Z.shiftr (calculate_crc body) 8]
  = calculate_crc body.
Proof.
  destruct (le_bytes_of_state (calculate_crc body) (calculate_crc_range body))
    as (_ & _ & E).
  exact E.
Qed.

Lemma crc_trailer_bytes body :
  is_bytes [Z.land (calculate_crc body) 255; Z.shiftr (calculate_crc body) 8].
Proof.
  destruct (le_bytes_of_state (calculate_crc body) (calculate_crc_range body))
    as (Hlo & Hhi & _).
  constructor; [exact Hlo|]. constructor; [exact Hhi|]. constructor.
Qed.

(** The four outcomes of [_parse_response], with what each does to the
    counters. *)
Lemma parse_response_cases st frame :
  (py_len frame < 5 /\ _parse_response st frame = (st, timeout_response)) \/
  (5 <= py_len frame /\
   unpack_le_H (take_last 2 frame) <> calculate_crc (drop_last 2 frame) /\
   _parse_response st frame
   = (incr_crc_errors st,
      mkResponse (Some (byte_at frame 0)) (Some (byte_at frame 1)) None None
                 false true (Some frame))) \/
  (5 <= py_len frame /\
   unpack_le_H (take_last 2 frame) = calculate_crc (drop_last 2 frame) /\
   Z.land (byte_at frame 1) 0x80 <> 0 /\
   _parse_response st frame
   = (incr_exceptions (incr_responses_received st),
      mkResponse (Some (byte_at frame 0))
                 (Some (Z.land (byte_at frame 1) 0x7F)) None
                 (Some (byte_at frame 2)) false false (Some frame))) \/
  (5 <= py_len frame /\
   unpack_le_H (take_last 2 frame) = calculate_crc (drop_last 2 frame) /\
   Z.land (byte_at frame 1) 0x80 = 0 /\
   _parse_response st frame
   = (incr_responses_received st,
      mkResponse (Some (byte_at frame 0)) (Some (byte_at frame 1))
                 (Some (drop_last 2 (skipn 2 frame))) None
                 false false (Some frame))).
Proof.
  unfold _parse_response.
  destruct (py_len frame <? 5) eqn:E5.
  - left. apply Z.ltb_lt in E5. split; [exact E5 | reflexivity].
  - right. apply Z.ltb_ge in E5.
    assert (E2 : (2 <? py_len frame) = true) by (apply Z.ltb_lt; lia).
    assert (E4 : (4 <? py_len frame) = true) by (apply Z.ltb_lt; lia).
    destruct (unpack_le_H (take_last 2 frame)
              =? calculate_crc (drop_last 2 frame)) eqn:Ec; cbn [negb].
    + right. apply Z.eqb_eq in Ec.
      destruct (Z.land (byte_at frame 1) 128 =? 0) eqn:Eh; cbn [negb].
      * right. apply Z.eqb_eq in Eh. rewrite E4. repeat split; assumption.
      * left. apply Z.eqb_neq in Eh. rewrite E2. repeat split; assumption.
    + left. apply Z.eqb_neq in Ec. repeat split; assumption.
Qed.

End Framing.

(** X2. Every frame made of a slave byte, a function byte, a non-empty
    payload and the appended CRC has [payload_length + 4] bytes and is
    accepted by [_parse_response]: with the high bit of the function code
    clear the response carries exactly the payload, with it set the response
    is an exception whose code is the first payload byte and whose function
    code has the high bit cleared. *)
Theorem framed_response_round_trip
  (st : Stats) (sid fc : Z) (payload : list Z) :
  is_bytes (sid :: fc :: payload) ->
  payload <> [] ->
  exists frame,
    append_crc (sid :: fc :: payload) = Some frame /\
    length frame = (length payload + 4)%nat /\
    is_bytes frame /\
    (Z.land fc 0x80 = 0 ->
     _parse_response st frame
     = (incr_responses_received st,
        mkResponse (Some sid) (Some fc) (Some payload) None false false
                   (Some frame))) /\
    (Z.land fc 0x80 <> 0 ->
     _parse_response st frame
     = (incr_exceptions (incr_responses_received st),
        mkResponse (Some sid) (Some (Z.land fc 0x7F)) None
                   (Some (byte_at payload 0)) false false (Some frame))).
Proof.
  intros Hb Hne.
  set (body := sid :: fc :: payload).
  set (lo := Z.land (calculate_crc body) 255).
  set (hi := Z.shiftr (calculate_crc body) 8).
  exists (body ++ [lo; hi]).
  assert (Hlen : length (body ++ [lo; hi]) = (length payload + 4)%nat).
  { rewrite length_app. subst body. cbn [length]. lia. }
  assert (H5 : 5 <= py_len (body ++ [lo; hi])).
  { unfold py_len. rewrite Hlen. destruct payload; [contradiction|].
    cbn [length]. lia. }
  assert (Hcrc : unpack_le_H (take_last 2 (body ++ [lo; hi]))
                 = calculate_crc (drop_last 2 (body ++ [lo; hi]))).
  { rewrite take_last_trailer, drop_last_trailer. apply unpack_crc_trailer. }
  assert (Hdata : drop_last 2 (skipn 2 (body ++ [lo; hi])) = payload).
  { subst body. cbn [app skipn]. apply drop_last_trailer. }
  assert (Hb2 : byte_at (body ++ [lo; hi]) 2 = byte_at payload 0).
  { subst body. destruct payload; [contradiction|]. reflexivity. }
  split; [apply append_crc_trailer|]. split; [exact Hlen|].
  split; [apply Forall_app; split; [exact Hb | apply crc_trailer_bytes]|].
  destruct (parse_response_cases st (body ++ [lo; hi]))
    as [[Hs _] | [(_ & Hbad & _) | [(_ & _ & Hh & E) | (_ & _ & Hh & E)]]];
    [lia | contradiction | |].
  - split; [intros H0; contradiction|]. intros _. rewrite E, Hb2. reflexivity.
  - split; [|intros H1; contradiction]. intros _. rewrite E, Hdata. reflexivity.
Qed.

Lemma framed_response_round_trip_witness :
  exists frame,
    append_crc [17; 3; 4; 0; 1; 0; 2] = Some frame /\
    length frame = 9%nat /\
    snd (_parse_response initial_stats frame)
    = mkResponse (Some 17) (Some 3) (Some [4; 0; 1; 0; 2]) None false false
                 (Some frame).
Proof.
  destruct (framed_response_round_trip initial_stats 17 3 [4; 0; 1; 0; 2])
    as (frame & E & Hl & _ & Hn & _).
  - unfold is_bytes. repeat (constructor; [unfold is_byte; lia|]). constructor.
  - discriminate.
  - exists frame. split; [exact E|]. split; [exact Hl|].
    rewrite Hn; reflexivity.
Defined.

(** X3. Replacing any one byte of a frame that [_parse_response] accepts,
    CRC bytes included, by a different byte gives a frame that is parsed
    into a CRC error. *)
Theorem single_byte_corruption_detected
  (st st' : Stats) (frame : list Z) (i : nat) (y : Z) :
  is_bytes frame ->
  is_valid (snd (_parse_response st frame)) = true ->
  (i < length frame)%nat ->
  is_byte y ->
  frame !! i <> Some y ->
  crc_error (snd (_parse_response st' (<[i := y]> frame))) = true.
Proof.
  intros Hb Hv Hi Hy Hne.
  apply parse_accepts_iff in Hv as [Hlen Hcrc].
  apply parse_crc_error_iff.
  split; [unfold py_len in *; now rewrite length_insert|].
  destruct (split_trailer frame) as (body & lo & hi & ->);
    [unfold py_len in Hlen; lia|].
  rewrite take_last_trailer, drop_last_trailer in Hcrc.
  apply Forall_app in Hb as [Hbody Htrail].
  rewrite length_app in Hi. cbn [length] in Hi.
  destruct (Nat.lt_ge_cases i (length body)) as [Hin | Hout].
  - rewrite insert_app_l by exact Hin.
    rewrite take_last_trailer, drop_last_trailer, Hcrc.
    rewrite lookup_app_l in Hne by exact Hin.
    destruct (body !! i) as [x|] eqn:Ex;
      [|apply lookup_ge_None in Ex; lia].
    rewrite insert_take_drop by exact Hin.
    rewrite <- (take_drop_middle body i x Ex) at 1.
    rewrite <- (take_drop_middle body i x Ex) in Hbody.
    apply Forall_app in Hbody as [Hpre Hx].
    inversion Hx as [|? ? Hx1 Hpost]; subst.
    apply crc_one_byte_changed; try assumption.
    intros ->. now apply Hne.
  - rewrite insert_app_r_alt by exact Hout.
    rewrite lookup_app_r in Hne by exact Hout.
    destruct (i - length body)%nat as [|[|k]] eqn:Ek; [| |lia].
    + cbn in Hne |- *. rewrite take_last_trailer, drop_last_trailer, <- Hcrc.
      unfold unpack_le_H, byte_at. cbn [nth]. intros E. apply Hne. f_equal. lia.
    + cbn in Hne |- *. rewrite take_last_trailer, drop_last_trailer, <- Hcrc.
      unfold unpack_le_H, byte_at. cbn [nth]. intros E. apply Hne. f_equal. lia.
Qed.

Lemma single_byte_corruption_detected_witness :
  crc_error (snd (_parse_response initial_stats
                    (<[7%nat := 0]> [17; 3; 4; 0; 1; 0; 2; 59; 243]))) = true.
Proof.
  apply (single_byte_corruption_detected initial_stats initial_stats
           [17; 3; 4; 0; 1; 0; 2; 59; 243] 7%nat 0).
  - unfold is_bytes. repeat (constructor; [unfold is_byte; lia|]). constructor.
  - vm_compute. reflexivity.
  - simpl. lia.
  - unfold is_byte. lia.
  - simpl. discriminate.
Defined.


(** * Further properties of the master *)

Section Exchanges.

Implicit Types (m : ModbusMaster) (frame : list Z) (st : Stats).

Lemma is_u16b_true (v : Z) : 0 <= v < 65536 -> is_u16b v = true.
Proof.
  intros H. unfold is_u16b.
  replace (0 <=? v) with true by (symmetry; apply Z.leb_le; lia).
  replace (v <? 65536) with true by (symmetry; apply Z.ltb_lt; lia).
  reflexivity.
Qed.

Lemma value_is_byte (fc : FunctionCode) : is_byte (value fc).
Proof. unfold is_byte. destruct fc; simpl; lia. Qed.

(** A request for values in range is packed, never raised. *)
Lemma read_request_frame_returns (slave fc a c : Z) :
  is_byte slave -> is_byte fc -> 0 <= a < 65536 -> 0 <= c < 65536 ->
  exists frame, read_request_frame slave fc a c = Some frame.
Proof.
  intros Hs Hf Ha Hc. eexists.
  apply read_request_frame_packed;
    [exact Hs | exact Hf | apply is_u16b_true, Ha | apply is_u16b_true, Hc].
Qed.

Lemma send_frame_disconnected m frame :
  is_connected m = false \/ serial_connection m = None ->
  _send_frame m frame = (m, timeout_response).
Proof.
  intros [H | H]; unfold _send_frame; rewrite H; [reflexivity|].
  destruct (is_connected m); reflexivity.
Qed.

(** One exchange: the counters stay consistent, none decreases, and at most
    one request is counted. *)
Lemma send_frame_counters m frame :
  stats_consistent (stats m) ->
  stats_consistent (stats (fst (_send_frame m frame))) /\
  requests_sent (stats m) <= requests_sent (stats (fst (_send_frame m frame)))
  <= requests_sent (stats m) + 1 /\
  responses_received (stats m)
  <= responses_received (stats (fst (_send_frame m frame))) /\
  timeouts (stats m) <= timeouts (stats (fst (_send_frame m frame))) /\
  crc_errors (stats m) <= crc_errors (stats (fst (_send_frame m frame))) /\
  exceptions (stats m) <= exceptions (stats (fst (_send_frame m frame))).
Proof.
  unfold stats_consistent. intros Hc. unfold _send_frame.
  destruct (is_connected m); [|cbn [fst]; lia].
  destruct (serial_connection m) as [line|]; [|cbn [fst]; lia].
  destruct (match line with [] => ReadReturns None | ex :: _ => ex frame end)
    as [| |[bytes|]]; cbn [fst stats set_stats incr_timeouts incr_requests_sent
                           requests_sent responses_received timeouts crc_errors
                           exceptions]; try lia.
  destruct bytes as [|b bytes];
    cbn [fst stats set_stats incr_timeouts incr_requests_sent
         requests_sent responses_received timeouts crc_errors exceptions];
    try lia.
  destruct (parse_response_cases (incr_requests_sent (stats m)) (b :: bytes))
    as [[_ E] | [(_ & _ & E) | [(_ & _ & _ & E) | (_ & _ & _ & E)]]];
    rewrite E;
    cbn [fst stats set_stats incr_timeouts incr_requests_sent incr_crc_errors
         incr_exceptions incr_responses_received
         requests_sent responses_received timeouts crc_errors exceptions];
    lia.
Qed.

Lemma probe_device_exchange m (sid a : Z) m' (r : ModbusResponse) :
  probe_device m sid a = Some (m', r) ->
  exists frame, _send_frame m frame = (m', r).
Proof.
  unfold probe_device. destruct (read_request_frame _ _ _ _) as [frame|];
    [|discriminate].
  rewrite bind_Some. intros E. injection E as E. eauto.
Qed.

End Exchanges.

(** X5. Whatever the bus does, a register read, a register write or a
    probe that returns keeps the counters consistent (every response and
    CRC error belongs to a counted request, every exception to a response)
    and counts at most one more request. *)
Theorem operations_keep_stats_consistent
  (m m' : ModbusMaster) (slave a b : Z) (values : list Z) (fc : FunctionCode) :
  stats_consistent (stats m) ->
  (exists out, _read_registers m slave a b fc = Some (m', out)) \/
  (exists out, write_single_register m slave a b = Some (m', out)) \/
  (exists out, write_multiple_registers m slave a values = Some (m', out)) \/
  (exists out, probe_device m slave a = Some (m', out)) ->
  stats_consistent (stats m') /\
  requests_sent (stats m) <= requests_sent (stats m')
  <= requests_sent (stats m) + 1.
Proof.
  intros Hc Hop.
  assert (exists frame, m' = fst (_send_frame m frame)) as [frame ->].
  { destruct Hop as [[out E] | [[out E] | [[out E] | [out E]]]].
    - unfold _read_registers in E.
      destruct (read_request_frame _ _ _ _) as [frame|]; [|discriminate E].
      rewrite bind_Some in E. exists frame.
      destruct (_send_frame m frame). now injection E as <- _.
    - unfold write_single_register in E.
      destruct (read_request_frame _ _ _ _) as [frame|]; [|discriminate E].
      rewrite bind_Some in E. exists frame.
      destruct (_send_frame m frame). now injection E as <- _.
    - unfold write_multiple_registers in E.
      destruct (write_multiple_request _ _ _) as [frame|]; [|discriminate E].
      rewrite bind_Some in E. exists frame.
      destruct (_send_frame m frame). now injection E as <- _.
    - destruct (probe_device_exchange _ _ _ _ _ E) as [frame Ef].
      exists frame. now rewrite Ef. }
  destruct (send_frame_counters m frame Hc) as (H1 & H2 & _). tauto.
Qed.

Lemma operations_keep_stats_consistent_witness :
  stats_consistent
    (stats (mkMaster true (Some [])
              (incr_responses_received (incr_requests_sent initial_stats)))).
Proof.
  refine (proj1 (operations_keep_stats_consistent
                   (mkMaster true
                      (Some [fun _ => ReadReturns
                                        (Some [17; 0x03; 4; 0; 1; 0; 2; 59; 243])])
                      initial_stats)
                   _ 17 100 2 [] READ_HOLDING_REGISTERS _ _)).
  - unfold stats_consistent. simpl. lia.
  - left. exists (Some [1; 2], None). vm_compute. reflexivity.
Defined.

(** X6. A reply of one to four bytes is reported as a timeout but counted
    only as a request sent: the timeout counter, which an empty read
    increments, stays as it was. *)
Theorem short_reply_not_counted_as_timeout
  (m : ModbusMaster) (ex : list Z -> Exchange) (rest : Serial)
  (frame reply : list Z) :
  is_connected m = true ->
  serial_connection m = Some (ex :: rest) ->
  (ex frame = ReadReturns (Some reply) ->
   reply <> [] -> py_len reply < 5 ->
   _send_frame m frame
   = (mkMaster true (Some rest) (incr_requests_sent (stats m)),
      timeout_response)) /\
  (ex frame = ReadReturns None ->
   _send_frame m frame
   = (mkMaster true (Some rest) (incr_timeouts (incr_requests_sent (stats m))),
      timeout_response)).
Proof.
  intros Hc Hl. unfold _send_frame. rewrite Hc, Hl. cbn [tl]. split.
  - intros -> Hne Hshort. destruct reply as [|b reply]; [contradiction|].
    destruct (parse_response_cases (incr_requests_sent (stats m)) (b :: reply))
      as [[_ E] | [(H & _) | [(H & _) | (H & _)]]]; try lia.
    cbn [stats]. rewrite E. reflexivity.
  - intros ->. reflexivity.
Qed.

Lemma short_reply_not_counted_as_timeout_witness :
  _send_frame (mkMaster true (Some [fun _ => ReadReturns (Some [17; 3; 4])])
                        initial_stats) [17; 3; 0; 100; 0; 2; 135; 68]
  = (mkMaster true (Some []) (incr_requests_sent initial_stats),
     timeout_response).
Proof.
  apply (proj1 (short_reply_not_counted_as_timeout
                  (mkMaster true (Some [fun _ => ReadReturns (Some [17; 3; 4])])
                            initial_stats)
                  (fun _ => ReadReturns (Some [17; 3; 4])) []
                  [17; 3; 0; 100; 0; 2; 135; 68] [17; 3; 4]
                  eq_refl eq_refl)).
  - reflexivity.
  - discriminate.
  - unfold py_len. simpl. lia.
Defined.

Section ScanAccounting.

Implicit Types (m : ModbusMaster) (ids : list Z).
Implicit Types (found : list (option Z * ModbusResponse)).

Lemma send_frame_line m (line : Serial) (frame : list Z) :
  is_connected m = true -> serial_connection m = Some line ->
  is_connected (fst (_send_frame m frame)) = true /\
  serial_connection (fst (_send_frame m frame)) = Some (drop 1 line).
Proof.
  intros Hc Hl. unfold _send_frame. rewrite Hc, Hl.
  replace (drop 1 line) with (tl line) by (destruct line; reflexivity).
  destruct (match line with [] => ReadReturns None | ex :: _ => ex frame end)
    as [| |[[|b bytes]|]]; cbn [fst is_connected serial_connection set_stats];
    try (split; reflexivity).
  destruct (_parse_response _ _) as [st r].
  cbn [fst is_connected serial_connection set_stats]. split; reflexivity.
Qed.

(** The loop of the scan: one exchange per ID, consistent counters, and no
    more entries than probes. *)
Lemma scan_loop_accounting ids :
  forall m found (seen : gset (option Z)) m' found',
    scan_loop ids m found seen = Some (m', found') ->
    stats_consistent (stats m) ->
    stats_consistent (stats m') /\
    requests_sent (stats m) <= requests_sent (stats m')
    <= requests_sent (stats m) + py_len ids /\
    (length found' <= length found + length ids)%nat /\
    (forall line, is_connected m = true -> serial_connection m = Some line ->
       is_connected m' = true /\
       serial_connection m' = Some (drop (length ids) line)).
Proof.
  induction ids as [|sid ids IH]; intros m found seen m' found' E Hc.
  - cbn [scan_loop] in E. injection E as <- <-.
    unfold py_len. cbn [length].
    split; [exact Hc|]. split; [lia|]. split; [lia|].
    intros line Hcon Hser. split; [exact Hcon | now rewrite drop_0].
  - cbn [scan_loop] in E.
    destruct (probe_device m sid 65535) as [[m1 r]|] eqn:Ep;
      [|discriminate E].
    rewrite bind_Some in E.
    destruct (probe_device_exchange _ _ _ _ _ Ep) as [frame Ef].
    pose proof (send_frame_counters m frame Hc) as (Hc1 & Hq1 & _).
    rewrite Ef in Hc1, Hq1. cbn [fst] in Hc1, Hq1.
    assert (Hrec : exists found1 seen1,
               scan_loop ids m1 found1 seen1 = Some (m', found') /\
               (length found1 <= length found + 1)%nat).
    { destruct (is_valid r && negb (bool_decide (slave_id r ∈ seen))).
      - eexists _, _. split; [exact E|]. rewrite length_app. cbn [length]. lia.
      - eexists _, _. split; [exact E|]. lia. }
    destruct Hrec as (found1 & seen1 & E1 & Hl1).
    destruct (IH _ _ _ _ _ E1 Hc1) as (Hc' & Hq' & Hl' & Hline).
    unfold py_len in *. cbn [length]. rewrite Nat2Z.inj_succ.
    split; [exact Hc'|]. split; [lia|]. split; [lia|].
    intros line Hcon0 Hser0.
    destruct (send_frame_line m line frame Hcon0 Hser0) as [Hcon Hser].
    rewrite Ef in Hcon, Hser. cbn [fst] in Hcon, Hser.
    destruct (Hline _ Hcon Hser) as [Hcon' Hser'].
    split; [exact Hcon'|]. rewrite Hser', drop_drop. reflexivity.
Qed.

Lemma scan_loop_disconnected ids :
  forall m found (seen : gset (option Z)),
    Forall is_byte ids ->
    is_connected m = false \/ serial_connection m = None ->
    scan_loop ids m found seen = Some (m, found).
Proof.
  induction ids as [|sid ids IH]; intros m found seen Hb Hd;
    [reflexivity|].
  inversion Hb as [|? ? Hs Hrest]; subst. cbn [scan_loop].
  destruct (probe_device_returns m sid Hs) as (m1 & r & Ep).
  destruct (probe_device_exchange _ _ _ _ _ Ep) as [frame Ef].
  rewrite (send_frame_disconnected m frame Hd) in Ef. injection Ef as <- <-.
  rewrite Ep, bind_Some. cbn [is_valid timeout timeout_response negb andb].
  apply IH; assumption.
Qed.

Lemma scan_loop_silent ids :
  forall st found (seen : gset (option Z)),
    Forall is_byte ids ->
    scan_loop ids (mkMaster true (Some []) st) found seen
    = Some (mkMaster true (Some [])
              (mkStats (requests_sent st + py_len ids) (responses_received st)
                       (timeouts st + py_len ids) (crc_errors st)
                       (exceptions st)),
            found).
Proof.
  induction ids as [|sid ids IH]; intros st found seen Hb.
  - cbn [scan_loop]. unfold py_len. cbn [length]. rewrite !Z.add_0_r.
    destruct st; reflexivity.
  - inversion Hb as [|? ? Hs Hrest]; subst. cbn [scan_loop].
    destruct (probe_device_returns (mkMaster true (Some []) st) sid Hs)
      as (m1 & r & Ep).
    destruct (probe_device_exchange _ _ _ _ _ Ep) as [frame Ef].
    unfold _send_frame in Ef.
    cbn [is_connected serial_connection tl stats set_stats] in Ef.
    injection Ef as <- <-.
    rewrite Ep, bind_Some. cbn [is_valid timeout timeout_response negb andb].
    unfold set_stats. cbn [is_connected serial_connection].
    rewrite (IH _ _ _ Hrest). unfold py_len. cbn [length].
    rewrite Nat2Z.inj_succ.
    cbn [incr_timeouts incr_requests_sent requests_sent responses_received
         timeouts crc_errors exceptions].
    do 4 f_equal; lia.
Qed.

End ScanAccounting.

(** X7. A scan that returns has sent one request frame per slave ID of the
    range: it counts at most that many requests, keeps the counters
    consistent, reports no more devices than it probed, and on a connected
    master leaves the connection open with exactly that many exchanges
    consumed. *)
Theorem scan_one_exchange_per_id
  (m m' : ModbusMaster) (ids : list Z)
  (found : list (option Z * ModbusResponse)) :
  scan_slaves m ids = Some (m', found) ->
  stats_consistent (stats m) ->
  stats_consistent (stats m') /\
  requests_sent (stats m) <= requests_sent (stats m')
  <= requests_sent (stats m) + py_len ids /\
  (length found <= length ids)%nat /\
  (forall line, is_connected m = true -> serial_connection m = Some line ->
     is_connected m' = true /\
     serial_connection m' = Some (drop (length ids) line)).
Proof.
  intros E Hc. unfold scan_slaves in E.
  destruct (scan_loop_accounting ids m [] ∅ m' found E Hc) as (H1 & H2 & H3 & H4).
  cbn [length] in H3.
  split; [exact H1|]. split; [exact H2|]. split; [exact H3 | exact H4].
Qed.

Lemma scan_drops_later_report_scan :
  exists m',
    scan_slaves misreporting_master (py_range 1 6)
    = Some (m', [(Some 2, second_report)]).
Proof. eexists. vm_compute. reflexivity. Defined.

Lemma scan_one_exchange_per_id_witness :
  exists m' found,
    scan_slaves misreporting_master (py_range 1 6) = Some (m', found) /\
    stats_consistent (stats m') /\
    (length found <= 5)%nat /\
    serial_connection m' = Some [].
Proof.
  destruct scan_drops_later_report_scan as (m' & E).
  exists m', [(Some 2, second_report)]. split; [exact E|].
  destruct (scan_one_exchange_per_id misreporting_master m' (py_range 1 6)
              [(Some 2, second_report)] E) as (H1 & _ & H3 & H4).
  - unfold stats_consistent. simpl. lia.
  - split; [exact H1|]. split; [exact H3|].
    destruct (H4 misreporting_line eq_refl eq_refl) as [_ Hs]. exact Hs.
Defined.

Section Disconnected.

Variable m : ModbusMaster.
Hypothesis Hdown : is_connected m = false \/ serial_connection m = None.

Lemma read_registers_disconnected (slave a c : Z) (fc : FunctionCode) :
  is_byte slave -> 0 <= a < 65536 -> 0 <= c < 65536 ->
  _read_registers m slave a c fc
  = Some (m, (None, Some "Request timeout"%string)).
Proof.
  intros Hs Ha Hc. unfold _read_registers.
  destruct (read_request_frame_returns slave (value fc) a c Hs
              (value_is_byte fc) Ha Hc) as [frame ->].
  rewrite bind_Some, (send_frame_disconnected m frame Hdown). reflexivity.
Qed.

Lemma test_communication_from_disconnected (addrs : list Z) (slave : Z) :
  is_byte slave -> Forall (fun a => 0 <= a < 65536) addrs ->
  test_communication_from addrs m slave = Some (m, false).
Proof.
  intros Hs Ha. induction Ha as [|a addrs Ha _ IH]; [reflexivity|].
  cbn [test_communication_from].
  unfold read_holding_registers, read_input_registers.
  rewrite (read_registers_disconnected slave a 1 _ Hs Ha) by lia.
  rewrite bind_Some.
  rewrite (read_registers_disconnected slave a 1 _ Hs Ha) by lia.
  rewrite bind_Some. exact IH.
Qed.

End Disconnected.

(** X8. On a master that is not connected nothing is sent and nothing is
    counted: a scan finds no device, a register read and a register write
    report "Request timeout", and the communication test fails, each leaving
    the master as it was. *)
Theorem disconnected_master_only_times_out (m : ModbusMaster) :
  is_connected m = false \/ serial_connection m = None ->
  (forall ids, Forall is_byte ids -> scan_slaves m ids = Some (m, [])) /\
  (forall slave a c fc,
      is_byte slave -> 0 <= a < 65536 -> 0 <= c < 65536 ->
      _read_registers m slave a c fc
      = Some (m, (None, Some "Request timeout"%string))) /\
  (forall slave a v,
      is_byte slave -> 0 <= a < 65536 -> 0 <= v < 65536 ->
      write_single_register m slave a v
      = Some (m, (false, Some "Request timeout"%string))) /\
  (forall slave, is_byte slave -> test_communication m slave = Some (m, false)).
Proof.
  intros Hd. split; [|split; [|split]].
  - intros ids Hb. apply scan_loop_disconnected; assumption.
  - intros slave a c fc. apply read_registers_disconnected, Hd.
  - intros slave a v Hs Ha Hv. unfold write_single_register.
    destruct (read_request_frame_returns slave (value WRITE_SINGLE_REGISTER)
                a v Hs (value_is_byte _) Ha Hv) as [frame ->].
    rewrite bind_Some, (send_frame_disconnected m frame Hd). reflexivity.
  - intros slave Hs. apply test_communication_from_disconnected;
      [exact Hd | exact Hs |].
    unfold test_addresses. repeat (constructor; [lia|]). constructor.
Qed.

Lemma disconnected_master_only_times_out_witness :
  scan_slaves (mkMaster false None initial_stats) (py_range 1 248)
  = Some (mkMaster false None initial_stats, []) /\
  test_communication (mkMaster false None initial_stats) 17
  = Some (mkMaster false None initial_stats, false).
Proof.
  destruct (disconnected_master_only_times_out
              (mkMaster false None initial_stats) (or_introl eq_refl))
    as (Hscan & _ & _ & Htest).
  split.
  - apply Hscan. unfold py_range.
    apply Forall_forall. intros x Hx. apply list_elem_of_In in Hx.
    apply in_map_iff in Hx as (i & <- & Hi). apply in_seq in Hi.
    unfold is_byte. cbn in Hi. lia.
  - apply Htest. unfold is_byte. lia.
Defined.

(** X9. On a connected master whose bus stays silent, a scan of [n] slave
    IDs finds nothing and counts exactly [n] requests and [n] timeouts. *)
Theorem scan_of_silent_bus (m : ModbusMaster) (ids : list Z) :
  Forall is_byte ids ->
  is_connected m = true ->
  serial_connection m = Some [] ->
  scan_slaves m ids
  = Some (mkMaster true (Some [])
            (mkStats (requests_sent (stats m) + py_len ids)
                     (responses_received (stats m))
                     (timeouts (stats m) + py_len ids)
                     (crc_errors (stats m)) (exceptions (stats m))),
          []).
Proof.
  intros Hb Hc Hl. destruct m as [c l st]. cbn in Hc, Hl. subst c l.
  apply scan_loop_silent, Hb.
Qed.

Lemma scan_of_silent_bus_witness :
  scan_slaves (mkMaster true (Some []) initial_stats) [1; 2; 3]
  = Some (mkMaster true (Some []) (mkStats 3 0 3 0 0), []).
Proof.
  apply (scan_of_silent_bus (mkMaster true (Some []) initial_stats) [1; 2; 3]).
  - repeat (constructor; [unfold is_byte; lia|]). constructor.
  - reflexivity.
  - reflexivity.
Defined.

(** * Further properties of the completeness predicate *)

Section Completeness.

Implicit Types (buffer more frame : list Z).

Lemma byte_at_app buffer more (i : nat) :
  (i < length buffer)%nat -> byte_at (buffer ++ more) i = byte_at buffer i.
Proof. intros H. unfold byte_at. now rewrite app_nth1. Qed.

Lemma byte_at_take frame (k i : nat) :
  (i < k)%nat -> byte_at (take k frame) i = byte_at frame i.
Proof.
  intros H. unfold byte_at. revert k i H.
  induction frame as [|b frame IH]; intros k i H.
  - rewrite take_nil. reflexivity.
  - destruct k as [|k]; [lia|]. destruct i as [|i]; [reflexivity|].
    cbn [take nth]. apply IH. lia.
Qed.

Lemma complete_needs_five buffer :
  _is_complete_frame buffer = true -> 5 <= py_len buffer.
Proof.
  intros H. destruct (Z.lt_ge_cases (py_len buffer) 5) as [Hs|Hs]; [|exact Hs].
  rewrite (short_buffer_incomplete buffer Hs) in H. discriminate H.
Qed.

Lemma complete_iff_expected buffer :
  _is_complete_frame buffer = true <->
  5 <= py_len buffer /\ expected_length buffer <= py_len buffer.
Proof.
  split.
  - intros H. pose proof (complete_needs_five buffer H) as H5.
    split; [exact H5|]. revert H. unfold _is_complete_frame, expected_length.
    replace (py_len buffer <? 5) with false by (symmetry; apply Z.ltb_ge; lia).
    replace (3 <=? py_len buffer) with true by (symmetry; apply Z.leb_le; lia).
    destruct (negb (Z.land (byte_at buffer 1) 128 =? 0)); [lia|].
    destruct (byte_at buffer 1 =? 3), (byte_at buffer 1 =? 4),
      (byte_at buffer 1 =? 1), (byte_at buffer 1 =? 2),
      (byte_at buffer 1 =? 5), (byte_at buffer 1 =? 6),
      (byte_at buffer 1 =? 15), (byte_at buffer 1 =? 16);
      cbn [orb]; intros H; try apply Z.leb_le in H; lia.
  - intros [H5 He]. revert He. unfold _is_complete_frame, expected_length.
    replace (py_len buffer <? 5) with false by (symmetry; apply Z.ltb_ge; lia).
    replace (3 <=? py_len buffer) with true by (symmetry; apply Z.leb_le; lia).
    destruct (negb (Z.land (byte_at buffer 1) 128 =? 0));
      [intros _; apply Z.leb_le; lia|].
    destruct (byte_at buffer 1 =? 3), (byte_at buffer 1 =? 4),
      (byte_at buffer 1 =? 1), (byte_at buffer 1 =? 2),
      (byte_at buffer 1 =? 5), (byte_at buffer 1 =? 6),
      (byte_at buffer 1 =? 15), (byte_at buffer 1 =? 16);
      cbn [orb]; intros H; apply Z.leb_le; lia.
Qed.

Lemma expected_length_prefix frame (k : nat) :
  (3 <= k)%nat -> expected_length (take k frame) = expected_length frame.
Proof.
  intros H. unfold expected_length.
  rewrite !byte_at_take by lia. reflexivity.
Qed.

(** A response is judged complete at its last byte and not before, as soon
    as its own length is the expected one. *)
Lemma complete_exactly_at_length frame (k : nat) :
  5 <= py_len frame ->
  expected_length frame = py_len frame ->
  (_is_complete_frame (take k frame) = true <-> (length frame <= k)%nat).
Proof.
  intros H5 He. rewrite complete_iff_expected. unfold py_len in *.
  rewrite length_take. split.
  - intros [Hk Hexp]. rewrite expected_length_prefix in Hexp by lia. lia.
  - intros Hk. rewrite expected_length_prefix by lia. lia.
Qed.

End Completeness.

(** X10. Once a buffer is judged complete, it stays complete however many
    bytes are appended to it. *)
Theorem complete_frame_stays_complete (buffer more : list Z) :
  _is_complete_frame buffer = true ->
  _is_complete_frame (buffer ++ more) = true.
Proof.
  intros H. apply complete_iff_expected in H as [H5 He].
  apply complete_iff_expected. unfold py_len in *. rewrite length_app.
  assert (E : expected_length (buffer ++ more) = expected_length buffer).
  { unfold expected_length. rewrite !byte_at_app by lia. reflexivity. }
  rewrite E. lia.
Qed.

Lemma complete_frame_stays_complete_witness :
  _is_complete_frame ([17; 0x83; 2; 193; 52] ++ [0; 0; 7]) = true.
Proof.
  apply (complete_frame_stays_complete [17; 0x83; 2; 193; 52] [0; 0; 7]).
  reflexivity.
Defined.

(** X11. For a well-formed response the predicate fires exactly at the last
    byte: of a read response (function 1 to 4, byte count equal to the
    number of data bytes, two CRC bytes), of an 8-byte write response
    (function 5, 6, 15 or 16) and of a 5-byte exception response, a prefix
    is judged complete if and only if it is the whole frame. *)
Theorem response_complete_exactly_at_end (sid fc : Z) (k : nat) :
  (forall (payload : list Z) (lo hi : Z),
      fc = 0x01 \/ fc = 0x02 \/ fc = 0x03 \/ fc = 0x04 ->
      (_is_complete_frame
         (take k (sid :: fc :: py_len payload :: payload ++ [lo; hi])) = true
       <-> (length payload + 5 <= k)%nat)) /\
  (forall a b c d lo hi : Z,
      fc = 0x05 \/ fc = 0x06 \/ fc = 0x0F \/ fc = 0x10 ->
      (_is_complete_frame (take k [sid; fc; a; b; c; d; lo; hi]) = true
       <-> (8 <= k)%nat)) /\
  (forall code lo hi : Z,
      Z.land fc 0x80 <> 0 ->
      (_is_complete_frame (take k [sid; fc; code; lo; hi]) = true
       <-> (5 <= k)%nat)).
Proof.
  split; [|split].
  - intros payload lo hi Hfc.
    set (frame := sid :: fc :: py_len payload :: payload ++ [lo; hi]).
    assert (Hl : length frame = (length payload + 5)%nat).
    { subst frame. cbn [length]. rewrite length_app. cbn [length]. lia. }
    rewrite <- Hl. apply complete_exactly_at_length.
    + unfold py_len. rewrite Hl. lia.
    + unfold expected_length, py_len. rewrite Hl.
      subst frame. unfold byte_at. cbn [nth].
      destruct Hfc as [-> | [-> | [-> | ->]]];
        match goal with
        | |- context [Z.land ?a 128 =? 0] =>
            replace (Z.land a 128 =? 0) with true by reflexivity
        end;
        cbn [negb orb Z.eqb Pos.eqb]; unfold py_len; lia.
  - intros a b c d lo hi Hfc.
    change 8%nat with (length [sid; fc; a; b; c; d; lo; hi]).
    apply complete_exactly_at_length; [unfold py_len; cbn [length]; lia|].
    unfold expected_length, byte_at. cbn [nth].
    destruct Hfc as [-> | [-> | [-> | ->]]]; reflexivity.
  - intros code lo hi Hfc.
    change 5%nat with (length [sid; fc; code; lo; hi]).
    apply complete_exactly_at_length; [unfold py_len; cbn [length]; lia|].
    unfold expected_length, byte_at. cbn [nth].
    apply Z.eqb_neq in Hfc. rewrite Hfc. reflexivity.
Qed.

Lemma response_complete_exactly_at_end_witness :
  _is_complete_frame (take 8 [17; 0x03; 4; 0; 1; 0; 2; 59; 243]) = false /\
  _is_complete_frame (take 9 [17; 0x03; 4; 0; 1; 0; 2; 59; 243]) = true /\
  _is_complete_frame (take 7 [17; 0x06; 0; 100; 0; 2; 135; 68]) = false /\
  _is_complete_frame (take 4 [17; 0x83; 2; 193; 52]) = false.
Proof.
  split; [|split; [|split]].
  - destruct (response_complete_exactly_at_end 17 0x03 8) as (H & _ & _).
    apply not_true_is_false. intros E.
    pose proof (proj1 (H [0; 1; 0; 2] 59 243
                         (or_intror (or_intror (or_introl eq_refl)))) E) as Hk.
    simpl in Hk. lia.
  - destruct (response_complete_exactly_at_end 17 0x03 9) as (H & _ & _).
    apply (proj2 (H [0; 1; 0; 2] 59 243
                    (or_intror (or_intror (or_introl eq_refl))))).
    simpl. lia.
  - destruct (response_complete_exactly_at_end 17 0x06 7) as (_ & H & _).
    apply not_true_is_false. intros E.
    pose proof (proj1 (H 0 100 0 2 135 68 (or_intror (or_introl eq_refl))) E)
      as Hk.
    lia.
  - destruct (response_complete_exactly_at_end 17 0x83 4) as (_ & _ & H).
    apply not_true_is_false. intros E.
    assert (Hhigh : Z.land 0x83 0x80 <> 0) by discriminate.
    pose proof (proj1 (H 2 193 52 Hhigh) E) as Hk. lia.
Defined.

(** * Further properties of register encoding and decoding *)

Section Registers.

Implicit Types (values regs bs d : list Z) (v : Z).

Lemma pack_be_H_u16 v :
  is_u16 v -> pack_be_H v = Some [Z.shiftr v 8; Z.land v 255].
Proof. intros H. unfold pack_be_H. now rewrite (is_u16b_true v H). Qed.

Lemma pack_be_H_Some v bs :
  pack_be_H v = Some bs -> is_u16 v /\ bs = [Z.shiftr v 8; Z.land v 255].
Proof.
  unfold pack_be_H, is_u16b, is_u16.
  destruct (0 <=? v) eqn:E0; [|discriminate].
  destruct (v <? 65536) eqn:E1; [|discriminate].
  apply Z.leb_le in E0. apply Z.ltb_lt in E1. cbn [andb].
  intros E. injection E as <-. split; [lia | reflexivity].
Qed.

Lemma unpack_be_pair v :
  is_u16 v -> unpack_be_H [Z.shiftr v 8; Z.land v 255] = v.
Proof.
  intros H. destruct (le_bytes_of_state v H) as (_ & _ & E).
  unfold unpack_be_H, byte_at. cbn [nth]. lia.
Qed.

Lemma unpack_be_bytes (hi lo : Z) :
  is_byte hi -> is_byte lo -> is_u16 (unpack_be_H [hi; lo]).
Proof.
  unfold is_byte, is_u16, unpack_be_H, byte_at. cbn [nth]. lia.
Qed.

Lemma pack_registers_Some values bs :
  pack_registers values = Some bs ->
  Forall is_u16 values /\ is_bytes bs /\
  length bs = (2 * length values)%nat /\ decode_registers bs = values.
Proof.
  revert bs. induction values as [|v values IH]; intros bs E.
  - cbn [pack_registers] in E. injection E as <-.
    repeat split; constructor.
  - cbn [pack_registers] in E.
    destruct (pack_be_H v) as [b|] eqn:Ev; [|discriminate E].
    rewrite bind_Some in E.
    destruct (pack_registers values) as [bs'|]; [|discriminate E].
    rewrite bind_Some in E. injection E as <-.
    apply pack_be_H_Some in Ev as [Hv ->].
    destruct (IH bs' eq_refl) as (Hvs & Hb & Hl & Hd).
    destruct (le_bytes_of_state v Hv) as (Hlo & Hhi & _).
    split; [constructor; assumption|].
    split; [cbn [app]; constructor; [exact Hhi|]; constructor; assumption|].
    split; [cbn [app length]; lia|].
    cbn [app decode_registers]. rewrite Hd, (unpack_be_pair v Hv). reflexivity.
Qed.

Lemma pack_registers_u16 values :
  Forall is_u16 values -> exists bs, pack_registers values = Some bs.
Proof.
  intros H. induction H as [|v values Hv _ [bs IH]].
  - exists []. reflexivity.
  - eexists. cbn [pack_registers].
    rewrite (pack_be_H_u16 v Hv), bind_Some, IH, bind_Some. reflexivity.
Qed.

(** Two bytes make a register; a last odd byte makes none. *)
Lemma decode_registers_pairs d :
  (length (decode_registers d) = length d / 2)%nat /\
  (is_bytes d -> Forall is_u16 (decode_registers d)) /\
  (forall b, length (decode_registers (b :: d)) = (S (length d) / 2)%nat /\
             (is_bytes (b :: d) -> Forall is_u16 (decode_registers (b :: d)))).
Proof.
  induction d as [|x d (IHl & IHb & IHc)].
  - repeat split; try reflexivity; intros; constructor.
  - split; [apply IHc|]. split; [apply IHc|].
    intros b. cbn [decode_registers length]. split.
    + rewrite IHl.
      change (S (S (length d))) with (2 + length d)%nat.
      replace (2 + length d)%nat with (length d + 1 * 2)%nat by lia.
      rewrite Nat.div_add by lia. lia.
    + intros Hb. inversion Hb as [|? ? Hb1 Hb2]; subst.
      inversion Hb2 as [|? ? Hx Hd]; subst.
      constructor; [apply unpack_be_bytes; assumption | apply IHb, Hd].
Qed.

Lemma decode_registers_odd_byte d (b : Z) :
  Nat.even (length d) = true ->
  decode_registers (d ++ [b]) = decode_registers d.
Proof.
  assert (H : forall n d, length d = n -> Nat.even n = true ->
                          decode_registers (d ++ [b]) = decode_registers d).
  { induction n as [n IH] using lt_wf_ind. intros d0 Hl He.
    destruct d0 as [|x [|y d0]].
    - reflexivity.
    - cbn in Hl. subst n. discriminate He.
    - cbn [app decode_registers]. f_equal.
      cbn [length] in Hl. subst n.
      apply (IH (length d0)); [lia | reflexivity | exact He]. }
  intros He. apply (H (length d)); [reflexivity | exact He].
Qed.

End Registers.

(** X12. The register bytes [write_multiple_registers] packs are decoded
    back by the register loop of [_read_registers]: a list of values is
    packed exactly when every value is in 0..65535, into two bytes per
    value, and decoding those bytes returns the list. *)
Theorem registers_pack_decode_round_trip (values : list Z) :
  ((exists bs, pack_registers values = Some bs) <-> Forall is_u16 values) /\
  (forall bs,
      pack_registers values = Some bs ->
      is_bytes bs /\ length bs = (2 * length values)%nat /\
      decode_registers bs = values).
Proof.
  split.
  - split.
    + intros [bs E]. apply (pack_registers_Some values bs E).
    + apply pack_registers_u16.
  - intros bs E. destruct (pack_registers_Some values bs E) as (_ & H).
    exact H.
Qed.

Lemma registers_pack_decode_round_trip_witness :
  pack_registers [1; 513; 65535] = Some [0; 1; 2; 1; 255; 255] /\
  decode_registers [0; 1; 2; 1; 255; 255] = [1; 513; 65535].
Proof.
  split; [reflexivity|].
  apply (proj2 (registers_pack_decode_round_trip [1; 513; 65535])
               [0; 1; 2; 1; 255; 255] eq_refl).
Defined.

(** X13. The register loop yields one register per pair of bytes, each in
    0..65535 when the input is bytes, and ignores a last unpaired byte. *)
Theorem decode_registers_shape (d : list Z) :
  length (decode_registers d) = (length d / 2)%nat /\
  (is_bytes d -> Forall is_u16 (decode_registers d)) /\
  (forall b, Nat.even (length d) = true ->
             decode_registers (d ++ [b]) = decode_registers d).
Proof.
  destruct (decode_registers_pairs d) as (Hl & Hb & _).
  split; [exact Hl|]. split; [exact Hb|].
  intros b. apply decode_registers_odd_byte.
Qed.

Lemma decode_registers_shape_witness :
  Forall is_u16 (decode_registers [0; 1; 2; 1; 9]) /\
  decode_registers ([0; 1; 2; 1] ++ [9]) = decode_registers [0; 1; 2; 1].
Proof.
  split.
  - apply (proj1 (proj2 (decode_registers_shape [0; 1; 2; 1; 9]))).
    unfold is_bytes. repeat (constructor; [unfold is_byte; lia|]). constructor.
  - apply (proj2 (proj2 (decode_registers_shape [0; 1; 2; 1])) 9). reflexivity.
Defined.

Section ReadPath.

Implicit Types (response : ModbusResponse).

Lemma registers_of_data response (n : Z) (rest : list Z) :
  timeout response = false -> crc_error response = false ->
  exception_code response = None ->
  data response = Some (n :: rest) ->
  registers_of_response response
  = if negb (py_len (firstn (Z.to_nat n) rest) =? n)
    then (None, Some "Incomplete register data"%string)
    else (Some (decode_registers (firstn (Z.to_nat n) rest)), None).
Proof.
  intros Ht Hc He Hd. unfold registers_of_response, is_exception.
  now rewrite Ht, Hc, He, Hd.
Qed.

Lemma parse_data_frame (st : Stats) (sid fc : Z) (payload : list Z) :
  payload <> [] -> Z.land fc 0x80 = 0 ->
  _parse_response st
    ((sid :: fc :: payload)
     ++ [Z.land (calculate_crc (sid :: fc :: payload)) 255;
         Z.shiftr (calculate_crc (sid :: fc :: payload)) 8])
  = (incr_responses_received st,
     mkResponse (Some sid) (Some fc) (Some payload) None false false
       (Some ((sid :: fc :: payload)
              ++ [Z.land (calculate_crc (sid :: fc :: payload)) 255;
                  Z.shiftr (calculate_crc (sid :: fc :: payload)) 8]))).
Proof.
  intros Hne Hfc.
  set (body := sid :: fc :: payload).
  set (lo := Z.land (calculate_crc body) 255).
  set (hi := Z.shiftr (calculate_crc body) 8).
  assert (H5 : 5 <= py_len (body ++ [lo; hi])).
  { unfold py_len. rewrite length_app. subst body.
    destruct payload; [contradiction|]. cbn [length]. lia. }
  assert (Hcrc : unpack_le_H (take_last 2 (body ++ [lo; hi]))
                 = calculate_crc (drop_last 2 (body ++ [lo; hi]))).
  { rewrite take_last_trailer, drop_last_trailer. apply unpack_crc_trailer. }
  destruct (parse_response_cases st (body ++ [lo; hi]))
    as [[Hs _] | [(_ & Hbad & _) | [(_ & _ & Hh & _) | (_ & _ & _ & E)]]];
    [lia | contradiction | contradiction |].
  rewrite E. subst body. cbn [app skipn]. rewrite drop_0, drop_last_trailer.
  reflexivity.
Qed.

End ReadPath.

(** X14. A register read returns the registers of any CRC-valid,
    non-exception reply whose byte count matches its data, whatever slave
    ID and function code the reply carries and however many registers were
    asked for: the reply is not matched against the request. *)
Theorem read_registers_decodes_any_valid_reply
  (st : Stats) (answer : list Z -> Exchange) (rest : Serial)
  (slave start count sid' fc' : Z) (fc : FunctionCode)
  (request values bs : list Z) :
  read_request_frame slave (value fc) start count = Some request ->
  pack_registers values = Some bs ->
  answer request
  = ReadReturns
      (Some ((sid' :: fc' :: 2 * py_len values :: bs)
             ++ [Z.land (calculate_crc (sid' :: fc' :: 2 * py_len values :: bs)) 255;
                 Z.shiftr (calculate_crc (sid' :: fc' :: 2 * py_len values :: bs)) 8])) ->
  Z.land fc' 0x80 = 0 ->
  _read_registers (mkMaster true (Some (answer :: rest)) st) slave start count fc
  = Some (mkMaster true (Some rest)
            (incr_responses_received (incr_requests_sent st)),
          (Some values, None)).
Proof.
  intros Hreq Hpack Hans Hfc. unfold _read_registers.
  rewrite Hreq, bind_Some. unfold _send_frame.
  cbn [is_connected serial_connection tl stats]. rewrite Hans.
  pose proof (parse_data_frame (incr_requests_sent st) sid' fc'
                (2 * py_len values :: bs) ltac:(discriminate) Hfc) as Hp.
  cbn [app] in Hp |- *. rewrite Hp.
  cbn [set_stats is_connected serial_connection]. do 2 f_equal.
  destruct (pack_registers_Some values bs Hpack) as (_ & _ & Hl & Hd).
  rewrite (registers_of_data _ (2 * py_len values) bs) by reflexivity.
  assert (Hn : Z.to_nat (2 * py_len values) = length bs)
    by (unfold py_len; lia).
  rewrite Hn, firstn_all.
  replace (py_len bs =? 2 * py_len values) with true
    by (symmetry; apply Z.eqb_eq; unfold py_len; lia).
  cbn [negb]. now rewrite Hd.
Qed.

Lemma read_registers_decodes_any_valid_reply_witness :
  _read_registers
    (mkMaster true
       (Some [fun _ => ReadReturns (Some [99; 0x04; 2; 0; 7; 1; 58])])
       initial_stats) 17 100 2 READ_HOLDING_REGISTERS
  = Some (mkMaster true (Some [])
            (incr_responses_received (incr_requests_sent initial_stats)),
          (Some [7], None)).
Proof.
  apply (read_registers_decodes_any_valid_reply initial_stats
           (fun _ => ReadReturns (Some [99; 0x04; 2; 0; 7; 1; 58])) []
           17 100 2 99 0x04 READ_HOLDING_REGISTERS
           [17; 0x03; 0; 100; 0; 2; 135; 68] [7] [0; 7]).
  - vm_compute. reflexivity.
  - reflexivity.
  - vm_compute. reflexivity.
  - reflexivity.
Defined.

(** X15. For a valid, non-exception response, [_read_registers] trusts the
    byte-count field: it reports "Incomplete register data" when fewer data
    bytes follow than the field announces, and otherwise decodes exactly the
    announced bytes, ignoring any surplus, into [byte_count // 2] registers;
    a response without data bytes is "Invalid response data". *)
Theorem read_registers_trusts_byte_count (response : ModbusResponse) :
  timeout response = false ->
  crc_error response = false ->
  exception_code response = None ->
  (data response = None \/ data response = Some [] ->
   registers_of_response response
   = (None, Some "Invalid response data"%string)) /\
  (forall n rest,
      data response = Some (n :: rest) -> 0 <= n ->
      (py_len rest < n ->
       registers_of_response response
       = (None, Some "Incomplete register data"%string)) /\
      (n <= py_len rest ->
       registers_of_response response
       = (Some (decode_registers (firstn (Z.to_nat n) rest)), None) /\
       py_len (decode_registers (firstn (Z.to_nat n) rest)) = n / 2)).
Proof.
  intros Ht Hc He. split.
  - intros [Hd | Hd]; unfold registers_of_response, is_exception;
      now rewrite Ht, Hc, He, Hd.
  - intros n rest Hd Hn.
    rewrite (registers_of_data response n rest Ht Hc He Hd).
    unfold py_len. rewrite length_take. split.
    + intros Hshort.
      replace (Z.of_nat (Z.to_nat n `min` length rest) =? n) with false
        by (symmetry; apply Z.eqb_neq; lia).
      reflexivity.
    + intros Hlong.
      replace (Z.of_nat (Z.to_nat n `min` length rest) =? n) with true
        by (symmetry; apply Z.eqb_eq; lia).
      split; [reflexivity|].
      destruct (decode_registers_pairs (take (Z.to_nat n) rest)) as (Hl & _).
      rewrite Hl, length_take.
      replace (Z.to_nat n `min` length rest)%nat with (Z.to_nat n) by lia.
      rewrite Nat2Z.inj_div, Z2Nat.id by lia. reflexivity.
Qed.

Lemma read_registers_trusts_byte_count_witness :
  registers_of_response
    (mkResponse (Some 17) (Some 3) (Some [4; 0; 1]) None false false None)
  = (None, Some "Incomplete register data"%string) /\
  registers_of_response
    (mkResponse (Some 17) (Some 3) (Some [3; 0; 1; 0; 2; 0; 3]) None
                false false None)
  = (Some [1], None).
Proof.
  split.
  - destruct (read_registers_trusts_byte_count
                (mkResponse (Some 17) (Some 3) (Some [4; 0; 1]) None
                            false false None) eq_refl eq_refl eq_refl)
      as [_ H].
    apply (H 4 [0; 1] eq_refl); [lia | unfold py_len; simpl; lia].
  - destruct (read_registers_trusts_byte_count
                (mkResponse (Some 17) (Some 3) (Some [3; 0; 1; 0; 2; 0; 3]) None
                            false false None) eq_refl eq_refl eq_refl)
      as [_ H].
    destruct (H 3 [0; 1; 0; 2; 0; 3] eq_refl) as [_ Hok]; [lia|].
    destruct Hok as [E _]; [unfold py_len; simpl; lia|]. exact E.
Defined.

Section Writes.

Lemma parse_exception_frame (st : Stats) (sid fc : Z) (payload : list Z) :
  payload <> [] -> Z.land fc 0x80 <> 0 ->
  _parse_response st
    ((sid :: fc :: payload)
     ++ [Z.land (calculate_crc (sid :: fc :: payload)) 255;
         Z.shiftr (calculate_crc (sid :: fc :: payload)) 8])
  = (incr_exceptions (incr_responses_received st),
     mkResponse (Some sid) (Some (Z.land fc 0x7F)) None
       (Some (byte_at payload 0)) false false
       (Some ((sid :: fc :: payload)
              ++ [Z.land (calculate_crc (sid :: fc :: payload)) 255;
                  Z.shiftr (calculate_crc (sid :: fc :: payload)) 8]))).
Proof.
  intros Hne Hfc.
  set (body := sid :: fc :: payload).
  set (lo := Z.land (calculate_crc body) 255).
  set (hi := Z.shiftr (calculate_crc body) 8).
  assert (H5 : 5 <= py_len (body ++ [lo; hi])).
  { unfold py_len. rewrite length_app. subst body.
    destruct payload; [contradiction|]. cbn [length]. lia. }
  assert (Hcrc : unpack_le_H (take_last 2 (body ++ [lo; hi]))
                 = calculate_crc (drop_last 2 (body ++ [lo; hi]))).
  { rewrite take_last_trailer, drop_last_trailer. apply unpack_crc_trailer. }
  destruct (parse_response_cases st (body ++ [lo; hi]))
    as [[Hs _] | [(_ & Hbad & _) | [(_ & _ & _ & E) | (_ & _ & Hh & _)]]];
    [lia | contradiction | | contradiction].
  rewrite E. subst body. destruct payload; [contradiction|]. reflexivity.
Qed.

Lemma pack_registers_length (values bs : list Z) :
  pack_registers values = Some bs -> length bs = (2 * length values)%nat.
Proof. intros E. now destruct (pack_registers_Some values bs E) as (_ & _ & H & _). Qed.

End Writes.

(** X16. The request of [write_single_register] is 8 bytes; when the device
    echoes it the write succeeds with no error, and when the device answers
    with the exception frame for the write (function 0x86) the write fails
    with "Modbus exception: " followed by the name of the exception code. *)
Theorem write_single_register_outcomes
  (st : Stats) (answer : list Z -> Exchange) (rest : Serial)
  (slave address v : Z) :
  is_byte slave -> is_u16 address -> is_u16 v ->
  exists request,
    read_request_frame slave (value WRITE_SINGLE_REGISTER) address v
    = Some request /\
    length request = 8%nat /\
    (answer request = ReadReturns (Some request) ->
     write_single_register (mkMaster true (Some (answer :: rest)) st)
                           slave address v
     = Some (mkMaster true (Some rest)
               (incr_responses_received (incr_requests_sent st)),
             (true, None))) /\
    (forall code,
        answer request
        = ReadReturns
            (Some ([slave; 0x86; code]
                   ++ [Z.land (calculate_crc [slave; 0x86; code]) 255;
                       Z.shiftr (calculate_crc [slave; 0x86; code]) 8])) ->
        write_single_register (mkMaster true (Some (answer :: rest)) st)
                              slave address v
        = Some (mkMaster true (Some rest)
                  (incr_exceptions
                     (incr_responses_received (incr_requests_sent st))),
                (false,
                 Some ("Modbus exception: "
                       ++ exception_name (exception_response code))%string))).
Proof.
  intros Hs Ha Hv.
  pose proof (read_request_frame_packed slave (value WRITE_SINGLE_REGISTER)
                address v Hs (value_is_byte _)
                (is_u16b_true _ Ha) (is_u16b_true _ Hv)) as Hreq.
  eexists. split; [exact Hreq|]. split; [reflexivity|]. split.
  - intros Hans. unfold write_single_register. rewrite Hreq, bind_Some.
    unfold _send_frame. cbn [is_connected serial_connection tl stats].
    rewrite Hans.
    pose proof (parse_data_frame (incr_requests_sent st) slave
                  (value WRITE_SINGLE_REGISTER)
                  [Z.shiftr address 8; Z.land address 255;
                   Z.shiftr v 8; Z.land v 255]
                  ltac:(discriminate) eq_refl) as Hp.
    cbn [app] in Hp |- *. rewrite Hp. reflexivity.
  - intros code Hans. unfold write_single_register. rewrite Hreq, bind_Some.
    unfold _send_frame. cbn [is_connected serial_connection tl stats].
    rewrite Hans.
    pose proof (parse_exception_frame (incr_requests_sent st) slave 0x86
                  [code] ltac:(discriminate) ltac:(discriminate)) as Hp.
    cbn [app] in Hp |- *. rewrite Hp. reflexivity.
Qed.

Lemma write_single_register_outcomes_witness :
  write_single_register
    (mkMaster true
       (Some [fun request => ReadReturns (Some request)]) initial_stats)
    17 100 2
  = Some (mkMaster true (Some [])
            (incr_responses_received (incr_requests_sent initial_stats)),
          (true, None)).
Proof.
  destruct (write_single_register_outcomes initial_stats
              (fun request => ReadReturns (Some request)) [] 17 100 2)
    as (request & _ & _ & Hecho & _).
  - unfold is_byte. lia.
  - unfold is_u16. lia.
  - unfold is_u16. lia.
  - apply Hecho. reflexivity.
Defined.

(** X17. [write_multiple_registers] raises before anything is sent when
    given 128 values or more (the byte count no longer fits its byte);
    given fewer values, all in 0..65535, its request is the 7-byte head
    (slave, 0x10, start address, count, byte count), two bytes per value and
    the CRC: [9 + 2 * count] bytes that [_parse_response] accepts. *)
Theorem write_multiple_request_bounds
  (m : ModbusMaster) (slave start_address : Z) (values : list Z) :
  (128 <= py_len values ->
   write_multiple_registers m slave start_address values = None) /\
  (py_len values < 128 ->
   is_byte slave -> is_u16 start_address -> Forall is_u16 values ->
   exists bs frame,
     pack_registers values = Some bs /\
     write_multiple_request slave start_address values = Some frame /\
     firstn 7 frame
     = [slave; 0x10; Z.shiftr start_address 8; Z.land start_address 255;
        Z.shiftr (py_len values) 8; Z.land (py_len values) 255;
        2 * py_len values] /\
     firstn (length bs) (skipn 7 frame) = bs /\
     length frame = (9 + 2 * length values)%nat /\
     is_valid (snd (_parse_response (stats m) frame)) = true).
Proof.
  split.
  - intros Hbig. unfold write_multiple_registers, write_multiple_request.
    assert (Hn : pack_B (py_len values * 2) = None).
    { unfold pack_B, is_byteb.
      replace (py_len values * 2 <? 256) with false
        by (symmetry; apply Z.ltb_ge; lia).
      now rewrite andb_false_r. }
    rewrite Hn.
    destruct (pack_registers values); [|reflexivity]. rewrite bind_Some.
    destruct (pack_be_H start_address); [|reflexivity]. rewrite bind_Some.
    destruct (pack_be_H (py_len values)); reflexivity.
  - intros Hsmall Hs Ha Hv.
    destruct (pack_registers_u16 values Hv) as [bs Hbs].
    pose proof (pack_registers_length values bs Hbs) as Hl.
    assert (Hcount : is_u16 (py_len values)) by (unfold is_u16, py_len in *; lia).
    assert (Hbc : is_byte (py_len values * 2)) by (unfold is_byte, py_len in *; lia).
    exists bs. eexists. split; [exact Hbs|].
    unfold write_multiple_request.
    rewrite Hbs, bind_Some, (pack_be_H_u16 _ Ha), bind_Some,
      (pack_be_H_u16 _ Hcount), bind_Some, (pack_B_byte _ Hbc), bind_Some,
      (pack_B_byte _ Hs), bind_Some,
      (pack_B_byte _ (value_is_byte WRITE_MULTIPLE_REGISTERS)), bind_Some,
      append_crc_trailer.
    split; [reflexivity|]. cbn [app value].
    split; [cbn [firstn]; do 7 f_equal; lia|].
    split; [cbn [skipn]; rewrite drop_0; now rewrite take_app_length|].
    split; [cbn [length]; rewrite length_app; cbn [length]; lia|].
    apply parse_accepts_iff. split.
    + unfold py_len. cbn [length]. rewrite length_app. cbn [length]. lia.
    + change (slave :: 16 :: ?a :: ?b :: ?c :: ?d :: ?e :: bs ++ ?t)
        with ((slave :: 16 :: a :: b :: c :: d :: e :: bs) ++ t).
      rewrite take_last_trailer, drop_last_trailer.
      apply unpack_crc_trailer.
Qed.

Lemma write_multiple_request_bounds_witness :
  write_multiple_registers (mkMaster true (Some []) initial_stats) 17 100
                           (repeat 0 128) = None /\
  exists frame,
    write_multiple_request 17 100 [1; 2] = Some frame /\
    length frame = 13%nat.
Proof.
  destruct (write_multiple_request_bounds
              (mkMaster true (Some []) initial_stats) 17 100 (repeat 0 128))
    as [Hbig _].
  destruct (write_multiple_request_bounds
              (mkMaster true (Some []) initial_stats) 17 100 [1; 2])
    as [_ Hsmall].
  split.
  - apply Hbig. unfold py_len. rewrite repeat_length. lia.
  - destruct Hsmall as (bs & frame & _ & E & _ & _ & Hl & _).
    + unfold py_len. simpl. lia.
    + unfold is_byte. lia.
    + unfold is_u16. lia.
    + repeat (constructor; [unfold is_u16; lia|]). constructor.
    + exists frame. split; [exact E | exact Hl].
Defined.

(** X18. [validate_configuration] always returns.  It accepts exactly when
    the new slave ID is in 1..247, the baud rate is in 300..1000000, and
    either the slave ID is unchanged or the probe of the new ID did not get
    a valid response; out-of-range values and an unchanged ID are decided
    without touching the bus. *)
Theorem validate_configuration_decision
  (m : ModbusMaster) (slave new_slave_id new_baudrate : Z) :
  exists m' ok msg,
    validate_configuration m slave new_slave_id new_baudrate
    = Some (m', (ok, msg)) /\
    (ok = true <->
     1 <= new_slave_id <= 247 /\ 300 <= new_baudrate <= 1000000 /\
     (new_slave_id = slave \/
      exists m1 r, probe_device m new_slave_id 65535 = Some (m1, r) /\
                   is_valid r = false)) /\
    (~ 1 <= new_slave_id <= 247 ->
     m' = m /\ msg = "Slave ID must be between 1 and 247"%string) /\
    (1 <= new_slave_id <= 247 -> ~ 300 <= new_baudrate <= 1000000 ->
     m' = m /\ msg = "Baud rate must be between 300 and 1,000,000"%string) /\
    (new_slave_id = slave -> m' = m).
Proof.
  unfold validate_configuration.
  destruct ((1 <=? new_slave_id) && (new_slave_id <=? 247)) eqn:Eid; cbn [negb].
  - apply andb_true_iff in Eid as [E1 E2].
    apply Z.leb_le in E1, E2.
    destruct ((300 <=? new_baudrate) && (new_baudrate <=? 1000000)) eqn:Eb;
      cbn [negb].
    + apply andb_true_iff in Eb as [E3 E4]. apply Z.leb_le in E3, E4.
      destruct (new_slave_id =? slave) eqn:Es; cbn [negb].
      * apply Z.eqb_eq in Es. exists m, true, "Configuration valid"%string.
        split; [reflexivity|]. split; [split; [intros _|]; tauto|].
        split; [intros H; lia|]. split; [intros _ H; lia | reflexivity].
      * apply Z.eqb_neq in Es.
        destruct (probe_device_returns m new_slave_id) as (m1 & r & Ep);
          [unfold is_byte; lia|].
        rewrite Ep, bind_Some. destruct (is_valid r) eqn:Ev.
        -- eexists m1, false, _. split; [reflexivity|]. split.
           ++ split; [discriminate|]. intros (_ & _ & [H | (m2 & r2 & E & Hr)]);
                [contradiction|].
              injection E as <- <-. rewrite Ev in Hr. discriminate Hr.
           ++ split; [intros H; lia|]. split; [intros _ H; lia|].
              intros H; contradiction.
        -- eexists m1, true, _. split; [reflexivity|]. split.
           ++ split; [intros _|reflexivity].
              split; [lia|]. split; [lia|]. right. eauto.
           ++ split; [intros H; lia|]. split; [intros _ H; lia|].
              intros H; contradiction.
    + exists m, false, "Baud rate must be between 300 and 1,000,000"%string.
      apply andb_false_iff in Eb.
      assert (Hb : ~ 300 <= new_baudrate <= 1000000).
      { destruct Eb as [E | E]; [apply Z.leb_gt in E | apply Z.leb_gt in E]; lia. }
      split; [reflexivity|]. split; [split; [discriminate | tauto]|].
      split; [intros H; lia|]. split; [split; reflexivity | reflexivity].
  - exists m, false, "Slave ID must be between 1 and 247"%string.
    apply andb_false_iff in Eid.
    assert (Hi : ~ 1 <= new_slave_id <= 247).
    { destruct Eid as [E | E]; [apply Z.leb_gt in E | apply Z.leb_gt in E]; lia. }
    split; [reflexivity|]. split; [split; [discriminate | tauto]|].
    split; [split; reflexivity|]. split; [intros H; contradiction | reflexivity].
Qed.

Section CommunicationTest.

Implicit Types (m : ModbusMaster) (line : Serial).



End CommunicationTest.



(** * Further properties of the passive monitor *)

Section Validity.

Implicit Types (p : DetectedProtocols) (frame : list Z).

Lemma existsb_head (f : Z -> bool) (b : Z) (l : list Z) :
  f b = true -> existsb f (b :: l) = true.
Proof. intros H. cbn [existsb]. now rewrite H. Qed.

Lemma plausible_iff (b : Z) : plausible_slave_id b = true <-> 1 <= b <= 247.
Proof.
  unfold plausible_slave_id. rewrite andb_true_iff, !Z.leb_le. tauto.
Qed.

(** The three tests of [_analyze_frame_validity] on a frame of at least four
    bytes from a plausible slave: the RTU test decides only which flag is
    set. *)
Lemma analyze_plausible p frame :
  4 <= py_len frame -> plausible_slave_id (byte_at frame 0) = true ->
  _analyze_frame_validity p frame
  = (true,
     if (py_in (byte_at frame 1) valid_functions
         || py_in (byte_at frame 1) exception_functions)
        && (5 <=? py_len frame)
        && (unpack_le_H (take_last 2 frame)
            =? calculate_crc (drop_last 2 frame))
     then mkProtocols true (modbus_ascii p) (custom p)
     else if byte_at frame 0 =? 58
          then mkProtocols (modbus_rtu p) true (custom p)
          else mkProtocols (modbus_rtu p) (modbus_ascii p) true).
Proof.
  intros H4 Hp. unfold _analyze_frame_validity.
  replace (py_len frame <? 4) with false by (symmetry; apply Z.ltb_ge; lia).
  rewrite Hp. cbn [negb].
  destruct (_ && _ && _); [reflexivity|].
  destruct (byte_at frame 0 =? 58); [reflexivity|].
  destruct frame as [|b frame]; [unfold py_len in H4; cbn in H4; lia|].
  rewrite (existsb_head _ b frame Hp). reflexivity.
Qed.

Lemma analyze_rejected p frame :
  py_len frame < 4 \/ plausible_slave_id (byte_at frame 0) = false ->
  _analyze_frame_validity p frame = (false, p).
Proof.
  intros H. unfold _analyze_frame_validity.
  destruct (py_len frame <? 4) eqn:E4; [reflexivity|].
  apply Z.ltb_ge in E4. destruct H as [H | H]; [lia|].
  rewrite H. reflexivity.
Qed.

Lemma analyze_flags_grow p frame :
  (modbus_rtu p = true ->
   modbus_rtu (snd (_analyze_frame_validity p frame)) = true) /\
  (modbus_ascii p = true ->
   modbus_ascii (snd (_analyze_frame_validity p frame)) = true) /\
  (custom p = true -> custom (snd (_analyze_frame_validity p frame)) = true).
Proof.
  unfold _analyze_frame_validity.
  repeat match goal with
         | |- context [if ?c then _ else _] => destruct c
         end; cbn [snd modbus_rtu modbus_ascii custom]; tauto.
Qed.

Lemma process_frame_protocols (m : RS485PassiveMonitor) frame (now : Z) :
  detected_protocols (_process_frame m frame now)
  = snd (_analyze_frame_validity (detected_protocols m) frame).
Proof.
  unfold _process_frame.
  destruct (_analyze_frame_validity (detected_protocols m) frame) as [a p'].
  cbn [snd]. destruct a; cbn [negb]; [|reflexivity].
  cbn [slave_ids]. destruct (_ || _); [|reflexivity].
  unfold _update_wave_stats. cbn [detected_protocols slave_stats slave_ids].
  destruct (update_poll _ _ _ _). reflexivity.
Qed.

Lemma accepts_plausible frame :
  accepts frame = true -> 4 <= py_len frame /\ 1 <= byte_at frame 0 <= 247.
Proof.
  unfold accepts. intros H.
  destruct (Z.lt_ge_cases (py_len frame) 4) as [Hs | Hl].
  - rewrite analyze_rejected in H by (left; exact Hs). discriminate H.
  - destruct (plausible_slave_id (byte_at frame 0)) eqn:Ep.
    + split; [exact Hl | now apply plausible_iff].
    + rewrite analyze_rejected in H by (right; exact Ep). discriminate H.
Qed.

End Validity.

(** X20. The monitor accepts a frame exactly when it has at least four
    bytes and its first byte is a plausible slave ID (1..247): neither an
    unknown function code nor a wrong CRC makes it reject a frame. *)
Theorem accepts_iff_plausible_first_byte (frame : list Z) :
  accepts frame = true <-> 4 <= py_len frame /\ 1 <= byte_at frame 0 <= 247.
Proof.
  unfold accepts. split.
  - intros H.
    destruct (Z.lt_ge_cases (py_len frame) 4) as [Hs | Hl].
    + rewrite analyze_rejected in H by (left; exact Hs). discriminate H.
    + destruct (plausible_slave_id (byte_at frame 0)) eqn:Ep.
      * split; [exact Hl | now apply plausible_iff].
      * rewrite analyze_rejected in H by (right; exact Ep). discriminate H.
  - intros [Hl Hp]. apply plausible_iff in Hp.
    now rewrite (analyze_plausible _ frame Hl Hp).
Qed.

(** X21. The RTU flag is set only by evidence: a frame sets
    [modbus_rtu] exactly when it has at least five bytes, a plausible slave
    ID, a known function code (or one with the exception bit) and a matching
    CRC, and such a frame leaves the other two flags alone; any other
    accepted frame sets [modbus_ascii] if it starts with ':' and [custom]
    otherwise. *)
Theorem rtu_flag_requires_valid_crc (p : DetectedProtocols) (frame : list Z) :
  modbus_rtu p = false ->
  (modbus_rtu (snd (_analyze_frame_validity p frame)) = true <->
   5 <= py_len frame /\ 1 <= byte_at frame 0 <= 247 /\
   (py_in (byte_at frame 1) valid_functions = true \/
    py_in (byte_at frame 1) exception_functions = true) /\
   unpack_le_H (take_last 2 frame) = calculate_crc (drop_last 2 frame)) /\
  (modbus_rtu (snd (_analyze_frame_validity p frame)) = true ->
   modbus_ascii (snd (_analyze_frame_validity p frame)) = modbus_ascii p /\
   custom (snd (_analyze_frame_validity p frame)) = custom p) /\
  (accepts frame = true ->
   modbus_rtu (snd (_analyze_frame_validity p frame)) = false ->
   if byte_at frame 0 =? 58
   then modbus_ascii (snd (_analyze_frame_validity p frame)) = true
   else custom (snd (_analyze_frame_validity p frame)) = true).
Proof.
  intros Hr.
  destruct (Z.lt_ge_cases (py_len frame) 4) as [Hs | Hl].
  { rewrite analyze_rejected by (left; exact Hs). cbn [snd]. rewrite Hr.
    split; [split; [discriminate | lia]|]. split; [discriminate|].
    intros Ha. apply accepts_plausible in Ha. lia. }
  destruct (plausible_slave_id (byte_at frame 0)) eqn:Ep.
  2:{ rewrite analyze_rejected by (right; exact Ep). cbn [snd]. rewrite Hr.
      split; [split; [discriminate|]|].
      - intros (_ & Hp & _). apply plausible_iff in Hp. congruence.
      - split; [discriminate|]. intros Ha. apply accepts_plausible in Ha.
        destruct Ha as [_ Hp]. apply plausible_iff in Hp. congruence. }
  rewrite (analyze_plausible p frame Hl Ep). cbn [snd].
  pose proof (proj1 (plausible_iff _) Ep) as Hp.
  destruct (py_in (byte_at frame 1) valid_functions
            || py_in (byte_at frame 1) exception_functions) eqn:Ef;
    cbn [andb].
  - destruct (5 <=? py_len frame) eqn:E5; cbn [andb].
    + apply Z.leb_le in E5.
      destruct (unpack_le_H (take_last 2 frame)
                =? calculate_crc (drop_last 2 frame)) eqn:Ec.
      * apply Z.eqb_eq in Ec. cbn [modbus_rtu modbus_ascii custom].
        split; [split; [intros _|reflexivity]|].
        -- apply orb_true_iff in Ef. tauto.
        -- split; [tauto|]. discriminate.
      * apply Z.eqb_neq in Ec.
        destruct (byte_at frame 0 =? 58);
          cbn [modbus_rtu modbus_ascii custom]; rewrite Hr;
          (split; [split; [discriminate | tauto]|]);
          (split; [discriminate | reflexivity]).
    + apply Z.leb_gt in E5.
      destruct (byte_at frame 0 =? 58);
        cbn [modbus_rtu modbus_ascii custom]; rewrite Hr;
        (split; [split; [discriminate | lia]|]);
        (split; [discriminate | reflexivity]).
  - apply orb_false_iff in Ef as [Ef1 Ef2].
    destruct (byte_at frame 0 =? 58);
      cbn [modbus_rtu modbus_ascii custom]; rewrite Hr;
      (split; [split; [discriminate|]|]);
      try (intros (_ & _ & [H | H] & _); congruence);
      (split; [discriminate | reflexivity]).
Qed.

Lemma rtu_flag_requires_valid_crc_witness :
  modbus_rtu (snd (_analyze_frame_validity (mkProtocols false false false)
                     frame_from_17)) = true /\
  custom (snd (_analyze_frame_validity (mkProtocols false false false)
                 [17; 0x03; 4; 0; 1; 0; 2; 59; 0])) = true.
Proof.
  split.
  - apply (proj1 (rtu_flag_requires_valid_crc (mkProtocols false false false)
                    frame_from_17 eq_refl)).
    vm_compute. repeat split; try discriminate. left. reflexivity.
  - apply (proj2 (proj2 (rtu_flag_requires_valid_crc
                           (mkProtocols false false false)
                           [17; 0x03; 4; 0; 1; 0; 2; 59; 0] eq_refl)));
      vm_compute; reflexivity.
Defined.

Section Sessions.

Implicit Types (m : RS485PassiveMonitor) (frame : list Z) (now sid : Z).
Implicit Types (frames : list (list Z * Z)).

Lemma process_frames_snoc m frames frame now :
  process_frames m (frames ++ [(frame, now)])
  = _process_frame (process_frames m frames) frame now.
Proof. unfold process_frames. now rewrite fold_left_app. Qed.

(** An invariant of [_process_frame] that holds at the start holds after
    any session. *)
Lemma process_frames_invariant (P : RS485PassiveMonitor -> Prop) :
  (forall m frame now, P m -> P (_process_frame m frame now)) ->
  forall frames m, P m -> P (process_frames m frames).
Proof.
  intros Hstep frames. induction frames as [|[frame now] frames IH];
    intros m Hm; [exact Hm|].
  apply IH, Hstep, Hm.
Qed.

Lemma process_frame_slave_ids m frame now :
  slave_ids (_process_frame m frame now) = slave_ids m \/
  (slave_ids m = ∅ /\ accepts frame = true /\
   slave_ids (_process_frame m frame now) = {[byte_at frame 0]}).
Proof.
  destruct (process_frame_cases m frame now) as [(H & _) | [Ha Hf]];
    [left; exact H|].
  destruct (process_accepted_frame m frame now Ha Hf) as (Hi & _).
  destruct Hf as [He | Hin].
  - right. split; [exact He|]. split; [exact Ha|]. rewrite Hi, He. set_solver.
  - left. rewrite Hi. set_solver.
Qed.

End Sessions.

(** X22. Protocol flags are sticky, and RTU wins: no frame ever clears a
    flag, so once a session has seen one RTU frame [get_protocol_name]
    answers "Modbus RTU" whatever follows. *)
Theorem protocol_detection_is_sticky
  (m : RS485PassiveMonitor) (frames : list (list Z * Z)) :
  (modbus_rtu (detected_protocols m) = true ->
   modbus_rtu (detected_protocols (process_frames m frames)) = true /\
   get_protocol_name (detected_protocols (process_frames m frames))
   = "Modbus RTU"%string) /\
  (modbus_ascii (detected_protocols m) = true ->
   modbus_ascii (detected_protocols (process_frames m frames)) = true) /\
  (custom (detected_protocols m) = true ->
   custom (detected_protocols (process_frames m frames)) = true).
Proof.
  assert (Hflags :
    (modbus_rtu (detected_protocols m) = true ->
     modbus_rtu (detected_protocols (process_frames m frames)) = true) /\
    (modbus_ascii (detected_protocols m) = true ->
     modbus_ascii (detected_protocols (process_frames m frames)) = true) /\
    (custom (detected_protocols m) = true ->
     custom (detected_protocols (process_frames m frames)) = true)).
  { apply (process_frames_invariant
             (fun m' =>
                (modbus_rtu (detected_protocols m) = true ->
                 modbus_rtu (detected_protocols m') = true) /\
                (modbus_ascii (detected_protocols m) = true ->
                 modbus_ascii (detected_protocols m') = true) /\
                (custom (detected_protocols m) = true ->
                 custom (detected_protocols m') = true))); [|tauto].
    intros m' frame now (H1 & H2 & H3).
    rewrite process_frame_protocols.
    destruct (analyze_flags_grow (detected_protocols m') frame)
      as (G1 & G2 & G3).
    tauto. }
  destruct Hflags as (H1 & H2 & H3).
  split; [|split; assumption].
  intros Hr. split; [apply H1, Hr|].
  unfold get_protocol_name. now rewrite (H1 Hr).
Qed.

Lemma protocol_detection_is_sticky_witness :
  get_protocol_name
    (detected_protocols
       (process_frames monitor_after_first_frame
          [([58; 0x30; 0x31; 0x30]%Z, 100000); ([9; 9; 9; 9]%Z, 200000)]))
  = "Modbus RTU"%string.
Proof.
  apply (proj1 (protocol_detection_is_sticky monitor_after_first_frame
                  [([58; 0x30; 0x31; 0x30]%Z, 100000);
                   ([9; 9; 9; 9]%Z, 200000)])).
  vm_compute. reflexivity.
Defined.

(** X23. Auto-discovery stops at the first slave: a monitor whose slave set
    is not empty never changes it, a monitor whose slave set is empty adopts
    the slave of the first accepted frame, and so a monitor created without
    a slave list knows at most one slave after any session. *)
Theorem discovery_stops_at_first_slave :
  (forall m frame now,
      slave_ids m <> ∅ -> slave_ids (_process_frame m frame now) = slave_ids m) /\
  (forall m frame now,
      slave_ids m = ∅ -> accepts frame = true ->
      slave_ids (_process_frame m frame now) = {[byte_at frame 0]}) /\
  (forall (threshold : float) (frames : list (list Z * Z)),
      slave_ids (process_frames (new_monitor [] threshold) frames) = ∅ \/
      exists sid,
        slave_ids (process_frames (new_monitor [] threshold) frames) = {[sid]}).
Proof.
  split; [|split].
  - intros m frame now Hne.
    destruct (process_frame_slave_ids m frame now) as [H | (He & _)];
      [exact H | contradiction].
  - intros m frame now He Ha.
    assert (Hf : slave_ids m = ∅ \/ byte_at frame 0 ∈ slave_ids m)
      by (left; exact He).
    destruct (process_accepted_frame m frame now Ha Hf) as (Hi & _).
    rewrite Hi, He. set_solver.
  - intros threshold frames.
    apply (process_frames_invariant
             (fun m => slave_ids m = ∅ \/ exists sid, slave_ids m = {[sid]}));
      [|left; reflexivity].
    intros m frame now Hm.
    destruct (process_frame_slave_ids m frame now) as [H | (_ & _ & H)].
    + rewrite H. exact Hm.
    + right. eauto.
Qed.

Lemma discovery_stops_at_first_slave_witness :
  slave_ids (_process_frame monitor_after_first_frame
               [9; 0x03; 2; 0; 1; 0; 0] 100000)
  = slave_ids monitor_after_first_frame.
Proof.
  apply (proj1 discovery_stops_at_first_slave).
  intros H. apply (f_equal (fun s : gset Z => bool_decide (17 ∈ s))) in H.
  vm_compute in H. discriminate H.
Defined.

(** X24. A frame that is not accepted, or whose slave is filtered out by a
    non-empty slave set, changes no statistics: slave set, thresholds,
    polling entries, wave entries and queue are as before (a rejected frame
    leaves the whole monitor as it was). *)
Theorem ignored_frame_changes_nothing
  (m : RS485PassiveMonitor) (frame : list Z) (now : Z) :
  (accepts frame = false -> _process_frame m frame now = m) /\
  (slave_ids m <> ∅ -> byte_at frame 0 ∉ slave_ids m ->
   slave_ids (_process_frame m frame now) = slave_ids m /\
   wave_gap_threshold (_process_frame m frame now) = wave_gap_threshold m /\
   slave_stats (_process_frame m frame now) = slave_stats m /\
   wave_stats (_process_frame m frame now) = wave_stats m /\
   data_queue (_process_frame m frame now) = data_queue m).
Proof.
  split.
  - intros Ha. unfold _process_frame.
    assert (E : _analyze_frame_validity (detected_protocols m) frame
                = (false, detected_protocols m)).
    { apply analyze_rejected.
      destruct (Z.lt_ge_cases (py_len frame) 4) as [Hs | Hl]; [left; exact Hs|].
      right. destruct (plausible_slave_id (byte_at frame 0)) eqn:Ep;
        [|reflexivity].
      unfold accepts in Ha. rewrite (analyze_plausible _ frame Hl Ep) in Ha.
      discriminate Ha. }
    rewrite E. cbn [negb]. destruct m. reflexivity.
  - intros Hne Hnin. unfold _process_frame.
    destruct (_analyze_frame_validity (detected_protocols m) frame) as [a p'].
    destruct a; cbn [negb]; [|repeat split].
    cbn [slave_ids].
    rewrite (bool_decide_eq_false_2 _ Hne), (bool_decide_eq_false_2 _ Hnin).
    repeat split.
Qed.

Lemma ignored_frame_changes_nothing_witness :
  _process_frame monitor_after_first_frame [0; 3; 0; 0; 0; 1] 100000
  = monitor_after_first_frame /\
  slave_stats (_process_frame monitor_after_first_frame
                 [9; 0x03; 2; 0; 1; 0; 0] 100000)
  = slave_stats monitor_after_first_frame.
Proof.
  split.
  - apply (proj1 (ignored_frame_changes_nothing monitor_after_first_frame
                    [0; 3; 0; 0; 0; 1] 100000)).
    vm_compute. reflexivity.
  - apply (proj2 (ignored_frame_changes_nothing monitor_after_first_frame
                    [9; 0x03; 2; 0; 1; 0; 0] 100000)).
    + intros H. apply (f_equal (fun s : gset Z => bool_decide (17 ∈ s))) in H.
      vm_compute in H. discriminate H.
    + intros H. apply (bool_decide_pack _) in H. vm_compute in H. exact H.
Defined.

Section Histories.

Implicit Types (m : RS485PassiveMonitor) (frame : list Z) (now sid : Z).

Lemma deque_append_bound {A} (n : nat) (d : list A) (x : A) :
  (1 <= n)%nat -> (length d <= n)%nat ->
  (length (deque_append n d x) <= n)%nat.
Proof.
  intros Hn Hd. unfold deque_append.
  destruct (n <=? length d)%nat eqn:E.
  - apply Nat.leb_le in E. rewrite length_app. cbn [length].
    destruct d; cbn [tl length] in *; lia.
  - apply Nat.leb_gt in E. rewrite length_app. cbn [length]. lia.
Qed.

Lemma update_poll_bound (st : SlaveStats) sid now frame :
  (length (intervals st) <= 100)%nat ->
  (length (intervals (fst (update_poll st sid now frame))) <= 100)%nat.
Proof.
  intros H. unfold update_poll.
  destruct (last_seen st); [|exact H].
  destruct (PrimFloat.leb _ _); [|exact H].
  cbn [fst intervals]. apply deque_append_bound; [lia | exact H].
Qed.

Lemma close_wave_bound (ws : WaveStats) (cws lmt : Z) :
  (length (waves ws) <= 100)%nat ->
  (length (wave_intervals ws) <= 100)%nat ->
  (length (waves (close_wave ws cws lmt)) <= 100)%nat /\
  (length (wave_intervals (close_wave ws cws lmt)) <= 100)%nat.
Proof.
  intros Hw Hi. unfold close_wave.
  destruct (1 <? py_len _); cbn [waves wave_intervals];
    (split; [apply deque_append_bound; [lia | exact Hw]|]);
    [apply deque_append_bound; [lia | exact Hi] | exact Hi].
Qed.

Lemma update_wave_bound (threshold : float) (ws : WaveStats) now :
  (length (waves ws) <= 100)%nat ->
  (length (wave_intervals ws) <= 100)%nat ->
  (length (waves (update_wave threshold ws now)) <= 100)%nat /\
  (length (wave_intervals (update_wave threshold ws now)) <= 100)%nat.
Proof.
  intros Hw Hi. unfold update_wave.
  destruct (last_msg_time ws) as [lmt|]; [|split; assumption].
  destruct (PrimFloat.ltb threshold _); [|split; assumption].
  destruct (current_wave_start ws) as [cws|]; [|split; assumption].
  cbn [set_last_msg_time start_wave waves wave_intervals].
  apply close_wave_bound; assumption.
Qed.

Lemma process_frame_other_slave m frame now (other : Z) :
  other <> byte_at frame 0 ->
  slave_stats (_process_frame m frame now) !! other = slave_stats m !! other /\
  wave_stats (_process_frame m frame now) !! other = wave_stats m !! other.
Proof.
  intros Hne.
  destruct (process_frame_cases m frame now) as [(_ & Hs & Hw & _) | [Ha Hf]].
  - now rewrite Hs, Hw.
  - destruct (process_accepted_frame m frame now Ha Hf) as (_ & _ & Hw & Hs & _).
    rewrite Hs, Hw, !lookup_insert_ne by congruence. split; reflexivity.
Qed.

Lemma process_frame_bounded m frame now :
  (forall sid, histories_bounded m sid) ->
  forall sid, histories_bounded (_process_frame m frame now) sid.
Proof.
  intros Hb sid. unfold histories_bounded in *.
  destruct (decide (sid = byte_at frame 0)) as [->|Hne].
  - destruct (process_frame_cases m frame now)
      as [(_ & Hs & Hw & _) | [Ha Hf]].
    + unfold slave_stats_at, wave_stats_at. rewrite Hs, Hw. apply Hb.
    + destruct (process_accepted_frame m frame now Ha Hf)
        as (_ & _ & Hw & Hs & _).
      destruct (Hb (byte_at frame 0)) as (B1 & B2 & B3).
      unfold slave_stats_at at 1, wave_stats_at at 1 2.
      rewrite Hs, Hw, !lookup_insert_eq. cbn [default].
      split; [apply update_poll_bound, B1|].
      apply update_wave_bound; assumption.
  - destruct (process_frame_other_slave m frame now sid Hne) as [Hs Hw].
    unfold slave_stats_at, wave_stats_at. rewrite Hs, Hw. apply Hb.
Qed.

(** What [update_poll] queues: nothing and no change, or one event of the
    slave and one more counted poll. *)
Lemma update_poll_event (st : SlaveStats) sid now frame :
  (update_poll st sid now frame = (st, None)) \/
  (exists e,
      snd (update_poll st sid now frame) = Some e /\
      ev_slave_id e = sid /\ ev_timestamp e = now /\
      count (fst (update_poll st sid now frame)) = count st + 1 /\
      last_seen (fst (update_poll st sid now frame)) = Some now).
Proof.
  unfold update_poll. destruct (last_seen st) as [seen|].
  - destruct (PrimFloat.leb _ _); [|left; reflexivity].
    right. eexists. cbn [fst snd]. repeat split.
  - right. eexists. cbn [fst snd]. repeat split.
Qed.

End Histories.

(** X25. The three histories of every slave are ring buffers of at most 100
    entries: after any session of a new monitor, the retained intervals,
    the closed waves and the wave intervals of each slave number at most
    100. *)
Theorem histories_stay_bounded
  (ids : list Z) (threshold : float) (frames : list (list Z * Z)) (sid : Z) :
  (length (intervals
             (slave_stats_at (process_frames (new_monitor ids threshold) frames)
                             sid)) <= 100)%nat /\
  (length (waves
             (wave_stats_at (process_frames (new_monitor ids threshold) frames)
                            sid)) <= 100)%nat /\
  (length (wave_intervals
             (wave_stats_at (process_frames (new_monitor ids threshold) frames)
                            sid)) <= 100)%nat.
Proof.
  revert sid.
  apply (process_frames_invariant (fun m => forall sid, histories_bounded m sid)).
  - intros m frame now. apply process_frame_bounded.
  - intros sid. unfold histories_bounded, slave_stats_at, wave_stats_at,
      new_monitor. cbn [slave_stats wave_stats]. rewrite !lookup_empty.
    cbn. lia.
Qed.

(** X26. After any session of a new monitor, every slave with a stored
    last-seen time is a known slave, and every slave with a last message
    time has an open wave. *)
Theorem session_keeps_monitor_consistent
  (ids : list Z) (threshold : float) (frames : list (list Z * Z)) (sid : Z) :
  (is_Some (last_seen
              (slave_stats_at (process_frames (new_monitor ids threshold) frames)
                              sid)) ->
   sid ∈ slave_ids (process_frames (new_monitor ids threshold) frames)) /\
  (is_Some (last_msg_time
              (wave_stats_at (process_frames (new_monitor ids threshold) frames)
                             sid)) ->
   is_Some (current_wave_start
              (wave_stats_at (process_frames (new_monitor ids threshold) frames)
                             sid))).
Proof.
  assert (H : monitor_consistent (process_frames (new_monitor ids threshold) frames)).
  { apply process_frames_invariant.
    - intros m frame now. apply process_frame_consistent.
    - apply new_monitor_consistent. }
  destruct H as [Hk Ho]. split; [apply Hk | apply Ho].
Qed.

Lemma session_keeps_monitor_consistent_witness :
  17 ∈ slave_ids (process_frames (new_monitor [] 0.5) [(frame_from_17, 0)]).
Proof.
  apply (proj1 (session_keeps_monitor_consistent [] 0.5 [(frame_from_17, 0)] 17)).
  vm_compute. eexists. reflexivity.
Defined.

(** X27. The first accepted frame of a slave that has no entries yet
    creates them: the slave is known, its count is 1 with the frame's time
    as last-seen time and no interval, a wave is opened with one message,
    and one event with interval 0 is queued. *)
Theorem first_frame_creates_entries
  (m : RS485PassiveMonitor) (frame : list Z) (now : Z) :
  accepts frame = true ->
  slave_ids m = ∅ \/ byte_at frame 0 ∈ slave_ids m ->
  slave_stats m !! byte_at frame 0 = None ->
  wave_stats m !! byte_at frame 0 = None ->
  byte_at frame 0 ∈ slave_ids (_process_frame m frame now) /\
  slave_stats (_process_frame m frame now) !! byte_at frame 0
  = Some (mkSlaveStats 1 (Some now) [] (PyInt 0)
                       (PyFloat PrimFloat.infinity) (PyInt 0)) /\
  wave_stats (_process_frame m frame now) !! byte_at frame 0
  = Some (mkWaveStats [] (Some now) 1 (Some now) [] (PyInt 0) (PyInt 0)
                      (PyFloat PrimFloat.infinity) (PyInt 0)) /\
  data_queue (_process_frame m frame now)
  = data_queue m
    ++ [mkEvent now (byte_at frame 0) (hex frame) (py_len frame) (PyInt 0)].
Proof.
  intros Ha Hf Hs Hw.
  destruct (process_accepted_frame m frame now Ha Hf)
    as (Hi & _ & Hw' & Hs' & Hq).
  unfold slave_stats_at in Hs', Hq. unfold wave_stats_at in Hw'.
  rewrite Hs in Hs', Hq. rewrite Hw in Hw'. cbn [default] in *.
  split; [rewrite Hi; set_solver|].
  split; [rewrite Hs', lookup_insert_eq; reflexivity|].
  split; [rewrite Hw', lookup_insert_eq; reflexivity|].
  rewrite Hq. reflexivity.
Qed.

Lemma first_frame_creates_entries_witness :
  slave_stats monitor_after_first_frame !! 17
  = Some (mkSlaveStats 1 (Some 0) [] (PyInt 0)
                       (PyFloat PrimFloat.infinity) (PyInt 0)).
Proof.
  apply (first_frame_creates_entries (new_monitor [] 0.5) frame_from_17 0).
  - vm_compute. reflexivity.
  - left. reflexivity.
  - reflexivity.
  - reflexivity.
Defined.

(** X28. A frame touches only the entries of its own slave: the polling
    entry and the wave entry of every other slave are as before, whatever
    the frame is. *)
Theorem frame_touches_only_its_slave
  (m : RS485PassiveMonitor) (frame : list Z) (now other : Z) :
  other <> byte_at frame 0 ->
  slave_stats (_process_frame m frame now) !! other = slave_stats m !! other /\
  wave_stats (_process_frame m frame now) !! other = wave_stats m !! other /\
  slave_stats_at (_process_frame m frame now) other = slave_stats_at m other /\
  wave_stats_at (_process_frame m frame now) other = wave_stats_at m other.
Proof.
  intros Hne.
  destruct (process_frame_other_slave m frame now other Hne) as [Hs Hw].
  unfold slave_stats_at, wave_stats_at. rewrite Hs, Hw. repeat split.
Qed.

Lemma frame_touches_only_its_slave_witness :
  slave_stats (_process_frame monitor_after_first_frame frame_from_17 500000)
  !! 9
  = slave_stats monitor_after_first_frame !! 9.
Proof.
  apply (frame_touches_only_its_slave monitor_after_first_frame frame_from_17
           500000 9).
  discriminate.
Defined.

Section Counting.

Implicit Types (m : RS485PassiveMonitor) (frame : list Z) (now sid : Z).

Lemma process_frame_counts m frame now :
  (forall sid,
      count (slave_stats_at m sid) = py_len (events_of sid (data_queue m))) ->
  forall sid,
    count (slave_stats_at (_process_frame m frame now) sid)
    = py_len (events_of sid (data_queue (_process_frame m frame now))).
Proof.
  intros Hinv sid.
  destruct (process_frame_cases m frame now) as [(_ & Hs & _ & Hq) | [Ha Hf]].
  - unfold slave_stats_at. rewrite Hs, Hq. apply Hinv.
  - destruct (process_accepted_frame m frame now Ha Hf)
      as (_ & _ & _ & Hs & Hq).
    rewrite Hq. unfold events_of. rewrite filter_app. unfold py_len.
    rewrite length_app, Nat2Z.inj_add.
    fold (events_of sid (data_queue m)). fold (py_len (events_of sid (data_queue m))).
    rewrite <- Hinv.
    destruct (update_poll_event (slave_stats_at m (byte_at frame 0))
                (byte_at frame 0) now frame)
      as [E | (e & Ee & Hid & _ & Hc & _)].
    + rewrite E in Hs |- *. cbn [fst snd] in Hs |- *. rewrite ?filter_nil; cbn [length].
      unfold slave_stats_at at 1. rewrite Hs.
      destruct (decide (byte_at frame 0 = sid)) as [<-|Hne].
      * rewrite lookup_insert_eq. cbn [default from_option id]. lia.
      * rewrite lookup_insert_ne by exact Hne.
        fold (slave_stats_at m sid). lia.
    + rewrite Ee. unfold slave_stats_at at 1. rewrite Hs.
      destruct (decide (byte_at frame 0 = sid)) as [<-|Hne].
      * rewrite lookup_insert_eq. cbn [default from_option id].
        rewrite filter_cons_True by exact Hid. rewrite ?filter_nil; cbn [length].
        rewrite Hc. lia.
      * rewrite lookup_insert_ne by exact Hne.
        rewrite filter_cons_False by (rewrite Hid; exact Hne).
        rewrite ?filter_nil; cbn [length]. fold (slave_stats_at m sid). lia.
Qed.

End Counting.

(** X29. The count of a slave is the number of events queued for it: after
    any session of a new monitor, each slave's message count equals the
    number of display events put on the queue with its slave ID. *)
Theorem count_matches_queued_events
  (ids : list Z) (threshold : float) (frames : list (list Z * Z)) (sid : Z) :
  count (slave_stats_at (process_frames (new_monitor ids threshold) frames) sid)
  = py_len (filter (fun e => ev_slave_id e = sid)
                   (data_queue (process_frames (new_monitor ids threshold)
                                               frames))).
Proof.
  revert sid.
  apply (process_frames_invariant
           (fun m => forall sid,
                count (slave_stats_at m sid)
                = py_len (events_of sid (data_queue m)))).
  - intros m frame now. apply process_frame_counts.
  - intros sid. unfold slave_stats_at, new_monitor. cbn [slave_stats].
    rewrite lookup_empty. reflexivity.
Qed.

Section Rates.

Implicit Types (m : RS485PassiveMonitor) (current_time sid : Z).

(** The loop of [get_current_rates] seen at once: the monitor reads as
    before, and the result has one entry per known slave and no other. *)
Lemma get_current_rates_result m current_time :
  slave_ids (fst (get_current_rates m current_time)) = slave_ids m /\
  wave_gap_threshold (fst (get_current_rates m current_time))
  = wave_gap_threshold m /\
  data_queue (fst (get_current_rates m current_time)) = data_queue m /\
  detected_protocols (fst (get_current_rates m current_time))
  = detected_protocols m /\
  (forall s, slave_stats_at (fst (get_current_rates m current_time)) s
             = slave_stats_at m s) /\
  (forall s, wave_stats_at (fst (get_current_rates m current_time)) s
             = wave_stats_at m s) /\
  (forall s, s ∈ slave_ids m ->
             snd (get_current_rates m current_time) !! s
             = Some (rate_entry (slave_stats_at m s) (wave_stats_at m s)
                                current_time)) /\
  (forall s, s ∉ slave_ids m ->
             snd (get_current_rates m current_time) !! s = None).
Proof.
  unfold get_current_rates.
  set (f := fun (sid : Z) '(m, rates) => _).
  apply (set_fold_ind_L
           (fun (acc : RS485PassiveMonitor * gmap Z RateInfo) (X : gset Z) =>
              slave_ids acc.1 = slave_ids m /\
              wave_gap_threshold acc.1 = wave_gap_threshold m /\
              data_queue acc.1 = data_queue m /\
              detected_protocols acc.1 = detected_protocols m /\
              (forall s, slave_stats_at acc.1 s = slave_stats_at m s) /\
              (forall s, wave_stats_at acc.1 s = wave_stats_at m s) /\
              (forall s, s ∈ X ->
                 acc.2 !! s
                 = Some (rate_entry (slave_stats_at m s) (wave_stats_at m s)
                                    current_time)) /\
              (forall s, s ∉ X -> acc.2 !! s = None))).
  - cbn [fst snd]. do 6 (split; [reflexivity|]). split.
    + intros s Hs. set_solver.
    + intros s _. apply lookup_empty.
  - intros x X [ma rates] Hx (Hi & Ht & Hq & Hp & Hst & Hws & Hin & Hout).
    subst f. cbn [fst snd] in *.
    split; [exact Hi|]. split; [exact Ht|]. split; [exact Hq|].
    split; [exact Hp|]. split; [|split; [|split]].
    + intros s. unfold slave_stats_at at 1. cbn [slave_stats].
      destruct (decide (x = s)) as [->|Hne].
      * rewrite lookup_insert_eq. apply Hst.
      * rewrite lookup_insert_ne by exact Hne. apply Hst.
    + intros s. unfold wave_stats_at at 1. cbn [wave_stats].
      destruct (decide (x = s)) as [->|Hne].
      * rewrite lookup_insert_eq. apply Hws.
      * rewrite lookup_insert_ne by exact Hne. apply Hws.
    + intros s Hs. destruct (decide (x = s)) as [->|Hne].
      * rewrite lookup_insert_eq, Hst, Hws. reflexivity.
      * rewrite lookup_insert_ne by exact Hne. apply Hin. set_solver.
    + intros s Hs. rewrite lookup_insert_ne by set_solver.
      apply Hout. set_solver.
Qed.

End Rates.

(** X30. [get_current_rates] reports exactly the known slaves and changes
    nothing that can be read back: the result has an entry for a slave if
    and only if the slave is in the slave set; slave set, queue and every
    slave's statistics read as before; and a known slave that has never
    been seen is reported idle, with infinite time since its last message,
    rate 0 and no message. *)
Theorem current_rates_cover_known_slaves
  (m : RS485PassiveMonitor) (current_time : Z) :
  (forall sid, is_Some (snd (get_current_rates m current_time) !! sid)
               <-> sid ∈ slave_ids m) /\
  slave_ids (fst (get_current_rates m current_time)) = slave_ids m /\
  data_queue (fst (get_current_rates m current_time)) = data_queue m /\
  (forall sid,
      slave_stats_at (fst (get_current_rates m current_time)) sid
      = slave_stats_at m sid /\
      wave_stats_at (fst (get_current_rates m current_time)) sid
      = wave_stats_at m sid) /\
  (forall sid,
      sid ∈ slave_ids m -> slave_stats m !! sid = None ->
      exists info,
        snd (get_current_rates m current_time) !! sid = Some info /\
        status info = status_text Idle /\
        time_since_last info = PrimFloat.infinity /\
        rate_hz info = PyInt 0 /\ period_ms info = PyInt 0 /\
        message_count info = 0).
Proof.
  destruct (get_current_rates_result m current_time)
    as (Hi & _ & Hq & _ & Hst & Hws & Hin & Hout).
  split; [|split; [exact Hi|split; [exact Hq|split]]].
  - intros sid. split.
    + intros [info E]. destruct (decide (sid ∈ slave_ids m)) as [H|H];
        [exact H|].
      rewrite (Hout sid H) in E. discriminate E.
    + intros H. rewrite (Hin sid H). eexists. reflexivity.
  - intros sid. split; [apply Hst | apply Hws].
  - intros sid Hs Hnone. eexists. split; [apply Hin, Hs|].
    unfold slave_stats_at. rewrite Hnone. cbn [default].
    repeat split.
Qed.

Lemma current_rates_cover_known_slaves_witness :
  exists info,
    snd (get_current_rates (new_monitor [5] 0.5) 1000000) !! 5 = Some info /\
    status info = status_text Idle /\
    message_count info = 0.
Proof.
  destruct (current_rates_cover_known_slaves (new_monitor [5] 0.5) 1000000)
    as (_ & _ & _ & _ & H).
  destruct (H 5) as (info & E & Hs & _ & _ & _ & Hm).
  - refine (bool_decide_unpack _ _). vm_compute. exact I.
  - reflexivity.
  - exists info. split; [exact E|]. split; [exact Hs | exact Hm].
Defined.
